(** * The ReAct agent loop and the transaction tools of Agentic-Summariser

    A shallow embedding of
      - archive_poc/archive_refactored/agents/base.py  (BaseAgent, run_agent_loop)
      - archive_poc/react.py                           (run_agent and its tools)
      - archive_poc/streaming.py                       (demo_streaming_with_tools)
      - archive_poc/archive_refactored/tools/spending.py, archive_poc/adding_tools.py
    followed by the properties of the loop and of the tools.

    Conventions of the embedding.
      - The chat model (ChatOllama) is an external collaborator: a state
        machine [Client] with an [invoke] and a [stream] transition, either of
        which may raise.
      - A LangChain tool is its name together with what [tool.invoke(args)]
        does: return a string or raise.
      - A Python function that mutates [messages] and may raise runs in the
        monad [M].  Two ghost fields record what the properties count: the
        calls made to the model, and the tokens a generator yields.
      - [print] and [_log] calls have no effect on the values and are left out.
      - Amounts (column tran_amt_in_ac) are exact hundredths, held as an
        integer number of cents; the data generator rounds every amount to
        two decimals. *)

From Stdlib Require Import ZArith Ascii String List Lia Bool Sorting.Sorted Permutation DecimalString.
From stdpp Require Import base option list strings gmap.

Local Open Scope Z_scope.

(** ** Values shared by all variants (langchain_core.messages, langchain_core.tools) *)

Inductive Exception : Type :=
| Exc (kind : string) (msg : string).

Inductive Outcome (A : Type) : Type :=
| Return (a : A)
| Raise (e : Exception).
Arguments Return {A} a.
Arguments Raise {A} e.

(** A JSON value in the argument dict of a tool call. *)
Inductive Value : Type :=
| VStr (s : string)
| VInt (n : Z).

(** [tool_call] dicts: {'name': ..., 'args': {...}, 'id': ...}. *)
Record ToolCall : Type := mkToolCall {
  call_name : string;
  call_args : list (string * Value);
  call_id : string
}.

(** The response of the model, and what a stream yields piece by piece. *)
Record AIMessage : Type := mkAIMessage {
  content : string;
  tool_calls : list ToolCall
}.

Record AIMessageChunk : Type := mkChunk {
  chunk_content : string;
  chunk_tool_calls : list ToolCall
}.

Inductive BaseMessage : Type :=
| HumanMessage (text : string)
| AI (response : AIMessage)
| ToolMessage (text : string) (tool_call_id : string).

(** A tool: its name and what [tool.invoke(args)] does; the string is
    [str(result)]. *)
Record BaseTool : Type := mkTool {
  name : string;
  tool_invoke : list (string * Value) -> Outcome string
}.

(** One model call as the ghost log keeps it: the conversation handed to
    the model and what the model answered. *)
Inductive Reply : Type :=
| Invoked (r : Outcome AIMessage)
| Streamed (r : Outcome (list AIMessageChunk)).

Record ModelCall : Type := mkModelCall {
  call_input : list BaseMessage;
  call_reply : Reply
}.

(** dict.get on an argument dict. *)
Fixpoint dict_get (key : string) (d : list (string * Value)) : option Value :=
  match d with
  | [] => None
  | (k, v) :: rest => if String.eqb k key then Some v else dict_get key rest
  end.

(** [{t.name: t for t in tools}]: a later tool of the same name replaces an
    earlier one. *)
Definition make_tool_map (tools : list BaseTool) : gmap string BaseTool :=
  fold_left (fun m t => <[name t := t]> m) tools ∅.

Definition nl : string := String (ascii_of_nat 10) EmptyString.

(** Python truthiness of a list and of a str. *)
Definition nonempty {A : Type} (l : list A) : bool :=
  match l with [] => false | _ :: _ => true end.

Definition nonempty_str (s : string) : bool :=
  match s with EmptyString => false | String _ _ => true end.

(** [range(start, stop)]. *)
Definition range (start stop : Z) : list Z :=
  map (fun i => start + Z.of_nat i) (seq 0 (Z.to_nat (stop - start))).

(** ** The monad of the loops: the conversation, the model, exceptions *)

Section Loop.

Context {Client : Type}.

(** [llm_with_tools.invoke(messages)] and [llm_with_tools.stream(messages)]. *)
Variable model_invoke : Client -> list BaseMessage -> Client * Outcome AIMessage.
Variable model_stream : Client -> list BaseMessage -> Client * Outcome (list AIMessageChunk).

Record Env : Type := mkEnv {
  messages : list BaseMessage;
  llm : Client;
  model_calls : list ModelCall;              (* ghost: one entry per model call *)
  yielded : list string                      (* ghost: tokens yielded so far *)
}.

Definition M (A : Type) : Type := Env -> Env * Outcome A.

Definition ret {A : Type} (a : A) : M A := fun s => (s, Return a).

Definition raise {A : Type} (e : Exception) : M A := fun s => (s, Raise e).

Definition bind {A B : Type} (m : M A) (k : A -> M B) : M B :=
  fun s =>
    match m s with
    | (s', Return a) => k a s'
    | (s', Raise e) => (s', Raise e)
    end.

Notation "x <- c1 ;; c2" := (bind c1 (fun x => c2))
  (at level 100, c1 at next level, right associativity).
Notation "c1 ;;; c2" := (bind c1 (fun _ => c2))
  (at level 100, right associativity).

Definition lift {A : Type} (o : Outcome A) : M A := fun s => (s, o).

(** [messages.append(m)] *)
Definition append (m : BaseMessage) : M unit :=
  fun s => (mkEnv (messages s ++ [m]) (llm s) (model_calls s) (yielded s), Return tt).

(** [yield token] *)
Definition yield (token : string) : M unit :=
  fun s => (mkEnv (messages s) (llm s) (model_calls s) (yielded s ++ [token]), Return tt).

(** [llm_with_tools.invoke(messages)] *)
Definition llm_invoke : M AIMessage :=
  fun s =>
    let '(c, r) := model_invoke (llm s) (messages s) in
    (mkEnv (messages s) c
       (model_calls s ++ [mkModelCall (messages s) (Invoked r)]) (yielded s), r).

(** [llm_with_tools.stream(messages)], drained by the [for chunk in ...] loop:
    the chunks of a stream that ends, or the exception of one that fails.
    A stream that fails is taken to fail before its first chunk: the chunks
    a failing stream may deliver before it raises are not modelled, so what
    is said about tokens is said of streams that end. *)
Definition llm_stream : M (list AIMessageChunk) :=
  fun s =>
    let '(c, r) := model_stream (llm s) (messages s) in
    (mkEnv (messages s) c
       (model_calls s ++ [mkModelCall (messages s) (Streamed r)]) (yielded s), r).

(** [for x in xs: body(x)] where the body neither breaks nor returns. *)
Fixpoint for_each {A : Type} (xs : list A) (body : A -> M unit) : M unit :=
  match xs with
  | [] => ret tt
  | x :: rest => body x ;;; for_each rest body
  end.

(** [for i in its: body(i)] followed by [return orelse]; the body answers
    [Some v] when it executes [return v]. *)
Fixpoint for_return {A : Type} (its : list Z) (body : Z -> M (option A)) (orelse : A) : M A :=
  match its with
  | [] => ret orelse
  | i :: rest =>
      r <- body i ;;
      match r with
      | Some v => ret v
      | None => for_return rest body orelse
      end
  end.

(** [iteration = start; while iteration < max_iterations: iteration += 1; body]
    followed by [return orelse].  [fuel] bounds the unfolding; [None] is
    the answer of an unfolding that ran out of fuel. *)
Fixpoint while_return {A : Type} (fuel : nat) (iteration max_iterations : Z)
    (body : Z -> M (option A)) (orelse : A) : M (option A) :=
  match fuel with
  | O => ret None
  | S fuel' =>
      if iteration <? max_iterations then
        let iteration := iteration + 1 in
        r <- body iteration ;;
        match r with
        | Some v => ret (Some v)
        | None => while_return fuel' iteration max_iterations body orelse
        end
      else ret (Some orelse)
  end.

(** The start of a run: [messages] as given, nothing logged. *)
Definition start (c : Client) (msgs : list BaseMessage) : Env := mkEnv msgs c [] [].

(** *** Tool execution shared by the loops

    [if tool_name in tool_map: result = tool_map[tool_name].invoke(tool_args)
     else: result = <unknown text>] *)
Definition call_tool (tool_map : gmap string BaseTool) (unknown : string -> string)
    (tool_call : ToolCall) : Outcome string :=
  let tool_name := call_name tool_call in
  let tool_args := call_args tool_call in
  match tool_map !! tool_name with
  | Some t => tool_invoke t tool_args
  | None => Return (unknown tool_name)
  end.

(** [for tool_call in tool_calls: result = ...;
       messages.append(ToolMessage(content=str(result), tool_call_id=tool_call['id']))] *)
Definition execute_tools (exec : ToolCall -> Outcome string) (calls : list ToolCall) : M unit :=
  for_each calls (fun tool_call =>
    result <- lift (exec tool_call) ;;
    append (ToolMessage result (call_id tool_call))).

(** The body of a blocking iteration:
    [response = llm_with_tools.invoke(messages)
     if response.tool_calls: messages.append(response); <execute each tool>
     else: return response.content] *)
Definition invoke_step (exec : ToolCall -> Outcome string) : M (option string) :=
  response <- llm_invoke ;;
  if nonempty (tool_calls response) then
    append (AI response) ;;;
    execute_tools exec (tool_calls response) ;;;
    ret None
  else ret (Some (content response)).

(** The draining loop of the streaming variants:
    [for chunk in llm_with_tools.stream(messages):
       if chunk.content: <emit>; collected_content += chunk.content
       if chunk.tool_calls: collected_tool_calls.extend(chunk.tool_calls)]
    [emit] is the [yield] of BaseAgent.stream and the [print] of the demo. *)
Fixpoint collect (emit : string -> M unit) (chunks : list AIMessageChunk)
    (collected_content : string) (collected_tool_calls : list ToolCall)
    : M (string * list ToolCall) :=
  match chunks with
  | [] => ret (collected_content, collected_tool_calls)
  | chunk :: rest =>
      collected_content' <-
        (if nonempty_str (chunk_content chunk) then
           emit (chunk_content chunk) ;;;
           ret (collected_content +:+ chunk_content chunk)
         else ret collected_content) ;;
      let collected_tool_calls' :=
        if nonempty (chunk_tool_calls chunk)
        then collected_tool_calls ++ chunk_tool_calls chunk
        else collected_tool_calls in
      collect emit rest collected_content' collected_tool_calls'
  end.

End Loop.

Notation "x <- c1 ;; c2" := (bind c1 (fun x => c2))
  (at level 100, c1 at next level, right associativity).
Notation "c1 ;;; c2" := (bind c1 (fun _ => c2))
  (at level 100, right associativity).

(** The body of a streaming iteration:
    [<drain the stream into collected_content, collected_tool_calls>
     if collected_tool_calls:
        messages.append(AIMessage(content=collected_content, tool_calls=collected_tool_calls))
        <execute each tool>
     else: return collected_content] *)
Definition stream_step {Client : Type}
    (model_stream : Client -> list BaseMessage -> Client * Outcome (list AIMessageChunk))
    (emit : string -> M unit) (exec : ToolCall -> Outcome string) : M (option string) :=
  chunks <- llm_stream model_stream ;;
  collected <- collect emit chunks "" [] ;;
  let collected_content := fst collected in
  let collected_tool_calls := snd collected in
  if nonempty collected_tool_calls then
    let ai_msg := mkAIMessage collected_content collected_tool_calls in
    append (AI ai_msg) ;;;
    execute_tools exec collected_tool_calls ;;;
    ret None
  else ret (Some collected_content).

(** ** archive_refactored/agents/base.py *)

Module Base.

(** The fields of a BaseAgent that the loop reads.  [model_name] and
    [temperature] only configure the ChatOllama client. *)
Record BaseAgent : Type := mkBaseAgent {
  tools : list BaseTool;
  system_prompt : string;
  max_iterations : Z;
  verbose : bool
}.

(** [BaseAgent(tools=None, system_prompt="", max_iterations=10, verbose=True)] *)
Definition init (tools : option (list BaseTool)) (system_prompt : option string)
    (max_iterations : option Z) (verbose : option bool) : BaseAgent :=
  mkBaseAgent
    (match tools with Some (t :: ts) => t :: ts | _ => [] end)   (* tools or [] *)
    (default "" system_prompt)
    (default 10 max_iterations)
    (default true verbose).

Definition tool_map (self : BaseAgent) : gmap string BaseTool :=
  make_tool_map (tools self).

(** [BaseAgent._execute_tool] *)
Definition _execute_tool (self : BaseAgent) (tool_call : ToolCall) : Outcome string :=
  call_tool (tool_map self)
    (fun tool_name => "Error: Unknown tool '" +:+ tool_name +:+ "'") tool_call.

(** The tool execution inside run_agent_loop:
    [if tool_name in tool_map: result = tool_map[tool_name].invoke(tool_args)
     else: result = f"Unknown tool: {tool_name}"] *)
Definition run_agent_loop_execute (tools : list BaseTool) (tool_call : ToolCall)
    : Outcome string :=
  call_tool (make_tool_map tools) (fun tool_name => "Unknown tool: " +:+ tool_name) tool_call.

Section WithModel.

Context {Client : Type}.
Variable model_invoke : Client -> list BaseMessage -> Client * Outcome AIMessage.
Variable model_stream : Client -> list BaseMessage -> Client * Outcome (list AIMessageChunk).

(** [BaseAgent.invoke] *)
Definition invoke (self : BaseAgent) (question : string) (client : Client)
    : Env * Outcome string :=
  for_return (range 1 (max_iterations self + 1))
    (fun iteration => invoke_step model_invoke (_execute_tool self))
    "Max iterations reached without final answer"
    (start client
       [HumanMessage (system_prompt self +:+ nl +:+ nl +:+ "Question: " +:+ question)]).

(** [BaseAgent.stream]: a generator; the tokens it yields are in [yielded]
    and its own return value is None. *)
Definition stream (self : BaseAgent) (question : string) (client : Client)
    : Env * Outcome unit :=
  for_return (range 1 (max_iterations self + 1))
    (fun iteration =>
       r <- stream_step model_stream yield (_execute_tool self) ;;
       ret (match r with Some _ => Some tt | None => None end))
    tt
    (start client
       [HumanMessage (system_prompt self +:+ nl +:+ nl +:+ "Question: " +:+ question)]).

(** [run_agent_loop(llm_with_tools, tools, messages, max_iterations, verbose)] *)
Definition run_agent_loop (tools : list BaseTool) (messages : list BaseMessage)
    (max_iterations : Z) (client : Client) : Env * Outcome string :=
  for_return (range 1 (max_iterations + 1))
    (fun iteration => invoke_step model_invoke (run_agent_loop_execute tools))
    "Max iterations reached"
    (start client messages).

End WithModel.

End Base.

(** ** archive_poc/react.py *)

Module React.

Section WithModel.

Context {Client : Type}.
Variable model_invoke : Client -> list BaseMessage -> Client * Outcome AIMessage.

(** The module-level list of the six decorated tools. *)
Variable TOOLS : list BaseTool.

(** The tool execution inside run_agent:
    [if tool_name in tool_map: tool_result = tool_map[tool_name].invoke(tool_args)
     else: tool_result = f"Error: Unknown tool {tool_name}"] *)
Definition execute (tool_call : ToolCall) : Outcome string :=
  call_tool (make_tool_map TOOLS) (fun tool_name => "Error: Unknown tool " +:+ tool_name)
    tool_call.

Definition prompt (user_question : string) : string :=
  "You are a financial analyst. Use the available tools to answer questions." +:+ nl +:+
  nl +:+
  "CRITICAL RULES:" +:+ nl +:+
  "1. Call the appropriate tool to get data" +:+ nl +:+
  "2. After receiving tool results, REPEAT THE EXACT NUMBERS in your answer" +:+ nl +:+
  "3. Your final answer MUST contain the specific dollar amounts and counts from the tool" +:+ nl +:+
  nl +:+
  "Question: " +:+ user_question.

(** [run_agent(llm_with_tools, user_question, verbose)].  The while loop is
    unfolded with more fuel than it has iterations; [None] would be an
    unfolding cut short. *)
Definition run_agent (user_question : string) (client : Client)
    : Env * Outcome (option string) :=
  let iteration := 0 in
  let max_iterations := 10 in
  while_return 11 iteration max_iterations
    (fun iteration => invoke_step model_invoke execute)
    "Max iterations reached without final answer"
    (start client [HumanMessage (prompt user_question)]).

End WithModel.

End React.

(** ** archive_poc/streaming.py *)

Module Streaming.

Section WithModel.

Context {Client : Type}.
Variable model_stream : Client -> list BaseMessage -> Client * Outcome (list AIMessageChunk).

(** The module-level list of the three decorated tools. *)
Variable TOOLS : list BaseTool.

(** The tool execution inside demo_streaming_with_tools:
    [if tool_name in tool_map: result = tool_map[tool_name].invoke(tool_args)
     else: result = f"Unknown tool: {tool_name}"] *)
Definition execute (tool_call : ToolCall) : Outcome string :=
  call_tool (make_tool_map TOOLS) (fun tool_name => "Unknown tool: " +:+ tool_name)
    tool_call.

Definition question : string := "How much did CUST0001 spend on Groceries?".

Definition prompt : string :=
  "You are a financial analyst." +:+ nl +:+
  "Use tools to get data. Include exact numbers in your answer." +:+ nl +:+
  "Question: " +:+ question.

(** [demo_streaming_with_tools()]; the printing of each text chunk leaves
    the state as it is. *)
Definition demo_streaming_with_tools (client : Client) : Env * Outcome (option string) :=
  let iteration := 0 in
  let max_iterations := 5 in
  while_return 6 iteration max_iterations
    (fun iteration => stream_step model_stream (fun _ => ret tt) execute)
    "Max iterations reached"
    (start client [HumanMessage prompt]).

End WithModel.

End Streaming.

(** ** The transaction tools (archive_refactored/tools/spending.py, react.py,
       adding_tools.py) *)

Module Tools.

(** A row of the transaction dataset; [tran_amt_in_ac] is in cents. *)
Record Transaction : Type := mkTransaction {
  cust_id : string;
  dr_cr_indctor : string;
  tran_date : string;
  tran_amt_in_ac : Z;
  tran_type : string;
  category_of_txn : string
}.

Definition DataFrame : Type := list Transaction.

(** *** Formatting: [f"{n}"] and [f"{amount:,.2f}"] *)

Definition str_int (n : Z) : string := NilZero.string_of_int (Z.to_int n).

(** Commas between groups of three digits; the digits come least
    significant first. *)
Fixpoint insert_commas (ds : list ascii) : list ascii :=
  match ds with
  | a :: b :: c :: ((_ :: _) as rest) =>
      a :: b :: c :: ascii_of_nat 44 :: insert_commas rest
  | _ => ds
  end.

Definition group_thousands (digits : string) : string :=
  string_of_list_ascii (rev (insert_commas (rev (list_ascii_of_string digits)))).

Definition two_digits (n : Z) : string :=
  if n <? 10 then "0" +:+ str_int n else str_int n.

(** [f"{amount:,.2f}"] of an amount of [cents] hundredths. *)
Definition format_2f (cents : Z) : string :=
  let a := Z.abs cents in
  (if cents <? 0 then "-" else "") +:+
  group_thousands (str_int (a / 100)) +:+ "." +:+ two_digits (a mod 100).

(** *** Selections *)

(** [df[(df['cust_id'] == customer_id) & (df['dr_cr_indctor'] == 'DR')]] *)
Definition is_debit_of (customer_id : string) (row : Transaction) : bool :=
  String.eqb (cust_id row) customer_id && String.eqb (dr_cr_indctor row) "DR".

(** [column.sum()]; the sum of no value is 0. *)
Definition sum (amounts : list Z) : Z := fold_left Z.add amounts 0.

(** [get_total_spending(customer_id)] *)
Definition get_total_spending (df : DataFrame) (customer_id : string) : string :=
  let filtered := List.filter (is_debit_of customer_id) df in
  let total := sum (map tran_amt_in_ac filtered) in
  "Customer " +:+ customer_id +:+ " total spending: $" +:+ format_2f total.

(** [filtered.groupby('category_of_txn')['tran_amt_in_ac'].sum()]: one total
    per category, the categories in increasing order. *)
Fixpoint add_to_group (cat : string) (amt : Z) (groups : list (string * Z))
    : list (string * Z) :=
  match groups with
  | [] => [(cat, amt)]
  | (c, total) :: rest =>
      match String.compare cat c with
      | Eq => (c, total + amt) :: rest
      | Lt => (cat, amt) :: groups
      | Gt => (c, total) :: add_to_group cat amt rest
      end
  end.

Definition groupby_sum (rows : DataFrame) : list (string * Z) :=
  fold_left (fun groups row =>
               add_to_group (category_of_txn row) (tran_amt_in_ac row) groups)
            rows [].

(** [series.sort_values(ascending=False)]: a larger total comes first.
    pandas leaves the order of equal totals to its sorting routine; here
    equal totals keep the order they had. *)
Fixpoint insert_desc (x : string * Z) (sorted : list (string * Z)) : list (string * Z) :=
  match sorted with
  | [] => [x]
  | y :: rest => if snd y <=? snd x then x :: sorted else y :: insert_desc x rest
  end.

Definition sort_values_desc (series : list (string * Z)) : list (string * Z) :=
  fold_right insert_desc [] series.

(** [x] ranks before [y]: its total is not smaller. *)
Definition descending (x y : string * Z) : Prop := snd y <= snd x.

Definition strictly_descending (x y : string * Z) : Prop := snd y < snd x.

(** [series.head(n)]: the first n entries; all but the last -n when n < 0. *)
Definition head {A : Type} (n : Z) (series : list A) : list A :=
  if 0 <=? n then firstn (Z.to_nat n) series
  else firstn (Z.to_nat (Z.of_nat (length series) + n)) series.

(** [top_cats] of top_spending_categories. *)
Definition top_cats (df : DataFrame) (customer_id : string) (top_n : Z)
    : list (string * Z) :=
  let filtered := List.filter (is_debit_of customer_id) df in
  let category_totals := groupby_sum filtered in
  head top_n (sort_values_desc category_totals).

(** [for i, (cat, amt) in enumerate(top_cats.items(), 1):
       result += f"  {i}. {cat}: ${amt:,.2f}\n"] *)
Fixpoint render_lines (i : Z) (items : list (string * Z)) (result : string) : string :=
  match items with
  | [] => result
  | (cat, amt) :: rest =>
      render_lines (i + 1) rest
        (result +:+ "  " +:+ str_int i +:+ ". " +:+ cat +:+ ": $" +:+ format_2f amt +:+ nl)
  end.

(** [top_spending_categories(customer_id, top_n=5)] *)
Definition top_spending_categories (df : DataFrame) (customer_id : string) (top_n : Z)
    : string :=
  let result :=
    "Top " +:+ str_int top_n +:+ " spending categories for " +:+ customer_id +:+ ":" +:+ nl in
  render_lines 1 (top_cats df customer_id top_n) result.

(** The selection of spending_in_date_range; [>=] and [<=] on str compare
    character by character. *)
Definition in_date_range (customer_id start_date end_date : string) (row : Transaction)
    : bool :=
  String.eqb (cust_id row) customer_id &&
  String.eqb (dr_cr_indctor row) "DR" &&
  String.leb start_date (tran_date row) &&
  String.leb (tran_date row) end_date.

(** [spending_in_date_range(customer_id, start_date, end_date)] *)
Definition spending_in_date_range (df : DataFrame)
    (customer_id start_date end_date : string) : string :=
  let filtered := List.filter (in_date_range customer_id start_date end_date) df in
  let total := sum (map tran_amt_in_ac filtered) in
  let count := Z.of_nat (length filtered) in
  "Customer " +:+ customer_id +:+ " spent $" +:+ format_2f total +:+
  " between " +:+ start_date +:+ " and " +:+ end_date +:+
  " (" +:+ str_int count +:+ " transactions)".

(** The decorated tool: [get_total_spending.invoke(args)] checks the
    argument dict against the signature before it calls the function, and
    raises when [customer_id] is missing or is not a str. *)
Definition get_total_spending_tool (df : DataFrame) : BaseTool :=
  mkTool "get_total_spending"
    (fun tool_args =>
       match dict_get "customer_id" tool_args with
       | Some (VStr customer_id) => Return (get_total_spending df customer_id)
       | Some (VInt _) => Raise (Exc "ValidationError" "customer_id: Input should be a valid string")
       | None => Raise (Exc "ValidationError" "customer_id: Field required")
       end).

End Tools.

(** ** Specification-level readings of a run *)

(** What one dispatching phase appends to the conversation, and the
    exception that ended it, if any. *)
Fixpoint tool_results (exec : ToolCall -> Outcome string) (calls : list ToolCall)
    : list BaseMessage * option Exception :=
  match calls with
  | [] => ([], None)
  | tool_call :: rest =>
      match exec tool_call with
      | Return result =>
          let '(appended, err) := tool_results exec rest in
          (ToolMessage result (call_id tool_call) :: appended, err)
      | Raise e => ([], Some e)
      end
  end.

(** [m] is the ToolMessage that answers [tool_call]. *)
Definition answers (exec : ToolCall -> Outcome string) (tool_call : ToolCall)
    (m : BaseMessage) : Prop :=
  exists result, exec tool_call = Return result /\ m = ToolMessage result (call_id tool_call).

(** The two fields of a drained stream: the contents joined in order, the
    tool calls joined in order. *)
Definition join (pieces : list string) : string := fold_right String.append "" pieces.

Definition aggregate (chunks : list AIMessageChunk) : AIMessage :=
  mkAIMessage (join (map chunk_content chunks))
              (concat (map chunk_tool_calls chunks)).

(** The rest of an iteration once the turn of the model is known. *)
Definition after_turn {Client : Type} (exec : ToolCall -> Outcome string)
    (s : @Env Client) (turn : AIMessage) : Env * Outcome (option string) :=
  if nonempty (tool_calls turn) then
    (mkEnv (messages s ++ AI turn :: fst (tool_results exec (tool_calls turn)))
           (llm s) (model_calls s) (yielded s),
     match snd (tool_results exec (tool_calls turn)) with
     | None => Return None
     | Some e => Raise e
     end)
  else (s, Return (Some (content turn))).

Definition map_outcome {S A B : Type} (f : A -> B) (r : S * Outcome A) : S * Outcome B :=
  (fst r, match snd r with Return v => Return (f v) | Raise e => Raise e end).

(** *** The incremental delivery as the specification words it

    A fragment is a piece of text or one complete invocation.  A stub
    backend scripted with a list of fragments hands them out one by one in
    the incremental mode and hands out [blocking_turn] in the blocking mode:
    the text fragments concatenated in order, the invocation fragments in
    order. *)
Inductive Fragment : Type :=
| TextFragment (text : string)
| InvocationFragment (invocation : ToolCall).

Definition chunk_of_fragment (f : Fragment) : AIMessageChunk :=
  match f with
  | TextFragment text => mkChunk text []
  | InvocationFragment invocation => mkChunk "" [invocation]
  end.

Fixpoint blocking_turn (fragments : list Fragment) : AIMessage :=
  match fragments with
  | [] => mkAIMessage "" []
  | TextFragment text :: rest =>
      mkAIMessage (text +:+ content (blocking_turn rest)) (tool_calls (blocking_turn rest))
  | InvocationFragment invocation :: rest =>
      mkAIMessage (content (blocking_turn rest)) (invocation :: tool_calls (blocking_turn rest))
  end.

(** What the model answered at a logged call, streamed chunks aggregated. *)
Definition reply_outcome (r : Reply) : Outcome AIMessage :=
  match r with
  | Invoked o => o
  | Streamed (Return chunks) => Return (aggregate chunks)
  | Streamed (Raise e) => Raise e
  end.

(** *** The loop as a transition system

    [Run exec orelse n msgs trace msgs' o]: started on the conversation
    [msgs] with [n] iterations left, the loop makes the model calls [trace],
    leaves the conversation [msgs'] and ends with [o].  The constructors are
    the ways an iteration can go: no iteration left; the model call fails;
    the turn has no tool call (final answer); a tool raises while the tool
    calls are dispatched; all tool calls are answered and the loop goes on. *)
Inductive Run (exec : ToolCall -> Outcome string) (orelse : string)
    : nat -> list BaseMessage -> list ModelCall -> list BaseMessage -> Outcome string -> Prop :=
| Run_exhausted msgs :
    Run exec orelse 0 msgs [] msgs (Return orelse)
| Run_model_failed n msgs entry e :
    call_input entry = msgs ->
    reply_outcome (call_reply entry) = Raise e ->
    Run exec orelse (S n) msgs [entry] msgs (Raise e)
| Run_final_answer n msgs entry turn :
    call_input entry = msgs ->
    reply_outcome (call_reply entry) = Return turn ->
    tool_calls turn = [] ->
    Run exec orelse (S n) msgs [entry] msgs (Return (content turn))
| Run_tool_failed n msgs entry turn appended e :
    call_input entry = msgs ->
    reply_outcome (call_reply entry) = Return turn ->
    tool_calls turn <> [] ->
    tool_results exec (tool_calls turn) = (appended, Some e) ->
    Run exec orelse (S n) msgs [entry] (msgs ++ AI turn :: appended) (Raise e)
| Run_dispatched n msgs entry turn appended trace msgs' o :
    call_input entry = msgs ->
    reply_outcome (call_reply entry) = Return turn ->
    tool_calls turn <> [] ->
    tool_results exec (tool_calls turn) = (appended, None) ->
    Run exec orelse n (msgs ++ AI turn :: appended) trace msgs' o ->
    Run exec orelse (S n) msgs (entry :: trace) msgs' o.

(** An iteration body that makes one model call, logs it as an entry that
    satisfies [genuine], and goes on as [after_turn] says. *)
Definition step_spec {Client : Type} (exec : ToolCall -> Outcome string)
    (genuine : ModelCall -> Prop) (step : @M Client (option string)) : Prop :=
  forall s, exists entry s1,
    genuine entry /\
    call_input entry = messages s /\
    messages s1 = messages s /\
    model_calls s1 = model_calls s ++ [entry] /\
    step s = match reply_outcome (call_reply entry) with
             | Return turn => after_turn exec s1 turn
             | Raise e => (s1, Raise e)
             end.

(** The logged call is an answer of the blocking model to its input. *)
Definition invoked_by {Client : Type}
    (model_invoke : Client -> list BaseMessage -> Client * Outcome AIMessage)
    (entry : ModelCall) : Prop :=
  exists c, call_reply entry = Invoked (snd (model_invoke c (call_input entry))).

(** The logged call is an answer of the streaming model to its input. *)
Definition streamed_by {Client : Type}
    (model_stream : Client -> list BaseMessage -> Client * Outcome (list AIMessageChunk))
    (entry : ModelCall) : Prop :=
  exists c, call_reply entry = Streamed (snd (model_stream c (call_input entry))).

Definition some_outcome (o : Outcome string) : Outcome (option string) :=
  match o with
  | Return v => Return (Some v)
  | Raise e => Raise e
  end.

(** A turn that asks for tools. *)
Definition asks_for_tools (entry : ModelCall) : Prop :=
  exists turn, reply_outcome (call_reply entry) = Return turn /\ tool_calls turn <> [].

Definition is_tool_message (m : BaseMessage) : bool :=
  match m with
  | ToolMessage _ _ => true
  | _ => false
  end.

(** The model never fails and every turn of it asks for at least one tool. *)
Definition always_asks_for_tools {Client : Type}
    (model_invoke : Client -> list BaseMessage -> Client * Outcome AIMessage) : Prop :=
  forall c msgs, exists turn,
    snd (model_invoke c msgs) = Return turn /\ tool_calls turn <> [].

(** Every tool call the model asks for is executed without an exception. *)
Definition requested_tools_return {Client : Type}
    (model_invoke : Client -> list BaseMessage -> Client * Outcome AIMessage)
    (exec : ToolCall -> Outcome string) : Prop :=
  forall c msgs turn,
    snd (model_invoke c msgs) = Return turn ->
    Forall (fun tc => exists result, exec tc = Return result) (tool_calls turn).

(** ** Stub models and a small dataset, for the concrete runs *)

Module Stub.

(** A model that gives the same turn at every call. *)
Definition always (turn : AIMessage) (c : unit) (msgs : list BaseMessage)
    : unit * Outcome AIMessage :=
  (c, Return turn).

(** A model that plays a script, one turn per call, and then answers with
    the empty final answer. *)
Definition scripted (c : list AIMessage) (msgs : list BaseMessage)
    : list AIMessage * Outcome AIMessage :=
  match c with
  | [] => ([], Return (mkAIMessage "" []))
  | turn :: rest => (rest, Return turn)
  end.

(** A streaming model that yields the same chunks at every call. *)
Definition always_stream (chunks : list AIMessageChunk) (c : unit) (msgs : list BaseMessage)
    : unit * Outcome (list AIMessageChunk) :=
  (c, Return chunks).

Definition sample_df : Tools.DataFrame :=
  [ Tools.mkTransaction "CUST0001" "DR" "2025-07-01" 6000 "UPI" "Groceries";
    Tools.mkTransaction "CUST0001" "DR" "2025-07-05" 50000 "NEFT" "Rent";
    Tools.mkTransaction "CUST0001" "DR" "2025-07-10" 10000 "AUTO_DEBIT" "EMI";
    Tools.mkTransaction "CUST0001" "CR" "2025-07-10" 3000000 "NEFT" "Salary";
    Tools.mkTransaction "CUST0002" "DR" "2025-07-12" 75000 "NEFT" "Rent";
    Tools.mkTransaction "CUST0001" "DR" "2025-07-20" 20000 "AUTO_DEBIT" "EMI";
    Tools.mkTransaction "CUST0001" "DR" "2025-07-31" 4000 "CARD" "Groceries";
    Tools.mkTransaction "CUST0003" "CR" "2025-08-01" 120000 "IMPS" "Salary" ].

(** get_total_spending(customer_id="CUST0001") *)
Definition good_call : ToolCall :=
  mkToolCall "get_total_spending" [("customer_id", VStr "CUST0001")] "call_1".

(** get_total_spending() without its argument *)
Definition malformed_call : ToolCall :=
  mkToolCall "get_total_spending" [] "call_2".

(** A tool that is not registered. *)
Definition unknown_call : ToolCall :=
  mkToolCall "get_balance" [("customer_id", VStr "CUST0001")] "call_3".

Definition agent : Base.BaseAgent :=
  Base.init (Some [Tools.get_total_spending_tool sample_df])
    (Some "You are a financial analyst.") None None.

End Stub.

(** ** The other tools and helpers *)

(** [sep.join(items)] *)
Fixpoint str_join (sep : string) (items : list string) : string :=
  match items with
  | [] => ""
  | [item] => item
  | item :: rest => item +:+ sep +:+ str_join sep rest
  end.

(** [column.unique().tolist()]: the values in the order of their first
    appearance. *)
Fixpoint unique (seen : list string) (values : list string) : list string :=
  match values with
  | [] => []
  | v :: rest =>
      if existsb (String.eqb v) seen then unique seen rest
      else v :: unique (v :: seen) rest
  end.

(** archive_refactored/tools/spending.py, react.py and adding_tools.py *)
Module Spending.

Import Tools.

(** [df[(df['cust_id'] == customer_id) & (df['dr_cr_indctor'] == 'DR') &
        (df['category_of_txn'] == category)]] *)
Definition is_debit_in (customer_id category : string) (row : Transaction) : bool :=
  String.eqb (cust_id row) customer_id &&
  String.eqb (dr_cr_indctor row) "DR" &&
  String.eqb (category_of_txn row) category.

(** [get_spending_by_category(customer_id, category)] *)
Definition get_spending_by_category (df : DataFrame) (customer_id category : string)
    : string :=
  let filtered := List.filter (is_debit_in customer_id category) df in
  let total := sum (map tran_amt_in_ac filtered) in
  let count := Z.of_nat (length filtered) in
  "Customer " +:+ customer_id +:+ " spent $" +:+ format_2f total +:+ " on " +:+ category +:+
  " across " +:+ str_int count +:+ " transactions".

End Spending.

(** archive_refactored/tools/income.py; get_total_credit of react.py and
    adding_tools.py has the same body. *)
Module Income.

Import Tools.

Definition is_credit_of (customer_id : string) (row : Transaction) : bool :=
  String.eqb (cust_id row) customer_id && String.eqb (dr_cr_indctor row) "CR".

(** [get_total_income(customer_id)] *)
Definition get_total_income (df : DataFrame) (customer_id : string) : string :=
  let filtered := List.filter (is_credit_of customer_id) df in
  let total := sum (map tran_amt_in_ac filtered) in
  "Customer " +:+ customer_id +:+ " total income: $" +:+ format_2f total.

End Income.

(** The listing tools of react.py. *)
Module ReactTools.

Import Tools.

(** [list_customers()]: the first ten customer ids, then "..." when there
    are more. *)
Definition list_customers (df : DataFrame) : string :=
  let customers := unique [] (map cust_id df) in
  "Available customers: " +:+ str_join ", " (firstn 10 customers) +:+
  (if (10 <? Z.of_nat (length customers)) then "..." else "").

(** [list_categories()] *)
Definition list_categories (df : DataFrame) : string :=
  let categories := unique [] (map category_of_txn df) in
  "Available categories: " +:+ str_join ", " categories.

End ReactTools.

(** The listing tool of adding_tools.py, which lists every customer. *)
Module AddingTools.

Import Tools.

Definition list_customers (df : DataFrame) : string :=
  let customers := unique [] (map cust_id df) in
  "Available customers: " +:+ str_join ", " customers.

End AddingTools.

(** archive_refactored/config/prompts.py *)
Module Prompts.

(** [get_prompt_with_question(prompt_template, question)] *)
Definition get_prompt_with_question (prompt_template question : string) : string :=
  prompt_template +:+ nl +:+ nl +:+ "Question: " +:+ question.

End Prompts.

(** ** Readings of a conversation *)

(** The conversation only grows: what the loop was started on is kept at
    the front of every conversation handed to the model and of the one left
    at the end, and each conversation handed to the model is kept at the
    front of the later ones. *)
Definition append_only (initial : list BaseMessage) (trace : list ModelCall)
    (final : list BaseMessage) : Prop :=
  initial `prefix_of` final /\
  (forall k entry, trace !! k = Some entry ->
     initial `prefix_of` call_input entry /\ call_input entry `prefix_of` final) /\
  (forall k k' entry entry', (k <= k')%nat ->
     trace !! k = Some entry -> trace !! k' = Some entry' ->
     call_input entry `prefix_of` call_input entry').

(** Every ToolMessage of the conversation from position [from] on answers
    a tool call of an AIMessage before it: it carries the id of that call
    and the text the tool returned for it. *)
Definition tool_messages_answer (exec : ToolCall -> Outcome string) (from : nat)
    (conversation : list BaseMessage) : Prop :=
  forall i text id,
    (from <= i)%nat ->
    conversation !! i = Some (ToolMessage text id) ->
    exists j turn tool_call,
      (j < i)%nat /\ conversation !! j = Some (AI turn) /\
      tool_call ∈ tool_calls turn /\ call_id tool_call = id /\
      exec tool_call = Return text.

(** The blocking and the streaming delivery of one backend: at every
    state and conversation both lead to the same state, and the stream
    aggregates to the blocking turn or fails with the same exception. *)
Definition same_backend {Client : Type}
    (model_stream : Client -> list BaseMessage -> Client * Outcome (list AIMessageChunk))
    (model_invoke : Client -> list BaseMessage -> Client * Outcome AIMessage) : Prop :=
  forall c msgs,
    fst (model_stream c msgs) = fst (model_invoke c msgs) /\
    match snd (model_stream c msgs), snd (model_invoke c msgs) with
    | Return chunks, Return turn => aggregate chunks = turn
    | Raise e, Raise e' => e = e'
    | _, _ => False
    end.

(** The tokens a logged streaming call whose stream ended hands to the
    consumer: the non-empty contents of its chunks. *)
Definition tokens_of_call (entry : ModelCall) : list string :=
  match call_reply entry with
  | Streamed (Return chunks) => List.filter nonempty_str (map chunk_content chunks)
  | _ => []
  end.

(** A stub backend scripted with the fragments of its turns: the streaming
    delivery hands out the fragments of the next turn, the blocking delivery
    the turn they make up; past the script both give the empty answer. *)
Definition fragment_stream (c : list (list Fragment)) (msgs : list BaseMessage)
    : list (list Fragment) * Outcome (list AIMessageChunk) :=
  match c with
  | [] => ([], Return [])
  | fragments :: rest => (rest, Return (map chunk_of_fragment fragments))
  end.

Definition fragment_invoke (c : list (list Fragment)) (msgs : list BaseMessage)
    : list (list Fragment) * Outcome AIMessage :=
  match c with
  | [] => ([], Return (mkAIMessage "" []))
  | fragments :: rest => (rest, Return (blocking_turn fragments))
  end.

(** A model that is unreachable. *)
Definition unavailable (c : unit) (msgs : list BaseMessage) : unit * Outcome AIMessage :=
  (c, Raise (Exc "ConnectionError" "model backend unreachable")).

(** What [yield token] does to the state. *)
Definition on_yield {Client : Type} (token : string) (s : @Env Client) : @Env Client :=
  mkEnv (messages s) (llm s) (model_calls s) (yielded s ++ [token]).

(** ** Readings of grouped totals *)

(** The category of [x] is before the category of [y]. *)
Definition key_before (x y : string * Z) : Prop :=
  String.compare (fst x) (fst y) = Lt.

(** The amounts listed under a category. *)
Definition amount_of (cat : string) (groups : list (string * Z)) : Z :=
  Tools.sum (map snd (List.filter (fun g => String.eqb (fst g) cat) groups)).

(** The rows of a category and their total. *)
Definition in_category (cat : string) (row : Tools.Transaction) : bool :=
  String.eqb (Tools.category_of_txn row) cat.

Definition total_in (cat : string) (rows : Tools.DataFrame) : Z :=
  Tools.sum (map Tools.tran_amt_in_ac (List.filter (in_category cat) rows)).

(** ** archive_refactored/agents/financial_agent.py and config *)

Module Financial.

Definition dq : string := String (ascii_of_nat 34) EmptyString.

(** config/prompts.py *)
Definition FINANCIAL_ANALYST_PROMPT : string :=
  "You are a financial analyst. Use the available tools to answer questions." +:+ nl +:+
  nl +:+
  "CRITICAL RULES:" +:+ nl +:+
  "1. Call the appropriate tool to get data" +:+ nl +:+
  "2. After receiving tool results, REPEAT THE EXACT NUMBERS in your answer" +:+ nl +:+
  "3. Your final answer MUST contain the specific dollar amounts and counts from the tool" +:+ nl +:+
  nl +:+
  "Example of GOOD answer: " +:+ dq +:+
    "CUST0001 spent $122,537.79 on Rent across 6 transactions." +:+ dq +:+ nl +:+
  "Example of BAD answer: " +:+ dq +:+ "The data shows spending on rent." +:+ dq +:+
    " (missing numbers!)" +:+ nl.

(** config/settings.py *)
Definition MAX_ITERATIONS : Z := 10.

(** [FinancialAgent(tools=None, verbose=True)]; [ALL_TOOLS] is the list of
    the tools package. *)
Definition init (ALL_TOOLS : list BaseTool) (tools : option (list BaseTool))
    (verbose : option bool) : Base.BaseAgent :=
  let tools := match tools with None => ALL_TOOLS | Some given => given end in
  Base.init (Some tools) (Some FINANCIAL_ANALYST_PROMPT) (Some MAX_ITERATIONS)
    (Some (default true verbose)).

Definition analysis_question (customer_id : string) : string :=
  "Provide a comprehensive financial analysis for " +:+ customer_id +:+ ":" +:+ nl +:+
  "1. What is their total income?" +:+ nl +:+
  "2. What is their total spending?" +:+ nl +:+
  "3. What are their top 3 spending categories?" +:+ nl.

Definition comparison_question (customer_id category1 category2 : string) : string :=
  "Compare " +:+ customer_id +:+ "'s spending on " +:+ category1 +:+ " vs " +:+ category2 +:+
  ". Which is higher and by how much?".

Section WithModel.

Context {Client : Type}.
Variable model_invoke : Client -> list BaseMessage -> Client * Outcome AIMessage.

(** [FinancialAgent.analyze_customer] *)
Definition analyze_customer (self : Base.BaseAgent) (customer_id : string) (client : Client)
    : Env * Outcome string :=
  let question := analysis_question customer_id in
  Base.invoke model_invoke self question client.

(** [FinancialAgent.compare_spending] *)
Definition compare_spending (self : Base.BaseAgent) (customer_id category1 category2 : string)
    (client : Client) : Env * Outcome string :=
  let question := comparison_question customer_id category1 category2 in
  Base.invoke model_invoke self question client.

End WithModel.

End Financial.

(** ** Dates as the dataset writes them (scripts/generate_sample_data.py) *)

Module Dates.

(** The character of a decimal digit. *)
Definition digit (n : Z) : ascii := ascii_of_nat (48 + Z.to_nat n).

(** [date.strftime("%Y-%m-%d")] for a year of four digits. *)
Definition strftime_Ymd (year month day : Z) : string :=
  String (digit (year / 1000)) (String (digit (year / 100 mod 10))
  (String (digit (year / 10 mod 10)) (String (digit (year mod 10))
  (String (ascii_of_nat 45)
  (String (digit (month / 10)) (String (digit (month mod 10))
  (String (ascii_of_nat 45)
  (String (digit (day / 10)) (String (digit (day mod 10)) EmptyString))))))))).

(** A date of the calendar range the format covers. *)
Definition well_formed (year month day : Z) : Prop :=
  1000 <= year <= 9999 /\ 1 <= month <= 12 /\ 1 <= day <= 31.

(** The date [y1-m1-d1] is not after [y2-m2-d2]. *)
Definition not_after (y1 m1 d1 y2 m2 d2 : Z) : Prop :=
  y1 < y2 \/ (y1 = y2 /\ (m1 < m2 \/ (m1 = m2 /\ d1 <= d2))).

End Dates.

(** ** Facts about the monad and the loops *)

Lemma string_app_cons (a : ascii) (s1 s2 : string) :
  String a s1 +:+ s2 = String a (s1 +:+ s2).
Proof. reflexivity. Qed.

Lemma string_app_nil_l (s : string) : "" +:+ s = s.
Proof. reflexivity. Qed.

Lemma string_app_nil_r (s : string) : s +:+ "" = s.
Proof. induction s as [|a s IH]; [done|]. by rewrite string_app_cons, IH. Qed.

Lemma string_app_assoc (s1 s2 s3 : string) : (s1 +:+ s2) +:+ s3 = s1 +:+ (s2 +:+ s3).
Proof.
  induction s1 as [|a s1 IH]; [done|]. by rewrite !string_app_cons, IH.
Qed.

Lemma nonempty_str_false (s : string) : nonempty_str s = false -> s = "".
Proof. by destruct s. Qed.

Lemma nonempty_false {A : Type} (l : list A) : nonempty l = false -> l = [].
Proof. by destruct l. Qed.

Lemma nonempty_true {A : Type} (l : list A) : nonempty l = true <-> l <> [].
Proof. by destruct l. Qed.

Section LoopFacts.

Context {Client : Type}.
Variable model_invoke : Client -> list BaseMessage -> Client * Outcome AIMessage.
Variable model_stream : Client -> list BaseMessage -> Client * Outcome (list AIMessageChunk).
Variable exec : ToolCall -> Outcome string.

Lemma env_eta (s : @Env Client) :
  mkEnv (messages s) (llm s) (model_calls s) (yielded s) = s.
Proof. by destruct s. Qed.

Lemma execute_tools_run (calls : list ToolCall) (s : @Env Client) :
  execute_tools exec calls s =
    (mkEnv (messages s ++ fst (tool_results exec calls)) (llm s) (model_calls s) (yielded s),
     match snd (tool_results exec calls) with
     | None => Return tt
     | Some e => Raise e
     end).
Proof.
  revert s. induction calls as [|tool_call rest IH]; intros s.
  - cbn. by rewrite app_nil_r, env_eta.
  - unfold execute_tools in *. cbn [for_each tool_results].
    unfold bind at 1. unfold bind at 1. unfold lift at 1.
    destruct (exec tool_call) as [result|e]; cbn.
    + rewrite IH. cbn. destruct (tool_results exec rest) as [appended err]; cbn.
      by rewrite <- app_assoc.
    + by rewrite app_nil_r, env_eta.
Qed.

Lemma tool_phase_run (turn : AIMessage) (s : @Env Client) :
  (append (AI turn) ;;; execute_tools exec (tool_calls turn) ;;; ret None) s =
    (mkEnv (messages s ++ AI turn :: fst (tool_results exec (tool_calls turn)))
           (llm s) (model_calls s) (yielded s),
     match snd (tool_results exec (tool_calls turn)) with
     | None => Return (@None string)
     | Some e => Raise e
     end).
Proof.
  unfold bind at 1. unfold append at 1. unfold bind at 1.
  rewrite execute_tools_run. cbn [messages llm model_calls yielded].
  rewrite <- app_assoc. cbn [app].
  by destruct (snd (tool_results exec (tool_calls turn))).
Qed.

Lemma invoke_step_run (s : @Env Client) :
  invoke_step model_invoke exec s =
    let s1 := mkEnv (messages s) (fst (model_invoke (llm s) (messages s)))
                (model_calls s ++
                   [mkModelCall (messages s) (Invoked (snd (model_invoke (llm s) (messages s))))])
                (yielded s) in
    match snd (model_invoke (llm s) (messages s)) with
    | Return response => after_turn exec s1 response
    | Raise e => (s1, Raise e)
    end.
Proof.
  unfold invoke_step, bind at 1, llm_invoke.
  destruct (model_invoke (llm s) (messages s)) as [c [response|e]]; cbn [fst snd]; [|done].
  unfold after_turn. destruct (nonempty (tool_calls response)); [|done].
  by rewrite tool_phase_run.
Qed.

(** Draining a stream whose [emit] cannot raise. *)
Lemma collect_run (emit : string -> M unit) (on_emit : string -> @Env Client -> @Env Client)
    (Hemit : forall token s, emit token s = (on_emit token s, Return tt))
    (chunks : list AIMessageChunk) (collected_content : string)
    (collected_tool_calls : list ToolCall) (s : @Env Client) :
  collect emit chunks collected_content collected_tool_calls s =
    (fold_left (fun s token => on_emit token s)
       (List.filter nonempty_str (map chunk_content chunks)) s,
     Return (collected_content +:+ content (aggregate chunks),
             collected_tool_calls ++ tool_calls (aggregate chunks))).
Proof.
  revert collected_content collected_tool_calls s.
  induction chunks as [|chunk rest IH]; intros cc ct s.
  - cbn. by rewrite string_app_nil_r, app_nil_r.
  - cbn [collect map List.filter]. unfold bind at 1.
    destruct (nonempty_str (chunk_content chunk)) eqn:Hc.
    + unfold bind at 1. rewrite Hemit. unfold ret at 1. rewrite IH.
      cbn [fold_left aggregate content tool_calls map join fold_right concat].
      rewrite string_app_assoc. do 2 f_equal. f_equal.
      destruct (nonempty (chunk_tool_calls chunk)) eqn:Ht.
      * by rewrite <- app_assoc.
      * apply nonempty_false in Ht. by rewrite Ht.
    + unfold ret at 1. rewrite IH. apply nonempty_str_false in Hc.
      cbn [fold_left aggregate content tool_calls map join fold_right concat].
      rewrite Hc, string_app_nil_l. do 2 f_equal. f_equal.
      destruct (nonempty (chunk_tool_calls chunk)) eqn:Ht.
      * by rewrite <- app_assoc.
      * apply nonempty_false in Ht. by rewrite Ht.
Qed.

Lemma stream_step_run (emit : string -> M unit) (on_emit : string -> @Env Client -> @Env Client)
    (Hemit : forall token s, emit token s = (on_emit token s, Return tt))
    (s : @Env Client) :
  stream_step model_stream emit exec s =
    let s1 := mkEnv (messages s) (fst (model_stream (llm s) (messages s)))
                (model_calls s ++
                   [mkModelCall (messages s) (Streamed (snd (model_stream (llm s) (messages s))))])
                (yielded s) in
    match snd (model_stream (llm s) (messages s)) with
    | Return chunks =>
        after_turn exec
          (fold_left (fun s token => on_emit token s)
             (List.filter nonempty_str (map chunk_content chunks)) s1)
          (aggregate chunks)
    | Raise e => (s1, Raise e)
    end.
Proof.
  unfold stream_step, bind at 1, llm_stream.
  destruct (model_stream (llm s) (messages s)) as [c [chunks|e]]; cbn [fst snd]; [|done].
  unfold bind at 1. rewrite (collect_run emit on_emit Hemit). cbn [fst snd].
  rewrite string_app_nil_l, app_nil_l.
  unfold after_turn.
  destruct (nonempty (tool_calls (aggregate chunks))); [|done].
  by rewrite <- tool_phase_run.
Qed.

End LoopFacts.

(** *** The loops follow the transition system *)

Lemma range_nil (a b : Z) : b <= a -> range a b = [].
Proof. intros H. unfold range. by replace (Z.to_nat (b - a)) with O by lia. Qed.

Lemma range_cons (a b : Z) : a < b -> range a b = a :: range (a + 1) b.
Proof.
  intros H. unfold range.
  replace (Z.to_nat (b - a)) with (S (Z.to_nat (b - (a + 1)))) by lia.
  cbn [seq map]. f_equal; [lia|].
  rewrite <- seq_shift, map_map. apply map_ext. intros i. lia.
Qed.

Lemma range_length (a b : Z) : length (range a b) = Z.to_nat (b - a).
Proof. unfold range. by rewrite length_map, length_seq. Qed.

Section WhileFacts.

Context {Client : Type} {A : Type}.

Lemma while_return_for (body : Z -> @M Client (option A)) (orelse : A) (n : nat) :
  forall (i m : Z) (s : Env),
    Z.to_nat (m - i) = n ->
    while_return (S n) i m body orelse s =
      map_outcome Some (for_return (range (i + 1) (m + 1)) body orelse s).
Proof.
  induction n as [|n IH]; intros i m s Hn.
  - cbn [while_return]. replace (i <? m) with false by lia.
    by rewrite range_nil by lia.
  - cbn [while_return]. replace (i <? m) with true by lia.
    rewrite (range_cons (i + 1)) by lia. cbn [for_return]. unfold bind.
    destruct (body (i + 1) s) as [s1 [[v|]|e]]; [done| |done].
    rewrite <- IH by lia. destruct n; [|done].
    cbn [while_return]. by replace (i + 1 <? m) with false by lia.
Qed.

End WhileFacts.

Section StepFacts.

Context {Client : Type}.
Variable model_invoke : Client -> list BaseMessage -> Client * Outcome AIMessage.
Variable model_stream : Client -> list BaseMessage -> Client * Outcome (list AIMessageChunk).
Variable exec : ToolCall -> Outcome string.

Lemma invoke_step_spec :
  step_spec exec (invoked_by model_invoke) (invoke_step model_invoke exec).
Proof.
  intros s.
  exists (mkModelCall (messages s) (Invoked (snd (model_invoke (llm s) (messages s))))).
  exists (mkEnv (messages s) (fst (model_invoke (llm s) (messages s)))
            (model_calls s ++
               [mkModelCall (messages s) (Invoked (snd (model_invoke (llm s) (messages s))))])
            (yielded s)).
  rewrite invoke_step_run. cbn zeta.
  split; [by exists (llm s)|]. repeat split; reflexivity.
Qed.

Lemma fold_emit_messages (on_emit : string -> @Env Client -> @Env Client)
    (Hm : forall token s, messages (on_emit token s) = messages s)
    (Hc : forall token s, model_calls (on_emit token s) = model_calls s)
    (tokens : list string) (s : @Env Client) :
  messages (fold_left (fun s token => on_emit token s) tokens s) = messages s /\
  model_calls (fold_left (fun s token => on_emit token s) tokens s) = model_calls s.
Proof.
  revert s. induction tokens as [|token rest IH]; intros s; [done|].
  cbn [fold_left]. destruct (IH (on_emit token s)) as [-> ->]. by rewrite Hm, Hc.
Qed.

Lemma stream_step_spec (emit : string -> M unit)
    (on_emit : string -> @Env Client -> @Env Client)
    (Hemit : forall token s, emit token s = (on_emit token s, Return tt))
    (Hm : forall token s, messages (on_emit token s) = messages s)
    (Hc : forall token s, model_calls (on_emit token s) = model_calls s) :
  step_spec exec (streamed_by model_stream) (stream_step model_stream emit exec).
Proof.
  intros s.
  exists (mkModelCall (messages s) (Streamed (snd (model_stream (llm s) (messages s))))).
  rewrite (stream_step_run _ _ emit on_emit Hemit). cbn zeta.
  set (s1 := mkEnv (messages s) (fst (model_stream (llm s) (messages s)))
               (model_calls s ++
                  [mkModelCall (messages s) (Streamed (snd (model_stream (llm s) (messages s))))])
               (yielded s)).
  cbn [call_input call_reply].
  exists (match snd (model_stream (llm s) (messages s)) with
          | Return chunks =>
              fold_left (fun s token => on_emit token s)
                (List.filter nonempty_str (map chunk_content chunks)) s1
          | Raise _ => s1
          end).
  split; [by exists (llm s)|]. split; [done|].
  destruct (snd (model_stream (llm s) (messages s))) as [chunks|e];
    cbn [reply_outcome].
  - split; [|split; [|reflexivity]].
    + by rewrite (proj1 (fold_emit_messages on_emit Hm Hc _ _)).
    + by rewrite (proj2 (fold_emit_messages on_emit Hm Hc _ _)).
  - repeat split; reflexivity.
Qed.

Lemma stream_step_print_spec :
  step_spec exec (streamed_by model_stream)
    (stream_step model_stream (fun _ => ret tt) exec).
Proof. by apply (stream_step_spec _ (fun _ s => s)). Qed.

(** A loop over such iteration bodies is a [Run]. *)
Lemma for_return_Run (genuine : ModelCall -> Prop) (step : @M Client (option string))
    (Hstep : step_spec exec genuine step) (orelse : string) (its : list Z) :
  forall s, exists trace,
    model_calls (fst (for_return its (fun _ => step) orelse s)) = model_calls s ++ trace /\
    Forall genuine trace /\
    Run exec orelse (length its) (messages s) trace
      (messages (fst (for_return its (fun _ => step) orelse s)))
      (snd (for_return its (fun _ => step) orelse s)).
Proof.
  induction its as [|i rest IH]; intros s.
  - exists []. cbn. rewrite app_nil_r. repeat split; [constructor|constructor].
  - cbn [for_return length]. unfold bind at 1 2 3.
    destruct (Hstep s) as (entry & s1 & Hgen & Hin & Hmsgs & Hcalls & Hrun).
    rewrite Hrun.
    destruct (reply_outcome (call_reply entry)) as [turn|e] eqn:Hreply.
    + unfold after_turn.
      destruct (nonempty (tool_calls turn)) eqn:Hne.
      * apply nonempty_true in Hne.
        destruct (tool_results exec (tool_calls turn)) as [appended [e|]] eqn:Hres;
          cbn [fst snd].
        -- exists [entry]. cbn [fst snd messages model_calls].
           rewrite Hmsgs, Hcalls. repeat split; [by constructor|].
           by eapply Run_tool_failed.
        -- match goal with |- context [for_return rest _ _ ?s2] =>
             destruct (IH s2) as (trace & Htrace & Hall & HRun) end.
           exists (entry :: trace). cbn [model_calls messages] in *.
           split; [|split].
           ++ by rewrite Htrace, Hcalls, <- app_assoc.
           ++ by constructor.
           ++ eapply Run_dispatched; [done..|]. by rewrite <- Hmsgs.
      * apply nonempty_false in Hne. exists [entry]. cbn [fst snd ret].
        rewrite Hmsgs, Hcalls. repeat split; [by constructor|].
        by eapply Run_final_answer.
    + exists [entry]. cbn [fst snd]. rewrite Hmsgs, Hcalls.
      repeat split; [by constructor|]. by eapply Run_model_failed.
Qed.

End StepFacts.

(** *** What follows from a [Run] *)

Section RunFacts.

Variable exec : ToolCall -> Outcome string.
Variable orelse : string.

Lemma tool_results_answers (calls : list ToolCall) (appended : list BaseMessage) :
  tool_results exec calls = (appended, None) ->
  Forall2 (answers exec) calls appended.
Proof.
  revert appended. induction calls as [|tool_call rest IH]; intros appended H.
  - cbn in H. injection H as <-. constructor.
  - cbn in H. destruct (exec tool_call) as [result|e] eqn:Hexec; [|discriminate].
    destruct (tool_results exec rest) as [appended' err]. injection H as <- ->.
    constructor; [by exists result|by apply IH].
Qed.

Lemma tool_results_raised (calls : list ToolCall) (appended : list BaseMessage)
    (e : Exception) :
  tool_results exec calls = (appended, Some e) ->
  exists before tool_call after,
    calls = before ++ tool_call :: after /\
    Forall2 (answers exec) before appended /\
    exec tool_call = Raise e.
Proof.
  revert appended. induction calls as [|tool_call rest IH]; intros appended H.
  - discriminate.
  - cbn in H. destruct (exec tool_call) as [result|e'] eqn:Hexec.
    + destruct (tool_results exec rest) as [appended' err]. injection H as <- ->.
      destruct (IH appended' eq_refl) as (before & tc & after & -> & Hans & Hraise).
      exists (tool_call :: before), tc, after.
      repeat split; [|done]. constructor; [by exists result|done].
    + injection H as <- <-. exists [], tool_call, rest. repeat split; [constructor|done].
Qed.

Lemma tool_results_first_failure (before after : list ToolCall) (tool_call : ToolCall)
    (e : Exception) :
  Forall (fun tc => exists result, exec tc = Return result) before ->
  exec tool_call = Raise e ->
  snd (tool_results exec (before ++ tool_call :: after)) = Some e /\
  Forall2 (answers exec) before (fst (tool_results exec (before ++ tool_call :: after))).
Proof.
  intros Hbefore Hraise. induction Hbefore as [|tc before [result Hres] _ IH].
  - cbn. rewrite Hraise. split; [done|constructor].
  - cbn. rewrite Hres.
    destruct (tool_results exec (before ++ tool_call :: after)) as [appended err].
    cbn in *. destruct IH as [-> Hans]. split; [done|].
    constructor; [by exists result|done].
Qed.

Lemma tool_results_all_return (calls : list ToolCall) :
  Forall (fun tc => exists result, exec tc = Return result) calls ->
  snd (tool_results exec calls) = None.
Proof.
  induction 1 as [|tc calls [result Hres] _ IH]; [done|].
  cbn. rewrite Hres. by destruct (tool_results exec calls).
Qed.

Lemma Run_head n msgs entry trace msgs' o :
  Run exec orelse n msgs (entry :: trace) msgs' o -> call_input entry = msgs.
Proof. by inversion 1. Qed.

Lemma Run_bound n msgs trace msgs' o :
  Run exec orelse n msgs trace msgs' o -> (length trace <= n)%nat.
Proof. induction 1; cbn; lia. Qed.

Lemma Run_no_call n msgs msgs' o :
  Run exec orelse n msgs [] msgs' o -> msgs' = msgs.
Proof. by inversion 1. Qed.

(** A dispatching phase in which every tool returns: the conversation
    handed to the next model call, or left at the end when no call follows,
    is the one before the phase, then the AIMessage, then one ToolMessage
    for each of its tool calls, in order. *)
Lemma Run_phase n msgs trace msgs' o :
  Run exec orelse n msgs trace msgs' o ->
  forall (k : nat) (entry : ModelCall) (turn : AIMessage),
    trace !! k = Some entry ->
    reply_outcome (call_reply entry) = Return turn ->
    tool_calls turn <> [] ->
    snd (tool_results exec (tool_calls turn)) = None ->
    match trace !! S k with
    | Some next => call_input next
    | None => msgs'
    end = call_input entry ++ AI turn :: fst (tool_results exec (tool_calls turn)).
Proof.
  induction 1 as [|n msgs entry' e' Hin Hreply|n msgs entry' turn' Hin Hreply Hnil|
                  n msgs entry' turn' appended e' Hin Hreply Hne Hres|
                  n msgs entry' turn' appended trace msgs' o Hin Hreply Hne Hres HRun IH];
    intros k entry turn Hk Hturn Hcalls Hok.
  - discriminate.
  - destruct k; [|discriminate]. injection Hk as ->. congruence.
  - destruct k; [|discriminate]. injection Hk as ->. congruence.
  - destruct k; [|discriminate]. injection Hk as ->.
    assert (turn = turn') as -> by congruence. rewrite Hres in Hok. discriminate.
  - destruct k as [|k].
    + injection Hk as ->. assert (turn = turn') as -> by congruence.
      rewrite Hres, Hin. cbn [fst]. destruct trace as [|next trace]; cbn.
      * by apply Run_no_call in HRun.
      * by apply Run_head in HRun.
    + by apply (IH k).
Qed.

(** A tool that raises ends the run: the exception is the outcome, no model
    call follows, and only the tool calls before it were answered. *)
Lemma Run_tool_raised n msgs trace msgs' o :
  Run exec orelse n msgs trace msgs' o ->
  forall entry turn e,
    entry ∈ trace ->
    reply_outcome (call_reply entry) = Return turn ->
    snd (tool_results exec (tool_calls turn)) = Some e ->
    o = Raise e /\ last trace = Some entry /\
    msgs' = call_input entry ++ AI turn :: fst (tool_results exec (tool_calls turn)).
Proof.
  induction 1 as [|n msgs entry' e' Hin Hreply|n msgs entry' turn' Hin Hreply Hnil|
                  n msgs entry' turn' appended e' Hin Hreply Hne Hres|
                  n msgs entry' turn' appended trace msgs' o Hin Hreply Hne Hres HRun IH];
    intros entry turn e Hel Hturn Herr.
  - by apply elem_of_nil in Hel.
  - apply list_elem_of_singleton in Hel as ->. congruence.
  - apply list_elem_of_singleton in Hel as ->.
    assert (turn = turn') as -> by congruence. rewrite Hnil in Herr. discriminate.
  - apply list_elem_of_singleton in Hel as ->.
    assert (turn = turn') as -> by congruence. rewrite Hres in *. cbn in *.
    injection Herr as ->. by rewrite Hin.
  - apply elem_of_cons in Hel as [->|Hel].
    + assert (turn = turn') as -> by congruence. rewrite Hres in Herr. discriminate.
    + destruct (IH entry turn e Hel Hturn Herr) as (-> & Hlast & ->).
      repeat split. destruct trace; [by apply elem_of_nil in Hel|].
      by rewrite last_cons_cons.
Qed.

(** A run in which every turn asks for tools and every tool returns uses
    all its iterations and ends with [orelse]. *)
Lemma Run_exhausts n msgs trace msgs' o :
  Run exec orelse n msgs trace msgs' o ->
  Forall (fun entry => exists turn,
            reply_outcome (call_reply entry) = Return turn /\
            tool_calls turn <> [] /\
            snd (tool_results exec (tool_calls turn)) = None) trace ->
  o = Return orelse /\ length trace = n.
Proof.
  induction 1 as [|n msgs entry' e' Hin Hreply|n msgs entry' turn' Hin Hreply Hnil|
                  n msgs entry' turn' appended e' Hin Hreply Hne Hres|
                  n msgs entry' turn' appended trace msgs' o Hin Hreply Hne Hres HRun IH];
    intros Hall.
  - done.
  - apply Forall_cons in Hall as [(turn & Ht & _) _]. congruence.
  - apply Forall_cons in Hall as [(turn & Ht & Hne & _) _]. congruence.
  - apply Forall_cons in Hall as [(turn & Ht & _ & Hok) _].
    assert (turn = turn') as -> by congruence. rewrite Hres in Hok. discriminate.
  - apply Forall_cons in Hall as [_ Hall]. destruct (IH Hall) as [-> <-]. done.
Qed.

(** A run that returns although no turn was a final answer returns
    [orelse], after all its iterations. *)
Lemma Run_no_final_answer n msgs trace msgs' v :
  Run exec orelse n msgs trace msgs' (Return v) ->
  Forall (fun entry => exists turn,
            reply_outcome (call_reply entry) = Return turn /\
            tool_calls turn <> []) trace ->
  v = orelse /\ length trace = n.
Proof.
  remember (Return v) as o eqn:Ho. intros H. revert Ho.
  induction H as [| |n msgs entry turn Hin Hreply Hnil | |
                  n msgs entry turn appended trace msgs' o Hin Hreply Hne Hres HRun IH];
    intros Ho Hall; try discriminate.
  - by injection Ho as <-.
  - apply Forall_cons in Hall as [(turn' & Ht & Hne) _]. congruence.
  - apply Forall_cons in Hall as [_ Hall]. destruct (IH Ho Hall) as [-> <-]. done.
Qed.

(** A turn without tool calls ends the run, at whatever iteration it
    comes: its text is the value returned, its model call is the last one,
    and the conversation is the one that was handed to this call. *)
Lemma Run_final_turn n msgs trace msgs' o :
  Run exec orelse n msgs trace msgs' o ->
  forall (k : nat) (entry : ModelCall) (turn : AIMessage),
    trace !! k = Some entry ->
    reply_outcome (call_reply entry) = Return turn ->
    tool_calls turn = [] ->
    o = Return (content turn) /\ length trace = S k /\ msgs' = call_input entry.
Proof.
  induction 1 as [|n msgs entry' e' Hin Hreply|n msgs entry' turn' Hin Hreply Hnil|
                  n msgs entry' turn' appended e' Hin Hreply Hne Hres|
                  n msgs entry' turn' appended trace msgs' o Hin Hreply Hne Hres HRun IH];
    intros k entry turn Hk Hturn Hcalls.
  - discriminate.
  - destruct k; [|discriminate]. injection Hk as ->. congruence.
  - destruct k; [|discriminate]. injection Hk as ->.
    assert (turn = turn') as -> by congruence. done.
  - destruct k; [|discriminate]. injection Hk as ->. congruence.
  - destruct k as [|k].
    + injection Hk as ->. congruence.
    + destruct (IH k entry turn Hk Hturn Hcalls) as (-> & Hlen & ->).
      cbn. by rewrite Hlen.
Qed.

End RunFacts.

(** *** The tool map *)

Lemma fold_insert_lookup (tools : list BaseTool) (m : gmap string BaseTool)
    (n : string) (t : BaseTool) :
  fold_left (fun m t => <[name t := t]> m) tools m !! n = Some t ->
  (t ∈ tools /\ name t = n) \/ m !! n = Some t.
Proof.
  revert m. induction tools as [|t' tools IH]; intros m H; [by right|].
  cbn in H. destruct (IH _ H) as [[Hin Hn]|Hm].
  - left. split; [by right|done].
  - destruct (decide (name t' = n)) as [Heq|Hne].
    + rewrite Heq, lookup_insert_eq in Hm. injection Hm as ->. left. split; [by left|done].
    + rewrite lookup_insert_ne in Hm by done. by right.
Qed.

Lemma make_tool_map_Some (tools : list BaseTool) (n : string) (t : BaseTool) :
  make_tool_map tools !! n = Some t -> t ∈ tools /\ name t = n.
Proof.
  intros H. destruct (fold_insert_lookup _ _ _ _ H) as [?|Hm]; [done|].
  by rewrite lookup_empty in Hm.
Qed.

Lemma make_tool_map_None (tools : list BaseTool) (n : string) :
  n ∉ map name tools -> make_tool_map tools !! n = None.
Proof.
  intros Hn. destruct (make_tool_map tools !! n) as [t|] eqn:H; [|done].
  apply make_tool_map_Some in H as [Hin <-]. exfalso. apply Hn.
  apply list_elem_of_In, in_map, list_elem_of_In, Hin.
Qed.

Lemma call_tool_unknown (tools : list BaseTool) (unknown : string -> string)
    (tool_call : ToolCall) :
  call_name tool_call ∉ map name tools ->
  call_tool (make_tool_map tools) unknown tool_call = Return (unknown (call_name tool_call)).
Proof. intros H. unfold call_tool. by rewrite make_tool_map_None. Qed.

(** *** Each loop is a [Run] *)

Section VariantRuns.

Context {Client : Type}.
Variable model_invoke : Client -> list BaseMessage -> Client * Outcome AIMessage.
Variable model_stream : Client -> list BaseMessage -> Client * Outcome (list AIMessageChunk).

Lemma invoke_Run (self : Base.BaseAgent) (question : string) (client : Client) :
  Forall (invoked_by model_invoke)
    (model_calls (fst (Base.invoke model_invoke self question client))) /\
  Run (Base._execute_tool self) "Max iterations reached without final answer"
    (Z.to_nat (Base.max_iterations self))
    [HumanMessage (Base.system_prompt self +:+ nl +:+ nl +:+ "Question: " +:+ question)]
    (model_calls (fst (Base.invoke model_invoke self question client)))
    (messages (fst (Base.invoke model_invoke self question client)))
    (snd (Base.invoke model_invoke self question client)).
Proof.
  unfold Base.invoke.
  match goal with |- context [for_return ?its ?body ?orelse ?s] =>
    destruct (for_return_Run (Base._execute_tool self) (invoked_by model_invoke)
                (invoke_step model_invoke (Base._execute_tool self))
                (invoke_step_spec model_invoke (Base._execute_tool self)) orelse its s)
      as (trace & Htrace & Hall & HRun) end.
  cbn [start model_calls messages app] in *. rewrite Htrace.
  rewrite range_length in HRun.
  replace (Z.to_nat (Base.max_iterations self + 1 - 1))
    with (Z.to_nat (Base.max_iterations self)) in HRun by lia.
  done.
Qed.

Lemma run_agent_loop_Run (tools : list BaseTool) (msgs : list BaseMessage)
    (max_iterations : Z) (client : Client) :
  Forall (invoked_by model_invoke)
    (model_calls (fst (Base.run_agent_loop model_invoke tools msgs max_iterations client))) /\
  Run (Base.run_agent_loop_execute tools) "Max iterations reached"
    (Z.to_nat max_iterations) msgs
    (model_calls (fst (Base.run_agent_loop model_invoke tools msgs max_iterations client)))
    (messages (fst (Base.run_agent_loop model_invoke tools msgs max_iterations client)))
    (snd (Base.run_agent_loop model_invoke tools msgs max_iterations client)).
Proof.
  unfold Base.run_agent_loop.
  match goal with |- context [for_return ?its ?body ?orelse ?s] =>
    destruct (for_return_Run (Base.run_agent_loop_execute tools) (invoked_by model_invoke)
                (invoke_step model_invoke (Base.run_agent_loop_execute tools))
                (invoke_step_spec model_invoke (Base.run_agent_loop_execute tools)) orelse its s)
      as (trace & Htrace & Hall & HRun) end.
  cbn [start model_calls messages app] in *. rewrite Htrace.
  rewrite range_length in HRun.
  replace (Z.to_nat (max_iterations + 1 - 1)) with (Z.to_nat max_iterations) in HRun by lia.
  done.
Qed.

Lemma run_agent_Run (TOOLS : list BaseTool) (user_question : string) (client : Client) :
  exists o,
    snd (React.run_agent model_invoke TOOLS user_question client) = some_outcome o /\
    Forall (invoked_by model_invoke)
      (model_calls (fst (React.run_agent model_invoke TOOLS user_question client))) /\
    Run (React.execute TOOLS) "Max iterations reached without final answer" 10
      [HumanMessage (React.prompt user_question)]
      (model_calls (fst (React.run_agent model_invoke TOOLS user_question client)))
      (messages (fst (React.run_agent model_invoke TOOLS user_question client)))
      o.
Proof.
  unfold React.run_agent. cbn zeta.
  rewrite (while_return_for _ _ 10 0 10) by done.
  match goal with |- context [for_return ?its ?body ?orelse ?s] =>
    destruct (for_return_Run (React.execute TOOLS) (invoked_by model_invoke)
                (invoke_step model_invoke (React.execute TOOLS))
                (invoke_step_spec model_invoke (React.execute TOOLS)) orelse its s)
      as (trace & Htrace & Hall & HRun);
    exists (snd (for_return its body orelse s)) end.
  cbn [start model_calls messages app map_outcome fst snd] in *. rewrite Htrace.
  done.
Qed.

Lemma demo_streaming_Run (TOOLS : list BaseTool) (client : Client) :
  exists o,
    snd (Streaming.demo_streaming_with_tools model_stream TOOLS client) = some_outcome o /\
    Forall (streamed_by model_stream)
      (model_calls (fst (Streaming.demo_streaming_with_tools model_stream TOOLS client))) /\
    Run (Streaming.execute TOOLS) "Max iterations reached" 5
      [HumanMessage Streaming.prompt]
      (model_calls (fst (Streaming.demo_streaming_with_tools model_stream TOOLS client)))
      (messages (fst (Streaming.demo_streaming_with_tools model_stream TOOLS client)))
      o.
Proof.
  unfold Streaming.demo_streaming_with_tools. cbn zeta.
  rewrite (while_return_for _ _ 5 0 5) by done.
  match goal with |- context [for_return ?its ?body ?orelse ?s] =>
    destruct (for_return_Run (Streaming.execute TOOLS) (streamed_by model_stream)
                (stream_step model_stream (fun _ => ret tt) (Streaming.execute TOOLS))
                (stream_step_print_spec model_stream (Streaming.execute TOOLS)) orelse its s)
      as (trace & Htrace & Hall & HRun);
    exists (snd (for_return its body orelse s)) end.
  cbn [start model_calls messages app map_outcome fst snd] in *. rewrite Htrace.
  done.
Qed.

(** The unfoldings of the two while loops are not cut short. *)
Lemma while_loops_fuel (TOOLS : list BaseTool) (user_question : string) (client : Client) :
  snd (React.run_agent model_invoke TOOLS user_question client) <> Return None /\
  snd (Streaming.demo_streaming_with_tools model_stream TOOLS client) <> Return None.
Proof.
  split.
  - destruct (run_agent_Run TOOLS user_question client) as (o & -> & _). by destruct o.
  - destruct (demo_streaming_Run TOOLS client) as (o & -> & _). by destruct o.
Qed.

End VariantRuns.

(** ** The properties of the loops *)

(** C1, as the code has it.  When the tool of a registered name raises, the
    loop does not catch the exception: the run of BaseAgent.invoke, and of
    run_agent, ends with that exception, the failing model call is the last
    one, and the conversation holds a ToolMessage for the tool calls before
    the failing one only. *)
Theorem tool_failure_propagates :
  (forall (Client : Type)
      (model_invoke : Client -> list BaseMessage -> Client * Outcome AIMessage)
      (self : Base.BaseAgent) (question : string) (client : Client)
      (entry : ModelCall) (turn : AIMessage) (before after : list ToolCall)
      (tool_call : ToolCall) (t : BaseTool) (e : Exception),
      entry ∈ model_calls (fst (Base.invoke model_invoke self question client)) ->
      reply_outcome (call_reply entry) = Return turn ->
      tool_calls turn = before ++ tool_call :: after ->
      Forall (fun tc => exists result, Base._execute_tool self tc = Return result) before ->
      Base.tool_map self !! call_name tool_call = Some t ->
      tool_invoke t (call_args tool_call) = Raise e ->
      snd (Base.invoke model_invoke self question client) = Raise e /\
      last (model_calls (fst (Base.invoke model_invoke self question client))) = Some entry /\
      exists appended,
        messages (fst (Base.invoke model_invoke self question client)) =
          call_input entry ++ AI turn :: appended /\
        Forall2 (answers (Base._execute_tool self)) before appended) /\
  (forall (Client : Type)
      (model_invoke : Client -> list BaseMessage -> Client * Outcome AIMessage)
      (TOOLS : list BaseTool) (user_question : string) (client : Client)
      (entry : ModelCall) (turn : AIMessage) (before after : list ToolCall)
      (tool_call : ToolCall) (t : BaseTool) (e : Exception),
      entry ∈ model_calls (fst (React.run_agent model_invoke TOOLS user_question client)) ->
      reply_outcome (call_reply entry) = Return turn ->
      tool_calls turn = before ++ tool_call :: after ->
      Forall (fun tc => exists result, React.execute TOOLS tc = Return result) before ->
      make_tool_map TOOLS !! call_name tool_call = Some t ->
      tool_invoke t (call_args tool_call) = Raise e ->
      snd (React.run_agent model_invoke TOOLS user_question client) = Raise e /\
      last (model_calls (fst (React.run_agent model_invoke TOOLS user_question client)))
        = Some entry /\
      exists appended,
        messages (fst (React.run_agent model_invoke TOOLS user_question client)) =
          call_input entry ++ AI turn :: appended /\
        Forall2 (answers (React.execute TOOLS)) before appended).
Proof.
  split.
  - intros Client model_invoke self question client entry turn before after tool_call t e
      Hentry Hturn Hcalls Hbefore Hlookup Hraise.
    destruct (invoke_Run model_invoke self question client) as [_ HRun].
    assert (Base._execute_tool self tool_call = Raise e) as Hexec.
    { unfold Base._execute_tool, call_tool. by rewrite Hlookup. }
    destruct (tool_results_first_failure _ before after tool_call e Hbefore Hexec)
      as [Herr Hans].
    rewrite <- Hcalls in Herr, Hans.
    destruct (Run_tool_raised _ _ _ _ _ _ _ HRun entry turn e Hentry Hturn Herr)
      as (Ho & Hlast & Hmsgs).
    repeat split; [done..|]. eexists. split; [exact Hmsgs|exact Hans].
  - intros Client model_invoke TOOLS user_question client entry turn before after tool_call t e
      Hentry Hturn Hcalls Hbefore Hlookup Hraise.
    destruct (run_agent_Run model_invoke TOOLS user_question client) as (o & Ho & _ & HRun).
    assert (React.execute TOOLS tool_call = Raise e) as Hexec.
    { unfold React.execute, call_tool. by rewrite Hlookup. }
    destruct (tool_results_first_failure _ before after tool_call e Hbefore Hexec)
      as [Herr Hans].
    rewrite <- Hcalls in Herr, Hans.
    destruct (Run_tool_raised _ _ _ _ _ _ _ HRun entry turn e Hentry Hturn Herr)
      as (-> & Hlast & Hmsgs).
    repeat split; [done..|]. eexists. split; [exact Hmsgs|exact Hans].
Qed.

(** The model asks for get_total_spending without its argument and would
    answer "done" at its second call. *)
Lemma tool_failure_propagates_witness :
  snd (Base.invoke Stub.scripted Stub.agent "How much did CUST0001 spend?"
         [mkAIMessage "" [Stub.good_call; Stub.malformed_call]; mkAIMessage "done" []])
  = Raise (Exc "ValidationError" "customer_id: Field required").
Proof.
  refine (proj1 (proj1 tool_failure_propagates _ Stub.scripted Stub.agent
            "How much did CUST0001 spend?"
            [mkAIMessage "" [Stub.good_call; Stub.malformed_call]; mkAIMessage "done" []]
            (mkModelCall
               [HumanMessage (Base.system_prompt Stub.agent +:+ nl +:+ nl +:+ "Question: "
                                +:+ "How much did CUST0001 spend?")]
               (Invoked (Return (mkAIMessage "" [Stub.good_call; Stub.malformed_call]))))
            (mkAIMessage "" [Stub.good_call; Stub.malformed_call])
            [Stub.good_call] [] Stub.malformed_call
            (Tools.get_total_spending_tool Stub.sample_df)
            (Exc "ValidationError" "customer_id: Field required")
            _ _ _ _ _ _)).
  - vm_compute. apply list_elem_of_here.
  - reflexivity.
  - reflexivity.
  - constructor; [|constructor]. eexists. vm_compute. reflexivity.
  - vm_compute. reflexivity.
  - reflexivity.
Defined.

(** C1 as stated fails: the registered tool raises, the run ends with the
    exception after one model call, and no ToolMessage was appended. *)
Lemma tool_failure_not_caught :
  snd (Base.invoke Stub.scripted Stub.agent "How much did CUST0001 spend?"
         [mkAIMessage "" [Stub.malformed_call]; mkAIMessage "done" []])
  = Raise (Exc "ValidationError" "customer_id: Field required") /\
  length (model_calls (fst (Base.invoke Stub.scripted Stub.agent "How much did CUST0001 spend?"
         [mkAIMessage "" [Stub.malformed_call]; mkAIMessage "done" []]))) = 1%nat /\
  List.filter is_tool_message
    (messages (fst (Base.invoke Stub.scripted Stub.agent "How much did CUST0001 spend?"
         [mkAIMessage "" [Stub.malformed_call]; mkAIMessage "done" []]))) = [] /\
  Base.tool_map Stub.agent !! call_name Stub.malformed_call
    = Some (Tools.get_total_spending_tool Stub.sample_df).
Proof. vm_compute. repeat split; reflexivity. Qed.

Lemma Forall_asks_and_returns {Client : Type}
    (model_invoke : Client -> list BaseMessage -> Client * Outcome AIMessage)
    (exec : ToolCall -> Outcome string) (trace : list ModelCall) :
  always_asks_for_tools model_invoke ->
  requested_tools_return model_invoke exec ->
  Forall (invoked_by model_invoke) trace ->
  Forall (fun entry => exists turn,
            reply_outcome (call_reply entry) = Return turn /\
            tool_calls turn <> [] /\
            snd (tool_results exec (tool_calls turn)) = None) trace.
Proof.
  intros Hasks Hreturn Hall. eapply Forall_impl; [exact Hall|].
  intros entry [c Hreply]. cbn beta.
  destruct (Hasks c (call_input entry)) as (turn & Hturn & Hne).
  exists turn. rewrite Hreply. cbn [reply_outcome]. repeat split; [done..|].
  apply tool_results_all_return. by apply (Hreturn c (call_input entry)).
Qed.

(** C2, as the code has it.  The loop never makes more model calls than
    max_iterations (10 in run_agent, 10 by default in BaseAgent).  When every
    turn of the model asks for tools and every requested tool call returns,
    the loop makes exactly that many calls and returns the sentinel. *)
Theorem model_calls_bounded :
  forall (Client : Type)
    (model_invoke : Client -> list BaseMessage -> Client * Outcome AIMessage),
  (forall self question client,
     (length (model_calls (fst (Base.invoke model_invoke self question client)))
        <= Z.to_nat (Base.max_iterations self))%nat) /\
  (forall TOOLS user_question client,
     (length (model_calls (fst (React.run_agent model_invoke TOOLS user_question client)))
        <= 10)%nat) /\
  (forall self question client,
     always_asks_for_tools model_invoke ->
     requested_tools_return model_invoke (Base._execute_tool self) ->
     snd (Base.invoke model_invoke self question client)
       = Return "Max iterations reached without final answer" /\
     Z.of_nat (length (model_calls (fst (Base.invoke model_invoke self question client))))
       = Z.max 0 (Base.max_iterations self)) /\
  (forall TOOLS user_question client,
     always_asks_for_tools model_invoke ->
     requested_tools_return model_invoke (React.execute TOOLS) ->
     snd (React.run_agent model_invoke TOOLS user_question client)
       = Return (Some "Max iterations reached without final answer") /\
     length (model_calls (fst (React.run_agent model_invoke TOOLS user_question client)))
       = 10%nat) /\
  (forall tools system_prompt verbose,
     Base.max_iterations (Base.init tools system_prompt None verbose) = 10).
Proof.
  intros Client model_invoke. split; [|split; [|split; [|split]]].
  - intros self question client.
    destruct (invoke_Run model_invoke self question client) as [_ HRun].
    by apply Run_bound in HRun.
  - intros TOOLS user_question client.
    destruct (run_agent_Run model_invoke TOOLS user_question client) as (o & _ & _ & HRun).
    by apply Run_bound in HRun.
  - intros self question client Hasks Hreturn.
    destruct (invoke_Run model_invoke self question client) as [Hall HRun].
    destruct (Run_exhausts _ _ _ _ _ _ _ HRun
                (Forall_asks_and_returns _ _ _ Hasks Hreturn Hall)) as [-> ->].
    split; [done|lia].
  - intros TOOLS user_question client Hasks Hreturn.
    destruct (run_agent_Run model_invoke TOOLS user_question client) as (o & Ho & Hall & HRun).
    destruct (Run_exhausts _ _ _ _ _ _ _ HRun
                (Forall_asks_and_returns _ _ _ Hasks Hreturn Hall)) as [-> ->].
    by rewrite Ho.
  - done.
Qed.

(** The model asks for get_total_spending(customer_id="CUST0001") for ever. *)
Lemma model_calls_bounded_witness :
  snd (Base.invoke (Stub.always (mkAIMessage "" [Stub.good_call])) Stub.agent "q" tt)
    = Return "Max iterations reached without final answer" /\
  Z.of_nat (length (model_calls
     (fst (Base.invoke (Stub.always (mkAIMessage "" [Stub.good_call])) Stub.agent "q" tt))))
    = 10.
Proof.
  refine (proj1 (proj2 (proj2 (model_calls_bounded unit
            (Stub.always (mkAIMessage "" [Stub.good_call])))))
            Stub.agent "q" tt _ _).
  - intros c msgs. exists (mkAIMessage "" [Stub.good_call]). split; [reflexivity|discriminate].
  - intros c msgs turn Hturn. injection Hturn as <-.
    constructor; [|constructor]. eexists. vm_compute. reflexivity.
Defined.

(** C2 as stated fails: every turn of the model asks for a tool, the tool
    raises on the argument dict, and the loop ends after one model call of
    ten with the exception instead of the sentinel. *)
Lemma raising_tool_ends_before_cap :
  always_asks_for_tools (Stub.always (mkAIMessage "" [Stub.malformed_call])) /\
  Base.max_iterations Stub.agent = 10 /\
  snd (Base.invoke (Stub.always (mkAIMessage "" [Stub.malformed_call])) Stub.agent "q" tt)
    = Raise (Exc "ValidationError" "customer_id: Field required") /\
  length (model_calls
     (fst (Base.invoke (Stub.always (mkAIMessage "" [Stub.malformed_call])) Stub.agent "q" tt)))
    = 1%nat.
Proof.
  split; [|vm_compute; repeat split; reflexivity].
  intros c msgs. exists (mkAIMessage "" [Stub.malformed_call]).
  split; [reflexivity|discriminate].
Qed.

(** C3, as the code has it.  A run that returns although every turn of the
    model asked for tools has used all its iterations and returns the text
    after the loop: "Max iterations reached without final answer" in
    BaseAgent.invoke and in run_agent, "Max iterations reached" in
    run_agent_loop and in demo_streaming_with_tools. *)
Theorem exhausted_return_value :
  forall (Client : Type)
    (model_invoke : Client -> list BaseMessage -> Client * Outcome AIMessage)
    (model_stream : Client -> list BaseMessage -> Client * Outcome (list AIMessageChunk)),
  (forall self question client v,
     snd (Base.invoke model_invoke self question client) = Return v ->
     Forall asks_for_tools (model_calls (fst (Base.invoke model_invoke self question client))) ->
     v = "Max iterations reached without final answer" /\
     length (model_calls (fst (Base.invoke model_invoke self question client)))
       = Z.to_nat (Base.max_iterations self)) /\
  (forall TOOLS user_question client v,
     snd (React.run_agent model_invoke TOOLS user_question client) = Return v ->
     Forall asks_for_tools
       (model_calls (fst (React.run_agent model_invoke TOOLS user_question client))) ->
     v = Some "Max iterations reached without final answer" /\
     length (model_calls (fst (React.run_agent model_invoke TOOLS user_question client)))
       = 10%nat) /\
  (forall tools msgs max_iterations client v,
     snd (Base.run_agent_loop model_invoke tools msgs max_iterations client) = Return v ->
     Forall asks_for_tools
       (model_calls (fst (Base.run_agent_loop model_invoke tools msgs max_iterations client))) ->
     v = "Max iterations reached" /\
     length (model_calls
               (fst (Base.run_agent_loop model_invoke tools msgs max_iterations client)))
       = Z.to_nat max_iterations) /\
  (forall TOOLS client v,
     snd (Streaming.demo_streaming_with_tools model_stream TOOLS client) = Return v ->
     Forall asks_for_tools
       (model_calls (fst (Streaming.demo_streaming_with_tools model_stream TOOLS client))) ->
     v = Some "Max iterations reached" /\
     length (model_calls (fst (Streaming.demo_streaming_with_tools model_stream TOOLS client)))
       = 5%nat).
Proof.
  intros Client model_invoke model_stream. split; [|split; [|split]].
  - intros self question client v Hv Hall.
    destruct (invoke_Run model_invoke self question client) as [_ HRun].
    rewrite Hv in HRun. exact (Run_no_final_answer _ _ _ _ _ _ _ HRun Hall).
  - intros TOOLS user_question client v Hv Hall.
    destruct (run_agent_Run model_invoke TOOLS user_question client) as (o & Ho & _ & HRun).
    rewrite Hv in Ho. destruct o as [v'|e]; [|discriminate]. injection Ho as ->.
    by destruct (Run_no_final_answer _ _ _ _ _ _ _ HRun Hall) as [-> ->].
  - intros tools msgs max_iterations client v Hv Hall.
    destruct (run_agent_loop_Run model_invoke tools msgs max_iterations client) as [_ HRun].
    rewrite Hv in HRun. exact (Run_no_final_answer _ _ _ _ _ _ _ HRun Hall).
  - intros TOOLS client v Hv Hall.
    destruct (demo_streaming_Run model_stream TOOLS client) as (o & Ho & _ & HRun).
    rewrite Hv in Ho. destruct o as [v'|e]; [|discriminate]. injection Ho as ->.
    by destruct (Run_no_final_answer _ _ _ _ _ _ _ HRun Hall) as [-> ->].
Qed.

(** Three iterations of run_agent_loop with a model that asks for
    get_total_spending at every turn. *)
Lemma exhausted_return_value_witness :
  match snd (Base.run_agent_loop (Stub.always (mkAIMessage "" [Stub.good_call]))
               [Tools.get_total_spending_tool Stub.sample_df] [HumanMessage "q"] 3 tt) with
  | Return v =>
      v = "Max iterations reached" /\
      length (model_calls
        (fst (Base.run_agent_loop (Stub.always (mkAIMessage "" [Stub.good_call]))
                [Tools.get_total_spending_tool Stub.sample_df] [HumanMessage "q"] 3 tt)))
        = 3%nat
  | Raise _ => False
  end.
Proof.
  assert (Forall asks_for_tools
    (model_calls (fst (Base.run_agent_loop (Stub.always (mkAIMessage "" [Stub.good_call]))
         [Tools.get_total_spending_tool Stub.sample_df] [HumanMessage "q"] 3 tt)))) as Hall.
  { vm_compute. repeat constructor; eexists; (split; [reflexivity|discriminate]). }
  destruct (snd (Base.run_agent_loop (Stub.always (mkAIMessage "" [Stub.good_call]))
               [Tools.get_total_spending_tool Stub.sample_df] [HumanMessage "q"] 3 tt))
    as [v|e] eqn:Hv.
  - exact (proj1 (proj2 (proj2 (exhausted_return_value unit
            (Stub.always (mkAIMessage "" [Stub.good_call]))
            (Stub.always_stream []))))
            [Tools.get_total_spending_tool Stub.sample_df] [HumanMessage "q"] 3 tt
            v Hv Hall).
  - vm_compute in Hv. discriminate.
Defined.

(** C3 as stated fails: run_agent_loop reaches its cap of ten iterations
    and returns a text that is not the sentinel of the claim. *)
Lemma run_agent_loop_other_sentinel :
  snd (Base.run_agent_loop (Stub.always (mkAIMessage "" [Stub.good_call]))
         [Tools.get_total_spending_tool Stub.sample_df] [HumanMessage "q"] 10 tt)
    = Return "Max iterations reached" /\
  length (model_calls
    (fst (Base.run_agent_loop (Stub.always (mkAIMessage "" [Stub.good_call]))
            [Tools.get_total_spending_tool Stub.sample_df] [HumanMessage "q"] 10 tt)))
    = 10%nat /\
  snd (Base.run_agent_loop (Stub.always (mkAIMessage "" [Stub.good_call]))
         [Tools.get_total_spending_tool Stub.sample_df] [HumanMessage "q"] 10 tt)
    <> Return "Max iterations reached without final answer".
Proof.
  assert (snd (Base.run_agent_loop (Stub.always (mkAIMessage "" [Stub.good_call]))
                 [Tools.get_total_spending_tool Stub.sample_df] [HumanMessage "q"] 10 tt)
          = Return "Max iterations reached") as Hv by (vm_compute; reflexivity).
  split; [exact Hv|]. split; [vm_compute; reflexivity|]. rewrite Hv. discriminate.
Qed.

(** C4, as the code has it.  A tool call whose name is not the name of a
    registered tool is answered, without an exception, by "Error: Unknown
    tool '<name>'" in BaseAgent._execute_tool, by "Error: Unknown tool
    <name>" in run_agent, and by "Unknown tool: <name>" in
    demo_streaming_with_tools and run_agent_loop; the dispatch appends the
    ToolMessage with that text and the id of the call. *)
Theorem unknown_tool_answered :
  forall (tool_call : ToolCall),
  (forall self,
     call_name tool_call ∉ map name (Base.tools self) ->
     Base._execute_tool self tool_call =
       Return ("Error: Unknown tool '" +:+ call_name tool_call +:+ "'")) /\
  (forall TOOLS,
     call_name tool_call ∉ map name TOOLS ->
     React.execute TOOLS tool_call =
       Return ("Error: Unknown tool " +:+ call_name tool_call)) /\
  (forall TOOLS,
     call_name tool_call ∉ map name TOOLS ->
     Streaming.execute TOOLS tool_call =
       Return ("Unknown tool: " +:+ call_name tool_call)) /\
  (forall tools,
     call_name tool_call ∉ map name tools ->
     Base.run_agent_loop_execute tools tool_call =
       Return ("Unknown tool: " +:+ call_name tool_call)) /\
  (forall (Client : Type) (exec : ToolCall -> Outcome string) (text : string)
      (s : @Env Client),
     exec tool_call = Return text ->
     execute_tools exec [tool_call] s =
       (mkEnv (messages s ++ [ToolMessage text (call_id tool_call)])
              (llm s) (model_calls s) (yielded s),
        Return tt)).
Proof.
  intros tool_call. split; [|split; [|split; [|split]]].
  - intros self H. by apply call_tool_unknown.
  - intros TOOLS H. unfold React.execute. by rewrite call_tool_unknown.
  - intros TOOLS H. unfold Streaming.execute. by rewrite call_tool_unknown.
  - intros tools H. unfold Base.run_agent_loop_execute. by rewrite call_tool_unknown.
  - intros Client exec text s H. rewrite execute_tools_run. cbn. by rewrite H.
Qed.

Lemma unknown_tool_answered_witness :
  Base._execute_tool Stub.agent Stub.unknown_call
    = Return "Error: Unknown tool 'get_balance'".
Proof.
  refine (proj1 (unknown_tool_answered Stub.unknown_call) Stub.agent _).
  cbn. intros [=]%list_elem_of_singleton.
Defined.

(** C4 as stated fails: run_agent answers an unknown tool without the
    quotes around the name, and the streaming demo without "Error:". *)
Lemma unknown_tool_other_texts :
  React.execute [Tools.get_total_spending_tool Stub.sample_df] Stub.unknown_call
    = Return "Error: Unknown tool get_balance" /\
  Streaming.execute [Tools.get_total_spending_tool Stub.sample_df] Stub.unknown_call
    = Return "Unknown tool: get_balance" /\
  React.execute [Tools.get_total_spending_tool Stub.sample_df] Stub.unknown_call
    <> Return ("Error: Unknown tool '" +:+ call_name Stub.unknown_call +:+ "'") /\
  Streaming.execute [Tools.get_total_spending_tool Stub.sample_df] Stub.unknown_call
    <> Return ("Error: Unknown tool '" +:+ call_name Stub.unknown_call +:+ "'").
Proof. vm_compute. repeat split; discriminate. Qed.

(** C5, as the code has it.  For a turn that asks for tools, all of which
    return: the conversation handed to the next model call (or left at the
    end of the loop when no call follows) is the conversation of that turn,
    then the AIMessage with its tool calls, then exactly one ToolMessage for
    each tool call, in the order of the tool calls. *)
Theorem one_tool_message_per_call :
  (forall (Client : Type)
      (model_invoke : Client -> list BaseMessage -> Client * Outcome AIMessage)
      (self : Base.BaseAgent) (question : string) (client : Client)
      (k : nat) (entry : ModelCall) (turn : AIMessage),
      model_calls (fst (Base.invoke model_invoke self question client)) !! k = Some entry ->
      reply_outcome (call_reply entry) = Return turn ->
      tool_calls turn <> [] ->
      Forall (fun tc => exists result, Base._execute_tool self tc = Return result)
        (tool_calls turn) ->
      exists appended,
        match model_calls (fst (Base.invoke model_invoke self question client)) !! S k with
        | Some next => call_input next
        | None => messages (fst (Base.invoke model_invoke self question client))
        end = call_input entry ++ AI turn :: appended /\
        Forall2 (answers (Base._execute_tool self)) (tool_calls turn) appended /\
        length appended = length (tool_calls turn)) /\
  (forall (Client : Type)
      (model_invoke : Client -> list BaseMessage -> Client * Outcome AIMessage)
      (TOOLS : list BaseTool) (user_question : string) (client : Client)
      (k : nat) (entry : ModelCall) (turn : AIMessage),
      model_calls (fst (React.run_agent model_invoke TOOLS user_question client)) !! k
        = Some entry ->
      reply_outcome (call_reply entry) = Return turn ->
      tool_calls turn <> [] ->
      Forall (fun tc => exists result, React.execute TOOLS tc = Return result)
        (tool_calls turn) ->
      exists appended,
        match model_calls (fst (React.run_agent model_invoke TOOLS user_question client)) !! S k
        with
        | Some next => call_input next
        | None => messages (fst (React.run_agent model_invoke TOOLS user_question client))
        end = call_input entry ++ AI turn :: appended /\
        Forall2 (answers (React.execute TOOLS)) (tool_calls turn) appended /\
        length appended = length (tool_calls turn)).
Proof.
  split.
  - intros Client model_invoke self question client k entry turn Hk Hturn Hne Hall.
    destruct (invoke_Run model_invoke self question client) as [_ HRun].
    pose proof (tool_results_all_return _ _ Hall) as Hok.
    exists (fst (tool_results (Base._execute_tool self) (tool_calls turn))).
    assert (Forall2 (answers (Base._execute_tool self)) (tool_calls turn)
              (fst (tool_results (Base._execute_tool self) (tool_calls turn)))) as Hans.
    { apply tool_results_answers.
      destruct (tool_results (Base._execute_tool self) (tool_calls turn)); cbn in *.
      by rewrite Hok. }
    split; [by apply (Run_phase _ _ _ _ _ _ _ HRun k entry turn)|].
    split; [done|]. symmetry. by eapply Forall2_length.
  - intros Client model_invoke TOOLS user_question client k entry turn Hk Hturn Hne Hall.
    destruct (run_agent_Run model_invoke TOOLS user_question client) as (o & _ & _ & HRun).
    pose proof (tool_results_all_return _ _ Hall) as Hok.
    exists (fst (tool_results (React.execute TOOLS) (tool_calls turn))).
    assert (Forall2 (answers (React.execute TOOLS)) (tool_calls turn)
              (fst (tool_results (React.execute TOOLS) (tool_calls turn)))) as Hans.
    { apply tool_results_answers.
      destruct (tool_results (React.execute TOOLS) (tool_calls turn)); cbn in *.
      by rewrite Hok. }
    split; [by apply (Run_phase _ _ _ _ _ _ _ HRun k entry turn)|].
    split; [done|]. symmetry. by eapply Forall2_length.
Qed.

(** One turn with two tool calls, then the final answer. *)
Lemma one_tool_message_per_call_witness :
  exists appended,
    match model_calls (fst (Base.invoke Stub.scripted Stub.agent "q"
            [mkAIMessage "" [Stub.good_call; Stub.unknown_call]; mkAIMessage "done" []])) !! 1%nat
    with
    | Some next => call_input next
    | None => messages (fst (Base.invoke Stub.scripted Stub.agent "q"
            [mkAIMessage "" [Stub.good_call; Stub.unknown_call]; mkAIMessage "done" []]))
    end =
      [HumanMessage (Base.system_prompt Stub.agent +:+ nl +:+ nl +:+ "Question: " +:+ "q")]
        ++ AI (mkAIMessage "" [Stub.good_call; Stub.unknown_call]) :: appended /\
    Forall2 (answers (Base._execute_tool Stub.agent)) [Stub.good_call; Stub.unknown_call]
      appended /\
    length appended = 2%nat.
Proof.
  refine (proj1 one_tool_message_per_call _ Stub.scripted Stub.agent "q"
            [mkAIMessage "" [Stub.good_call; Stub.unknown_call]; mkAIMessage "done" []]
            0%nat
            (mkModelCall
               [HumanMessage (Base.system_prompt Stub.agent +:+ nl +:+ nl +:+ "Question: "
                                +:+ "q")]
               (Invoked (Return (mkAIMessage "" [Stub.good_call; Stub.unknown_call]))))
            (mkAIMessage "" [Stub.good_call; Stub.unknown_call]) _ _ _ _).
  - vm_compute. reflexivity.
  - reflexivity.
  - discriminate.
  - repeat constructor; eexists; vm_compute; reflexivity.
Defined.

(** C5 as stated fails: the turn has two tool calls, the second tool
    raises, and the dispatching phase appended one ToolMessage only. *)
Lemma raising_tool_cuts_phase :
  map call_reply (model_calls (fst (Base.invoke Stub.scripted Stub.agent "q"
     [mkAIMessage "" [Stub.good_call; Stub.malformed_call]; mkAIMessage "done" []])))
    = [Invoked (Return (mkAIMessage "" [Stub.good_call; Stub.malformed_call]))] /\
  List.filter is_tool_message
    (messages (fst (Base.invoke Stub.scripted Stub.agent "q"
       [mkAIMessage "" [Stub.good_call; Stub.malformed_call]; mkAIMessage "done" []])))
    = [ToolMessage "Customer CUST0001 total spending: $900.00" "call_1"] /\
  length [Stub.good_call; Stub.malformed_call] = 2%nat /\
  snd (Base.invoke Stub.scripted Stub.agent "q"
     [mkAIMessage "" [Stub.good_call; Stub.malformed_call]; mkAIMessage "done" []])
    = Raise (Exc "ValidationError" "customer_id: Field required").
Proof. vm_compute. repeat split; reflexivity. Qed.

(** C7.  When the first turn of the model has no tool call, the loop returns
    the text of that turn after this one model call and leaves the
    conversation as it was: BaseAgent.invoke whenever max_iterations is at
    least 1 (it is 10 by default), run_agent always.  In general, at
    whatever iteration the model answers with a turn that has no tool call,
    BaseAgent.invoke and run_agent return the text of that turn as it is:
    this model call, the k+1-th, is the last one, and the conversation is
    left as it was handed to this call. *)
Theorem final_answer_returned :
  forall (Client : Type)
    (model_invoke : Client -> list BaseMessage -> Client * Outcome AIMessage),
  (forall self question client turn,
     0 < Base.max_iterations self ->
     snd (model_invoke client
            [HumanMessage (Base.system_prompt self +:+ nl +:+ nl +:+ "Question: " +:+ question)])
       = Return turn ->
     tool_calls turn = [] ->
     snd (Base.invoke model_invoke self question client) = Return (content turn) /\
     length (model_calls (fst (Base.invoke model_invoke self question client))) = 1%nat /\
     messages (fst (Base.invoke model_invoke self question client)) =
       [HumanMessage (Base.system_prompt self +:+ nl +:+ nl +:+ "Question: " +:+ question)]) /\
  (forall TOOLS user_question client turn,
     snd (model_invoke client [HumanMessage (React.prompt user_question)]) = Return turn ->
     tool_calls turn = [] ->
     snd (React.run_agent model_invoke TOOLS user_question client)
       = Return (Some (content turn)) /\
     length (model_calls (fst (React.run_agent model_invoke TOOLS user_question client)))
       = 1%nat /\
     messages (fst (React.run_agent model_invoke TOOLS user_question client)) =
       [HumanMessage (React.prompt user_question)]) /\
  (forall self question client k entry turn,
     model_calls (fst (Base.invoke model_invoke self question client)) !! k = Some entry ->
     call_reply entry = Invoked (Return turn) ->
     tool_calls turn = [] ->
     snd (Base.invoke model_invoke self question client) = Return (content turn) /\
     length (model_calls (fst (Base.invoke model_invoke self question client))) = S k /\
     messages (fst (Base.invoke model_invoke self question client)) = call_input entry) /\
  (forall TOOLS user_question client k entry turn,
     model_calls (fst (React.run_agent model_invoke TOOLS user_question client)) !! k
       = Some entry ->
     call_reply entry = Invoked (Return turn) ->
     tool_calls turn = [] ->
     snd (React.run_agent model_invoke TOOLS user_question client)
       = Return (Some (content turn)) /\
     length (model_calls (fst (React.run_agent model_invoke TOOLS user_question client)))
       = S k /\
     messages (fst (React.run_agent model_invoke TOOLS user_question client))
       = call_input entry).
Proof.
  intros Client model_invoke.
  assert (forall exec s turn,
     snd (model_invoke (llm s) (messages s)) = Return turn ->
     tool_calls turn = [] ->
     snd (invoke_step model_invoke exec s) = Return (Some (content turn)) /\
     messages (fst (invoke_step model_invoke exec s)) = messages s /\
     model_calls (fst (invoke_step model_invoke exec s)) =
       model_calls s ++ [mkModelCall (messages s) (Invoked (Return turn))]) as Hstep.
  { intros exec s turn Hturn Hnil. rewrite invoke_step_run. cbn zeta.
    rewrite Hturn. unfold after_turn. rewrite Hnil. cbn. done. }
  split; [|split; [|split]].
  - intros self question client turn Hmax Hturn Hnil. unfold Base.invoke.
    rewrite range_cons by lia. cbn [for_return]. unfold bind.
    match goal with |- context [invoke_step _ ?exec ?s] =>
      destruct (Hstep exec s turn Hturn Hnil) as (Hv & Hm & Hc);
      destruct (invoke_step model_invoke exec s) as [s1 o] end.
    cbn [fst snd] in *. subst o. cbn. by rewrite Hm, Hc.
  - intros TOOLS user_question client turn Hturn Hnil. unfold React.run_agent.
    cbn zeta. cbn [while_return]. replace (0 <? 10) with true by done. unfold bind.
    match goal with |- context [invoke_step _ ?exec ?s] =>
      destruct (Hstep exec s turn Hturn Hnil) as (Hv & Hm & Hc);
      destruct (invoke_step model_invoke exec s) as [s1 o] end.
    cbn [fst snd] in *. subst o. cbn. by rewrite Hm, Hc.
  - intros self question client k entry turn Hk Hreply Hnil.
    destruct (invoke_Run model_invoke self question client) as [_ HRun].
    eapply Run_final_turn in HRun; [exact HRun|exact Hk| |exact Hnil].
    by rewrite Hreply.
  - intros TOOLS user_question client k entry turn Hk Hreply Hnil.
    destruct (run_agent_Run model_invoke TOOLS user_question client) as (o & Ho & _ & HRun).
    eapply Run_final_turn in HRun; [|exact Hk|by rewrite Hreply|exact Hnil].
    destruct HRun as (-> & Hlen & Hm). rewrite Ho. done.
Qed.

(** The stub answers "42" without a tool call; invoke("q") returns "42"
    after one model call.  A model that first asks for get_total_spending and
    then answers "done": invoke("q") returns "done" after two model calls. *)
Lemma final_answer_returned_witness :
  (snd (Base.invoke (Stub.always (mkAIMessage "42" [])) Stub.agent "q" tt) = Return "42" /\
   length (model_calls (fst (Base.invoke (Stub.always (mkAIMessage "42" [])) Stub.agent "q" tt)))
     = 1%nat /\
   messages (fst (Base.invoke (Stub.always (mkAIMessage "42" [])) Stub.agent "q" tt)) =
     [HumanMessage (Base.system_prompt Stub.agent +:+ nl +:+ nl +:+ "Question: " +:+ "q")]) /\
  (snd (Base.invoke Stub.scripted Stub.agent "q"
          [mkAIMessage "" [Stub.good_call]; mkAIMessage "done" []]) = Return "done" /\
   length (model_calls (fst (Base.invoke Stub.scripted Stub.agent "q"
          [mkAIMessage "" [Stub.good_call]; mkAIMessage "done" []]))) = 2%nat /\
   messages (fst (Base.invoke Stub.scripted Stub.agent "q"
          [mkAIMessage "" [Stub.good_call]; mkAIMessage "done" []])) =
     [HumanMessage (Base.system_prompt Stub.agent +:+ nl +:+ nl +:+ "Question: " +:+ "q");
      AI (mkAIMessage "" [Stub.good_call]);
      ToolMessage "Customer CUST0001 total spending: $900.00" "call_1"]).
Proof.
  split.
  - refine (proj1 (final_answer_returned unit (Stub.always (mkAIMessage "42" [])))
              Stub.agent "q" tt (mkAIMessage "42" []) _ _ _).
    + vm_compute. reflexivity.
    + reflexivity.
    + reflexivity.
  - refine (proj1 (proj2 (proj2 (final_answer_returned _ Stub.scripted)))
              Stub.agent "q" [mkAIMessage "" [Stub.good_call]; mkAIMessage "done" []]
              1%nat
              (mkModelCall
                 [HumanMessage (Base.system_prompt Stub.agent +:+ nl +:+ nl +:+ "Question: "
                                  +:+ "q");
                  AI (mkAIMessage "" [Stub.good_call]);
                  ToolMessage "Customer CUST0001 total spending: $900.00" "call_1"]
                 (Invoked (Return (mkAIMessage "done" []))))
              (mkAIMessage "done" []) _ _ _).
    + vm_compute. reflexivity.
    + reflexivity.
    + reflexivity.
Defined.

(** ** The two delivery modes *)

Lemma aggregate_fragments (fragments : list Fragment) :
  aggregate (map chunk_of_fragment fragments) = blocking_turn fragments.
Proof.
  induction fragments as [|[text|invocation] rest IH]; [done|..];
    cbn [blocking_turn]; rewrite <- IH; reflexivity.
Qed.

Lemma after_turn_same_conversation {Client : Type} (exec : ToolCall -> Outcome string)
    (s s' : @Env Client) (turn : AIMessage) :
  messages s = messages s' ->
  messages (fst (after_turn exec s turn)) = messages (fst (after_turn exec s' turn)) /\
  snd (after_turn exec s turn) = snd (after_turn exec s' turn).
Proof.
  intros H. unfold after_turn.
  destruct (nonempty (tool_calls turn)); cbn [fst snd messages]; by rewrite ?H.
Qed.

(** C6.  Draining a stream to its end, as BaseAgent.stream and
    demo_streaming_with_tools do, collects the contents of the chunks joined
    in order and their tool calls joined in order.  For the stream of a stub
    scripted with fragments this is the text and the tool calls of the turn
    the stub gives in the blocking mode, and an iteration of either
    streaming loop leaves the same conversation and outcome as an iteration
    of the blocking loop on that turn. *)
Theorem stream_aggregates_to_blocking_turn :
  forall (Client : Type) (s : @Env Client),
  (forall chunks,
     snd (collect yield chunks "" [] s)
       = Return (content (aggregate chunks), tool_calls (aggregate chunks)) /\
     snd (collect (fun _ => ret tt) chunks "" [] s)
       = Return (content (aggregate chunks), tool_calls (aggregate chunks))) /\
  (forall fragments,
     snd (collect yield (map chunk_of_fragment fragments) "" [] s)
       = Return (content (blocking_turn fragments), tool_calls (blocking_turn fragments)) /\
     snd (collect (fun _ => ret tt) (map chunk_of_fragment fragments) "" [] s)
       = Return (content (blocking_turn fragments), tool_calls (blocking_turn fragments))) /\
  (forall fragments exec
      (model_stream : Client -> list BaseMessage -> Client * Outcome (list AIMessageChunk))
      (model_invoke : Client -> list BaseMessage -> Client * Outcome AIMessage),
     model_stream (llm s) (messages s) = (llm s, Return (map chunk_of_fragment fragments)) ->
     model_invoke (llm s) (messages s) = (llm s, Return (blocking_turn fragments)) ->
     (messages (fst (stream_step model_stream (fun _ => ret tt) exec s))
        = messages (fst (invoke_step model_invoke exec s)) /\
      snd (stream_step model_stream (fun _ => ret tt) exec s)
        = snd (invoke_step model_invoke exec s)) /\
     (messages (fst (stream_step model_stream yield exec s))
        = messages (fst (invoke_step model_invoke exec s)) /\
      snd (stream_step model_stream yield exec s)
        = snd (invoke_step model_invoke exec s))).
Proof.
  intros Client s.
  assert (forall chunks,
     snd (collect yield chunks "" [] s)
       = Return (content (aggregate chunks), tool_calls (aggregate chunks)) /\
     snd (collect (fun _ => ret tt) chunks "" [] s)
       = Return (content (aggregate chunks), tool_calls (aggregate chunks))) as Hcollect.
  { intros chunks. split.
    - rewrite (collect_run yield
                 (fun token s => mkEnv (messages s) (llm s) (model_calls s)
                                   (yielded s ++ [token]))) by done.
      cbn [snd]. by rewrite string_app_nil_l, app_nil_l.
    - rewrite (collect_run (fun _ => ret tt) (fun _ s => s)) by done.
      cbn [snd]. by rewrite string_app_nil_l, app_nil_l. }
  split; [exact Hcollect|]. split.
  - intros fragments. rewrite <- aggregate_fragments. apply Hcollect.
  - intros fragments exec model_stream model_invoke Hstream Hinvoke. split.
    + rewrite (stream_step_run model_stream exec (fun _ => ret tt) (fun _ s => s)) by done.
      rewrite invoke_step_run. cbn zeta. rewrite Hstream, Hinvoke. cbn [fst snd].
      rewrite aggregate_fragments. apply after_turn_same_conversation.
      by rewrite (proj1 (fold_emit_messages (fun _ s => s)
                           (fun _ _ => eq_refl) (fun _ _ => eq_refl) _ _)).
    + rewrite (stream_step_run model_stream exec yield
                 (fun token s => mkEnv (messages s) (llm s) (model_calls s)
                                   (yielded s ++ [token]))) by done.
      rewrite invoke_step_run. cbn zeta. rewrite Hstream, Hinvoke. cbn [fst snd].
      rewrite aggregate_fragments. apply after_turn_same_conversation.
      by rewrite (proj1 (fold_emit_messages
                           (fun token s => mkEnv (messages s) (llm s) (model_calls s)
                                             (yielded s ++ [token]))
                           (fun _ _ => eq_refl) (fun _ _ => eq_refl) _ _)).
Qed.

(** A stub that streams "The total", " is", one tool call and an empty
    chunk; its blocking turn is the text "The total is" with that call. *)
Lemma stream_aggregates_to_blocking_turn_witness :
  messages (fst (stream_step
      (Stub.always_stream
         (map chunk_of_fragment
            [TextFragment "The total"; TextFragment " is";
             InvocationFragment Stub.good_call; TextFragment ""]))
      (fun _ => ret tt) (Base._execute_tool Stub.agent)
      (start tt [HumanMessage "q"])))
  = messages (fst (invoke_step
      (Stub.always (mkAIMessage "The total is" [Stub.good_call]))
      (Base._execute_tool Stub.agent) (start tt [HumanMessage "q"]))) /\
  snd (stream_step
      (Stub.always_stream
         (map chunk_of_fragment
            [TextFragment "The total"; TextFragment " is";
             InvocationFragment Stub.good_call; TextFragment ""]))
      (fun _ => ret tt) (Base._execute_tool Stub.agent)
      (start tt [HumanMessage "q"]))
  = snd (invoke_step
      (Stub.always (mkAIMessage "The total is" [Stub.good_call]))
      (Base._execute_tool Stub.agent) (start tt [HumanMessage "q"])).
Proof.
  refine (proj1 (proj2 (proj2 (stream_aggregates_to_blocking_turn unit
                                 (start tt [HumanMessage "q"])))
            [TextFragment "The total"; TextFragment " is";
             InvocationFragment Stub.good_call; TextFragment ""]
            (Base._execute_tool Stub.agent) _ _ _ _)).
  - reflexivity.
  - reflexivity.
Defined.

(** ** The properties of the tools *)

Section ToolFacts.

Import Tools.

Lemma string_compare_refl (s : string) : String.compare s s = Eq.
Proof.
  induction s as [|a s IH]; [done|]. cbn.
  unfold Ascii.compare. by rewrite N.compare_refl.
Qed.


Lemma insert_desc_Permutation (x : string * Z) (sorted : list (string * Z)) :
  Permutation (insert_desc x sorted) (x :: sorted).
Proof.
  induction sorted as [|y rest IH]; [done|]. cbn.
  destruct (snd y <=? snd x); [done|].
  rewrite IH. apply perm_swap.
Qed.

Lemma sort_values_desc_Permutation (series : list (string * Z)) :
  Permutation (sort_values_desc series) series.
Proof.
  induction series as [|x rest IH]; [done|]. cbn.
  by rewrite insert_desc_Permutation, IH.
Qed.

Lemma insert_desc_sorted (x : string * Z) (sorted : list (string * Z)) :
  StronglySorted descending sorted -> StronglySorted descending (insert_desc x sorted).
Proof.
  induction 1 as [|y rest Hrest IH Hall]; cbn.
  - repeat constructor.
  - destruct (snd y <=? snd x) eqn:Hle.
    + apply Z.leb_le in Hle. constructor; [by constructor|].
      constructor; [done|]. eapply Forall_impl; [exact Hall|].
      intros z Hz. unfold descending in *. lia.
    + apply Z.leb_gt in Hle. constructor; [done|].
      rewrite insert_desc_Permutation.
      constructor; [unfold descending; lia|done].
Qed.

Lemma sort_values_desc_sorted (series : list (string * Z)) :
  StronglySorted descending (sort_values_desc series).
Proof.
  induction series as [|x rest IH]; [constructor|]. cbn. by apply insert_desc_sorted.
Qed.

Lemma head_sorted {A : Type} (R : A -> A -> Prop) (n : Z) (series : list A) :
  StronglySorted R series -> StronglySorted R (head n series).
Proof.
  intros H. unfold head.
  assert (forall k, StronglySorted R (firstn k series)) as Hk.
  { intros k. revert k. induction H as [|x l Hl IH Hall]; intros [|k]; cbn;
      try constructor; [apply IH|]. by apply Forall_take. }
  destruct (0 <=? n); apply Hk.
Qed.

Lemma in_map_firstn {A B : Type} (f : A -> B) (k : nat) (l : list A) (y : B) :
  In y (map f (firstn k l)) -> In y (map f l).
Proof.
  revert k. induction l as [|x l IH]; intros [|k]; cbn; try tauto.
  intros [->|H]; [by left|right; by apply (IH k)].
Qed.

Lemma NoDup_map_firstn {A B : Type} (f : A -> B) (k : nat) (l : list A) :
  List.NoDup (map f l) -> List.NoDup (map f (firstn k l)).
Proof.
  revert k. induction l as [|x l IH]; intros [|k] H; cbn; try constructor.
  - inversion H as [|? ? Hx Hl]; subst. intros Hin. apply Hx. by apply in_map_firstn in Hin.
  - inversion H; subst. by apply IH.
Qed.

Lemma sorted_distinct_strict (l : list (string * Z)) :
  StronglySorted descending l -> List.NoDup (map snd l) ->
  StronglySorted strictly_descending l.
Proof.
  induction 1 as [|x l Hl IH Hall]; intros Hnd; [constructor|].
  cbn in Hnd. inversion Hnd as [|? ? Hx Hnd']; subst.
  constructor; [by apply IH|].
  rewrite List.Forall_forall in *. intros y Hy. specialize (Hall y Hy).
  unfold descending, strictly_descending in *.
  assert (snd y <> snd x); [|lia].
  intros Heq. apply Hx. rewrite <- Heq. by apply in_map.
Qed.

Lemma filter_none {A : Type} (f : A -> bool) (l : list A) :
  (forall x, x ∈ l -> f x = false) -> List.filter f l = [].
Proof.
  induction l as [|x l IH]; intros H; [done|]. cbn.
  rewrite (H x) by left. apply IH. intros y Hy. apply H. by right.
Qed.

Lemma in_date_range_true (customer_id start_date end_date : string) (row : Transaction) :
  in_date_range customer_id start_date end_date row = true <->
  cust_id row = customer_id /\ dr_cr_indctor row = "DR" /\
  String.leb start_date (tran_date row) = true /\
  String.leb (tran_date row) end_date = true.
Proof.
  unfold in_date_range. rewrite !andb_true_iff, !String.eqb_eq. tauto.
Qed.

(** C8.  When the debit rows of CUST0001 total Groceries 100, Rent 500 and
    EMI 300, top_spending_categories with top_n = 2 ranks Rent (500) and
    then EMI (300), and returns the text with these two lines.  In general
    the ranking holds the first top_n entries of the category totals sorted
    by total, the larger total first. *)
Theorem top_two_categories :
  (forall (df : DataFrame),
     groupby_sum (List.filter (is_debit_of "CUST0001") df)
       = [("EMI", 30000); ("Groceries", 10000); ("Rent", 50000)] ->
     top_cats df "CUST0001" 2 = [("Rent", 50000); ("EMI", 30000)] /\
     top_spending_categories df "CUST0001" 2 =
       "Top 2 spending categories for CUST0001:" +:+ nl +:+
       "  1. Rent: $500.00" +:+ nl +:+
       "  2. EMI: $300.00" +:+ nl) /\
  (forall (df : DataFrame) (customer_id : string) (top_n : Z),
     0 <= top_n ->
     top_cats df customer_id top_n =
       firstn (Z.to_nat top_n)
         (sort_values_desc (groupby_sum (List.filter (is_debit_of customer_id) df))) /\
     (length (top_cats df customer_id top_n) <= Z.to_nat top_n)%nat /\
     StronglySorted descending (top_cats df customer_id top_n) /\
     (List.NoDup (map snd (groupby_sum (List.filter (is_debit_of customer_id) df))) ->
      StronglySorted strictly_descending (top_cats df customer_id top_n)) /\
     Permutation
       (sort_values_desc (groupby_sum (List.filter (is_debit_of customer_id) df)))
       (groupby_sum (List.filter (is_debit_of customer_id) df))).
Proof.
  split.
  - intros df Htotals. unfold top_spending_categories, top_cats. rewrite Htotals.
    split; vm_compute; reflexivity.
  - intros df customer_id top_n Hn.
    assert (top_cats df customer_id top_n =
       firstn (Z.to_nat top_n)
         (sort_values_desc (groupby_sum (List.filter (is_debit_of customer_id) df)))) as Htop.
    { unfold top_cats, head. by replace (0 <=? top_n) with true by lia. }
    split; [exact Htop|]. split; [|split; [|split]].
    + rewrite Htop. apply firstn_le_length.
    + unfold top_cats. apply head_sorted, sort_values_desc_sorted.
    + intros Hdistinct. apply sorted_distinct_strict.
      * unfold top_cats. apply head_sorted, sort_values_desc_sorted.
      * rewrite Htop. apply NoDup_map_firstn.
        eapply Permutation_NoDup; [|exact Hdistinct].
        apply Permutation_map. symmetry. apply sort_values_desc_Permutation.
    + apply sort_values_desc_Permutation.
Qed.

Lemma top_two_categories_witness :
  top_cats Stub.sample_df "CUST0001" 2 = [("Rent", 50000); ("EMI", 30000)] /\
  top_spending_categories Stub.sample_df "CUST0001" 2 =
    "Top 2 spending categories for CUST0001:" +:+ nl +:+
    "  1. Rent: $500.00" +:+ nl +:+
    "  2. EMI: $300.00" +:+ nl.
Proof.
  refine (proj1 top_two_categories Stub.sample_df _).
  vm_compute. reflexivity.
Defined.

Lemma fold_add (l : list Z) (a : Z) : fold_left Z.add l a = a + fold_left Z.add l 0.
Proof.
  revert a. induction l as [|x l IH]; intros a; cbn [fold_left]; [lia|].
  rewrite (IH (a + x)), (IH (0 + x)). lia.
Qed.

Lemma sum_cons (x : Z) (l : list Z) : sum (x :: l) = x + sum l.
Proof. unfold sum. cbn. apply fold_add. Qed.





(** C10.  For a customer_id that no debit row of the dataset carries,
    get_total_spending returns the summary with the amount 0.00. *)
Theorem unknown_customer_zero_spending :
  forall (df : DataFrame) (customer_id : string),
    (forall row, row ∈ df ->
       ~ (cust_id row = customer_id /\ dr_cr_indctor row = "DR")) ->
    get_total_spending df customer_id
      = "Customer " +:+ customer_id +:+ " total spending: $0.00".
Proof.
  intros df customer_id Hnone. unfold get_total_spending.
  rewrite filter_none; [reflexivity|].
  intros row Hrow. specialize (Hnone row Hrow). unfold is_debit_of.
  destruct (String.eqb_spec (cust_id row) customer_id) as [Hc|Hc]; [|done].
  destruct (String.eqb_spec (dr_cr_indctor row) "DR") as [Hd|Hd]; [|done].
  by destruct Hnone.
Qed.

(** CUST9999 is in no row, and CUST0003 has a credit row only. *)
Lemma unknown_customer_zero_spending_witness :
  get_total_spending Stub.sample_df "CUST9999" = "Customer CUST9999 total spending: $0.00" /\
  get_total_spending Stub.sample_df "CUST0003" = "Customer CUST0003 total spending: $0.00".
Proof.
  split.
  - refine (unknown_customer_zero_spending Stub.sample_df "CUST9999" _).
    intros row Hrow [Hc _]. revert Hc.
    repeat (apply elem_of_cons in Hrow as [->|Hrow]; [discriminate|]).
    by apply elem_of_nil in Hrow.
  - refine (unknown_customer_zero_spending Stub.sample_df "CUST0003" _).
    intros row Hrow [Hc Hd]. revert Hc Hd.
    repeat (apply elem_of_cons in Hrow as [->|Hrow]; [cbn; congruence|]).
    by apply elem_of_nil in Hrow.
Defined.

End ToolFacts.

(** ** Further properties of the loops *)

Section MoreRunFacts.

Variable exec : ToolCall -> Outcome string.
Variable orelse : string.

Lemma Run_grows n msgs trace msgs' o :
  Run exec orelse n msgs trace msgs' o -> msgs `prefix_of` msgs'.
Proof.
  induction 1 as [| | | |n msgs entry turn appended trace msgs' o _ _ _ _ _ IH];
    try done; [by apply prefix_app_r|].
  etrans; [|exact IH]. by apply prefix_app_r.
Qed.

Lemma single_call_append_only (msgs msgs' : list BaseMessage) (entry : ModelCall) :
  call_input entry = msgs -> msgs `prefix_of` msgs' -> append_only msgs [entry] msgs'.
Proof.
  intros Hin Hpre. split; [done|]. split.
  - intros k entry' Hk. apply list_lookup_singleton_Some in Hk as [_ <-]. by rewrite Hin.
  - intros k k' e1 e2 _ Hk Hk'.
    apply list_lookup_singleton_Some in Hk as [_ <-].
    by apply list_lookup_singleton_Some in Hk' as [_ <-].
Qed.

Lemma Run_append_only n msgs trace msgs' o :
  Run exec orelse n msgs trace msgs' o -> append_only msgs trace msgs'.
Proof.
  induction 1 as [|n msgs entry e Hin _|n msgs entry turn Hin _ _|
                  n msgs entry turn appended e Hin _ _ _|
                  n msgs entry turn appended trace msgs' o Hin _ _ _ HRun (IH0 & IH1 & IH2)].
  - split; [done|]. split; [intros k entry Hk|intros k k' e e' _ Hk]; by destruct k.
  - by apply single_call_append_only.
  - by apply single_call_append_only.
  - apply single_call_append_only; [done|by apply prefix_app_r].
  - assert (msgs `prefix_of` msgs ++ AI turn :: appended) as Hstep by by apply prefix_app_r.
    split; [by etrans|]. split.
    + intros [|k] entry' Hk.
      * injection Hk as <-. rewrite Hin. split; [done|by etrans].
      * destruct (IH1 k entry' Hk) as [Ha Hb]. split; [by etrans|done].
    + intros [|k] [|k'] e1 e2 Hle Hk Hk'.
      * injection Hk as <-. by injection Hk' as <-.
      * injection Hk as <-. rewrite Hin.
        destruct (IH1 k' e2 Hk') as [Ha _]. by etrans.
      * lia.
      * apply (IH2 k k'); [lia|done..].
Qed.

Lemma block_answers (from : nat) (msgs appended : list BaseMessage) (turn : AIMessage)
    (answered : list ToolCall) :
  tool_messages_answer exec from msgs ->
  answered ⊆ tool_calls turn ->
  Forall2 (answers exec) answered appended ->
  tool_messages_answer exec from (msgs ++ AI turn :: appended).
Proof.
  intros Hmsgs Hsub Hans i text id Hfrom Hi.
  destruct (decide (i < length msgs)%nat) as [Hlt|Hge].
  - rewrite lookup_app_l in Hi by done.
    destruct (Hmsgs i text id Hfrom Hi) as (j & turn' & tc & Hj & Hlook & Hrest).
    exists j, turn', tc. split; [done|]. split; [|done].
    rewrite lookup_app_l by lia. done.
  - rewrite lookup_app_r in Hi by lia.
    destruct (i - length msgs)%nat as [|m] eqn:Hm; [discriminate|]. cbn in Hi.
    destruct (Forall2_lookup_r _ _ _ _ _ Hans Hi) as (tc & Htc & result & Hexec & Heq).
    injection Heq as -> ->.
    exists (length msgs), turn, tc. split; [lia|]. split.
    + rewrite lookup_app_r by lia. by rewrite Nat.sub_diag.
    + split; [|done]. apply Hsub. by eapply list_elem_of_lookup_2.
Qed.

Lemma Run_tool_messages_answer (from : nat) n msgs trace msgs' o :
  Run exec orelse n msgs trace msgs' o ->
  tool_messages_answer exec from msgs ->
  tool_messages_answer exec from msgs'.
Proof.
  induction 1 as [| | |n msgs entry turn appended e _ _ _ Hres|
                  n msgs entry turn appended trace msgs' o _ _ _ Hres _ IH];
    intros Hmsgs; try done.
  - destruct (tool_results_raised _ _ _ _ Hres) as (before & tc & after & Hcalls & Hans & _).
    apply (block_answers from _ _ _ before); [done| |done].
    rewrite Hcalls. intros x Hx. apply elem_of_app. by left.
  - apply IH. apply (block_answers from _ _ _ (tool_calls turn)); [done..|].
    by apply tool_results_answers.
Qed.

(** A model call that fails ends the run: its exception is the outcome, it
    is the last call, and the conversation is the one handed to it. *)
Lemma Run_model_raised n msgs trace msgs' o :
  Run exec orelse n msgs trace msgs' o ->
  forall entry e,
    entry ∈ trace ->
    reply_outcome (call_reply entry) = Raise e ->
    o = Raise e /\ last trace = Some entry /\ msgs' = call_input entry.
Proof.
  induction 1 as [|n msgs entry' e' Hin Hreply|n msgs entry' turn' Hin Hreply Hnil|
                  n msgs entry' turn' appended e' Hin Hreply Hne Hres|
                  n msgs entry' turn' appended trace msgs' o Hin Hreply Hne Hres HRun IH];
    intros entry e Hel Hraise.
  - by apply elem_of_nil in Hel.
  - apply list_elem_of_singleton in Hel as ->.
    assert (e = e') as -> by congruence. by rewrite Hin.
  - apply list_elem_of_singleton in Hel as ->. congruence.
  - apply list_elem_of_singleton in Hel as ->. congruence.
  - apply elem_of_cons in Hel as [->|Hel]; [congruence|].
    destruct (IH entry e Hel Hraise) as (-> & Hlast & ->). repeat split.
    destruct trace; [by apply elem_of_nil in Hel|]. by rewrite last_cons_cons.
Qed.

(** Where the value of a run that returns comes from. *)
Lemma Run_returned n msgs trace msgs' v :
  Run exec orelse n msgs trace msgs' (Return v) ->
  (exists earlier entry turn,
     trace = earlier ++ [entry] /\ Forall asks_for_tools earlier /\
     reply_outcome (call_reply entry) = Return turn /\ tool_calls turn = [] /\
     v = content turn /\ msgs' = call_input entry) \/
  (Forall asks_for_tools trace /\ length trace = n /\ v = orelse).
Proof.
  remember (Return v) as o eqn:Ho. intros H. revert Ho.
  induction H as [| |n msgs entry turn Hin Hreply Hnil | |
                  n msgs entry turn appended trace msgs' o Hin Hreply Hne Hres HRun IH];
    intros Ho; try discriminate.
  - right. injection Ho as <-. repeat split. constructor.
  - left. injection Ho as <-. exists [], entry, turn. by rewrite Hin.
  - destruct (IH Ho) as [(earlier & last_entry & turn' & -> & Hall & Hrest)|(Hall & Hlen & Hv)].
    + left. exists (entry :: earlier), last_entry, turn'. split; [done|].
      split; [|done]. constructor; [by exists turn|done].
    + right. split; [|split; [cbn; by rewrite Hlen|done]].
      constructor; [by exists turn|done].
Qed.

End MoreRunFacts.

(** X1.  The conversation only grows, in every variant of the loop: the
    messages the loop starts on stay at the front of every conversation
    handed to the model and of the conversation left at the end, and each
    conversation handed to the model is the front of the later ones.  For
    run_agent_loop the messages it starts on are the caller's. *)
Theorem conversation_append_only :
  forall (Client : Type)
    (model_invoke : Client -> list BaseMessage -> Client * Outcome AIMessage)
    (model_stream : Client -> list BaseMessage -> Client * Outcome (list AIMessageChunk)),
  (forall self question client,
     append_only
       [HumanMessage (Base.system_prompt self +:+ nl +:+ nl +:+ "Question: " +:+ question)]
       (model_calls (fst (Base.invoke model_invoke self question client)))
       (messages (fst (Base.invoke model_invoke self question client)))) /\
  (forall TOOLS user_question client,
     append_only [HumanMessage (React.prompt user_question)]
       (model_calls (fst (React.run_agent model_invoke TOOLS user_question client)))
       (messages (fst (React.run_agent model_invoke TOOLS user_question client)))) /\
  (forall tools msgs max_iterations client,
     append_only msgs
       (model_calls (fst (Base.run_agent_loop model_invoke tools msgs max_iterations client)))
       (messages (fst (Base.run_agent_loop model_invoke tools msgs max_iterations client)))) /\
  (forall TOOLS client,
     append_only [HumanMessage Streaming.prompt]
       (model_calls (fst (Streaming.demo_streaming_with_tools model_stream TOOLS client)))
       (messages (fst (Streaming.demo_streaming_with_tools model_stream TOOLS client)))).
Proof.
  intros Client model_invoke model_stream. split; [|split; [|split]].
  - intros self question client.
    destruct (invoke_Run model_invoke self question client) as [_ HRun].
    by eapply Run_append_only.
  - intros TOOLS user_question client.
    destruct (run_agent_Run model_invoke TOOLS user_question client) as (o & _ & _ & HRun).
    by eapply Run_append_only.
  - intros tools msgs max_iterations client.
    destruct (run_agent_loop_Run model_invoke tools msgs max_iterations client) as [_ HRun].
    by eapply Run_append_only.
  - intros TOOLS client.
    destruct (demo_streaming_Run model_stream TOOLS client) as (o & _ & _ & HRun).
    by eapply Run_append_only.
Qed.

(** The caller's two messages are still the front of the conversation
    run_agent_loop leaves after a turn with a tool call and a final answer. *)
Lemma conversation_append_only_witness :
  [HumanMessage "You are a financial analyst."; HumanMessage "How much did CUST0001 spend?"]
    `prefix_of`
  messages (fst (Base.run_agent_loop Stub.scripted
                   [Tools.get_total_spending_tool Stub.sample_df]
                   [HumanMessage "You are a financial analyst.";
                    HumanMessage "How much did CUST0001 spend?"]
                   10
                   [mkAIMessage "" [Stub.good_call]; mkAIMessage "done" []])).
Proof.
  exact (proj1 (proj1 (proj2 (proj2 (conversation_append_only (list AIMessage) Stub.scripted
                  (fun c _ => (c, Return [])))))
            [Tools.get_total_spending_tool Stub.sample_df]
            [HumanMessage "You are a financial analyst.";
             HumanMessage "How much did CUST0001 spend?"]
            10
            [mkAIMessage "" [Stub.good_call]; mkAIMessage "done" []])).
Defined.

(** X2.  In the conversation a loop leaves, every ToolMessage the loop
    appended answers a tool call of an AIMessage that stands before it: it
    carries the id of that call and, as its text, what the execution of that
    call returned. *)
Theorem tool_messages_answer_calls :
  forall (Client : Type)
    (model_invoke : Client -> list BaseMessage -> Client * Outcome AIMessage)
    (model_stream : Client -> list BaseMessage -> Client * Outcome (list AIMessageChunk)),
  (forall self question client,
     tool_messages_answer (Base._execute_tool self) 0
       (messages (fst (Base.invoke model_invoke self question client)))) /\
  (forall TOOLS user_question client,
     tool_messages_answer (React.execute TOOLS) 0
       (messages (fst (React.run_agent model_invoke TOOLS user_question client)))) /\
  (forall tools msgs max_iterations client,
     tool_messages_answer (Base.run_agent_loop_execute tools) (length msgs)
       (messages (fst (Base.run_agent_loop model_invoke tools msgs max_iterations client)))) /\
  (forall TOOLS client,
     tool_messages_answer (Streaming.execute TOOLS) 0
       (messages (fst (Streaming.demo_streaming_with_tools model_stream TOOLS client)))).
Proof.
  intros Client model_invoke model_stream.
  assert (forall exec text, tool_messages_answer exec 0 [HumanMessage text]) as Hstart.
  { intros exec text [|[|i]] t id _ Hi; discriminate. }
  split; [|split; [|split]].
  - intros self question client.
    destruct (invoke_Run model_invoke self question client) as [_ HRun].
    eapply Run_tool_messages_answer; [exact HRun|apply Hstart].
  - intros TOOLS user_question client.
    destruct (run_agent_Run model_invoke TOOLS user_question client) as (o & _ & _ & HRun).
    eapply Run_tool_messages_answer; [exact HRun|apply Hstart].
  - intros tools msgs max_iterations client.
    destruct (run_agent_loop_Run model_invoke tools msgs max_iterations client) as [_ HRun].
    eapply Run_tool_messages_answer; [exact HRun|].
    intros i text id Hi Hlook. apply lookup_lt_Some in Hlook. lia.
  - intros TOOLS client.
    destruct (demo_streaming_Run model_stream TOOLS client) as (o & _ & _ & HRun).
    eapply Run_tool_messages_answer; [exact HRun|apply Hstart].
Qed.

(** The third message of the run is the answer to call_1 of the second. *)
Lemma tool_messages_answer_calls_witness :
  exists j turn tool_call,
    (j < 2)%nat /\
    messages (fst (Base.invoke Stub.scripted Stub.agent "q"
                [mkAIMessage "" [Stub.good_call]; mkAIMessage "done" []])) !! j
      = Some (AI turn) /\
    tool_call ∈ tool_calls turn /\ call_id tool_call = "call_1" /\
    Base._execute_tool Stub.agent tool_call
      = Return "Customer CUST0001 total spending: $900.00".
Proof.
  refine (proj1 (tool_messages_answer_calls (list AIMessage) Stub.scripted
                   (fun c _ => (c, Return [])))
            Stub.agent "q" [mkAIMessage "" [Stub.good_call]; mkAIMessage "done" []]
            2%nat "Customer CUST0001 total spending: $900.00" "call_1" _ _).
  - lia.
  - vm_compute. reflexivity.
Defined.

(** X3.  A failure of the model call is not caught by any variant of the
    loop: the run ends with the exception of the model, the failing call is
    the last one, and the conversation is the one that was handed to it. *)
Theorem model_failure_propagates :
  forall (Client : Type)
    (model_invoke : Client -> list BaseMessage -> Client * Outcome AIMessage)
    (model_stream : Client -> list BaseMessage -> Client * Outcome (list AIMessageChunk))
    (entry : ModelCall) (e : Exception),
  reply_outcome (call_reply entry) = Raise e ->
  (forall self question client,
     entry ∈ model_calls (fst (Base.invoke model_invoke self question client)) ->
     snd (Base.invoke model_invoke self question client) = Raise e /\
     last (model_calls (fst (Base.invoke model_invoke self question client))) = Some entry /\
     messages (fst (Base.invoke model_invoke self question client)) = call_input entry) /\
  (forall TOOLS user_question client,
     entry ∈ model_calls (fst (React.run_agent model_invoke TOOLS user_question client)) ->
     snd (React.run_agent model_invoke TOOLS user_question client) = Raise e /\
     last (model_calls (fst (React.run_agent model_invoke TOOLS user_question client)))
       = Some entry /\
     messages (fst (React.run_agent model_invoke TOOLS user_question client))
       = call_input entry) /\
  (forall tools msgs max_iterations client,
     entry ∈ model_calls
               (fst (Base.run_agent_loop model_invoke tools msgs max_iterations client)) ->
     snd (Base.run_agent_loop model_invoke tools msgs max_iterations client) = Raise e /\
     last (model_calls
             (fst (Base.run_agent_loop model_invoke tools msgs max_iterations client)))
       = Some entry /\
     messages (fst (Base.run_agent_loop model_invoke tools msgs max_iterations client))
       = call_input entry) /\
  (forall TOOLS client,
     entry ∈ model_calls (fst (Streaming.demo_streaming_with_tools model_stream TOOLS client)) ->
     snd (Streaming.demo_streaming_with_tools model_stream TOOLS client) = Raise e /\
     last (model_calls (fst (Streaming.demo_streaming_with_tools model_stream TOOLS client)))
       = Some entry /\
     messages (fst (Streaming.demo_streaming_with_tools model_stream TOOLS client))
       = call_input entry).
Proof.
  intros Client model_invoke model_stream entry e Hraise. split; [|split; [|split]].
  - intros self question client Hentry.
    destruct (invoke_Run model_invoke self question client) as [_ HRun].
    exact (Run_model_raised _ _ _ _ _ _ _ HRun entry e Hentry Hraise).
  - intros TOOLS user_question client Hentry.
    destruct (run_agent_Run model_invoke TOOLS user_question client) as (o & Ho & _ & HRun).
    destruct (Run_model_raised _ _ _ _ _ _ _ HRun entry e Hentry Hraise) as (-> & ? & ?).
    by rewrite Ho.
  - intros tools msgs max_iterations client Hentry.
    destruct (run_agent_loop_Run model_invoke tools msgs max_iterations client) as [_ HRun].
    exact (Run_model_raised _ _ _ _ _ _ _ HRun entry e Hentry Hraise).
  - intros TOOLS client Hentry.
    destruct (demo_streaming_Run model_stream TOOLS client) as (o & Ho & _ & HRun).
    destruct (Run_model_raised _ _ _ _ _ _ _ HRun entry e Hentry Hraise) as (-> & ? & ?).
    by rewrite Ho.
Qed.

(** The backend is unreachable at the first call of invoke. *)
Lemma model_failure_propagates_witness :
  snd (Base.invoke unavailable Stub.agent "q" tt)
    = Raise (Exc "ConnectionError" "model backend unreachable") /\
  last (model_calls (fst (Base.invoke unavailable Stub.agent "q" tt)))
    = Some (mkModelCall
              [HumanMessage (Base.system_prompt Stub.agent +:+ nl +:+ nl +:+ "Question: "
                               +:+ "q")]
              (Invoked (Raise (Exc "ConnectionError" "model backend unreachable")))) /\
  messages (fst (Base.invoke unavailable Stub.agent "q" tt))
    = [HumanMessage (Base.system_prompt Stub.agent +:+ nl +:+ nl +:+ "Question: " +:+ "q")].
Proof.
  refine (proj1 (model_failure_propagates unit unavailable (fun c _ => (c, Return []))
            (mkModelCall
              [HumanMessage (Base.system_prompt Stub.agent +:+ nl +:+ nl +:+ "Question: "
                               +:+ "q")]
              (Invoked (Raise (Exc "ConnectionError" "model backend unreachable"))))
            (Exc "ConnectionError" "model backend unreachable") _)
            Stub.agent "q" tt _).
  - reflexivity.
  - vm_compute. apply list_elem_of_here.
Defined.

(** X4.  The value BaseAgent.invoke and run_agent return is the text of the
    last turn of the model, which has no tool call and follows turns that
    all asked for tools, the conversation being the one handed to that last
    call; or else it is the sentinel, after max_iterations turns that all
    asked for tools. *)
Theorem returned_value_origin :
  forall (Client : Type)
    (model_invoke : Client -> list BaseMessage -> Client * Outcome AIMessage),
  (forall self question client v,
     snd (Base.invoke model_invoke self question client) = Return v ->
     (exists earlier entry turn,
        model_calls (fst (Base.invoke model_invoke self question client))
          = earlier ++ [entry] /\
        Forall asks_for_tools earlier /\
        reply_outcome (call_reply entry) = Return turn /\ tool_calls turn = [] /\
        v = content turn /\
        messages (fst (Base.invoke model_invoke self question client)) = call_input entry) \/
     (Forall asks_for_tools (model_calls (fst (Base.invoke model_invoke self question client))) /\
      length (model_calls (fst (Base.invoke model_invoke self question client)))
        = Z.to_nat (Base.max_iterations self) /\
      v = "Max iterations reached without final answer")) /\
  (forall TOOLS user_question client v,
     snd (React.run_agent model_invoke TOOLS user_question client) = Return v ->
     (exists earlier entry turn,
        model_calls (fst (React.run_agent model_invoke TOOLS user_question client))
          = earlier ++ [entry] /\
        Forall asks_for_tools earlier /\
        reply_outcome (call_reply entry) = Return turn /\ tool_calls turn = [] /\
        v = Some (content turn) /\
        messages (fst (React.run_agent model_invoke TOOLS user_question client))
          = call_input entry) \/
     (Forall asks_for_tools
        (model_calls (fst (React.run_agent model_invoke TOOLS user_question client))) /\
      length (model_calls (fst (React.run_agent model_invoke TOOLS user_question client)))
        = 10%nat /\
      v = Some "Max iterations reached without final answer")).
Proof.
  intros Client model_invoke. split.
  - intros self question client v Hv.
    destruct (invoke_Run model_invoke self question client) as [_ HRun].
    rewrite Hv in HRun. exact (Run_returned _ _ _ _ _ _ _ HRun).
  - intros TOOLS user_question client v Hv.
    destruct (run_agent_Run model_invoke TOOLS user_question client) as (o & Ho & _ & HRun).
    rewrite Hv in Ho. destruct o as [v'|e]; [|discriminate]. injection Ho as ->.
    destruct (Run_returned _ _ _ _ _ _ _ HRun)
      as [(earlier & entry & turn & H1 & H2 & H3 & H4 & -> & H6)|(H1 & H2 & ->)].
    + left. by exists earlier, entry, turn.
    + by right.
Qed.

(** A turn with a tool call and then the final answer "done". *)
Lemma returned_value_origin_witness :
  (exists earlier entry turn,
     model_calls (fst (Base.invoke Stub.scripted Stub.agent "q"
        [mkAIMessage "" [Stub.good_call]; mkAIMessage "done" []])) = earlier ++ [entry] /\
     Forall asks_for_tools earlier /\
     reply_outcome (call_reply entry) = Return turn /\ tool_calls turn = [] /\
     "done" = content turn /\
     messages (fst (Base.invoke Stub.scripted Stub.agent "q"
        [mkAIMessage "" [Stub.good_call]; mkAIMessage "done" []])) = call_input entry) \/
  (Forall asks_for_tools (model_calls (fst (Base.invoke Stub.scripted Stub.agent "q"
        [mkAIMessage "" [Stub.good_call]; mkAIMessage "done" []]))) /\
   length (model_calls (fst (Base.invoke Stub.scripted Stub.agent "q"
        [mkAIMessage "" [Stub.good_call]; mkAIMessage "done" []])))
     = Z.to_nat (Base.max_iterations Stub.agent) /\
   "done" = "Max iterations reached without final answer").
Proof.
  refine (proj1 (returned_value_origin (list AIMessage) Stub.scripted)
            Stub.agent "q" [mkAIMessage "" [Stub.good_call]; mkAIMessage "done" []] "done" _).
  vm_compute. reflexivity.
Defined.

(** *** The streaming agent *)

Section StreamFacts.

Context {Client : Type}.
Variable model_invoke : Client -> list BaseMessage -> Client * Outcome AIMessage.
Variable model_stream : Client -> list BaseMessage -> Client * Outcome (list AIMessageChunk).
Variable exec : ToolCall -> Outcome string.

Lemma bind_run {A B : Type} (m : @M Client A) (k : A -> @M Client B) (s : @Env Client) :
  bind m k s = match m s with
               | (s', Return a) => k a s'
               | (s', Raise e) => (s', Raise e)
               end.
Proof. reflexivity. Qed.

Lemma fold_on_yield (tokens : list string) (s : @Env Client) :
  fold_left (fun s token => on_yield token s) tokens s =
    mkEnv (messages s) (llm s) (model_calls s) (yielded s ++ tokens).
Proof.
  revert s. induction tokens as [|token rest IH]; intros s; cbn [fold_left].
  - by rewrite app_nil_r, env_eta.
  - rewrite IH. cbn. by rewrite <- app_assoc.
Qed.

Lemma after_turn_fields (s : @Env Client) (turn : AIMessage) :
  llm (fst (after_turn exec s turn)) = llm s /\
  model_calls (fst (after_turn exec s turn)) = model_calls s /\
  yielded (fst (after_turn exec s turn)) = yielded s.
Proof. unfold after_turn. by destruct (nonempty (tool_calls turn)). Qed.

Lemma stream_yield_step_run (s : @Env Client) :
  stream_step model_stream yield exec s =
    match snd (model_stream (llm s) (messages s)) with
    | Return chunks =>
        after_turn exec
          (mkEnv (messages s) (fst (model_stream (llm s) (messages s)))
             (model_calls s ++ [mkModelCall (messages s) (Streamed (Return chunks))])
             (yielded s ++ List.filter nonempty_str (map chunk_content chunks)))
          (aggregate chunks)
    | Raise e =>
        (mkEnv (messages s) (fst (model_stream (llm s) (messages s)))
           (model_calls s ++ [mkModelCall (messages s) (Streamed (Raise e))])
           (yielded s),
         Raise e)
    end.
Proof.
  rewrite (stream_step_run model_stream exec yield on_yield) by done. cbn zeta.
  destruct (snd (model_stream (llm s) (messages s))) as [chunks|e]; [|done].
  by rewrite fold_on_yield.
Qed.

(** The loop of BaseAgent.stream is the loop over [stream_step] with its
    return value dropped. *)
Lemma for_return_forget (step : @M Client (option string)) (orelse : string)
    (its : list Z) (s : @Env Client) :
  for_return its
    (fun _ => r <- step ;; ret (match r with Some _ => Some tt | None => None end)) tt s
  = map_outcome (fun _ => tt) (for_return its (fun _ => step) orelse s).
Proof.
  revert s. induction its as [|i rest IH]; intros s; [done|].
  cbn [for_return]. rewrite !bind_run.
  destruct (step s) as [s1 [[v|]|e]]; [done| |done].
  exact (IH s1).
Qed.

Lemma stream_Run (self : Base.BaseAgent) (question : string) (client : Client) :
  exists o,
    snd (Base.stream model_stream self question client)
      = match o with Return _ => Return tt | Raise e => Raise e end /\
    Forall (streamed_by model_stream)
      (model_calls (fst (Base.stream model_stream self question client))) /\
    Run (Base._execute_tool self) "" (Z.to_nat (Base.max_iterations self))
      [HumanMessage (Base.system_prompt self +:+ nl +:+ nl +:+ "Question: " +:+ question)]
      (model_calls (fst (Base.stream model_stream self question client)))
      (messages (fst (Base.stream model_stream self question client)))
      o.
Proof.
  unfold Base.stream. rewrite (for_return_forget _ "").
  match goal with |- context [for_return ?its ?body ?orelse ?s] =>
    destruct (for_return_Run (Base._execute_tool self) (streamed_by model_stream)
                (stream_step model_stream yield (Base._execute_tool self))
                (stream_step_spec model_stream (Base._execute_tool self) yield on_yield
                   (fun _ _ => eq_refl) (fun _ _ => eq_refl) (fun _ _ => eq_refl))
                orelse its s)
      as (trace & Htrace & Hall & HRun);
    exists (snd (for_return its body orelse s)) end.
  cbn [start model_calls messages app map_outcome fst snd] in *. rewrite Htrace.
  rewrite range_length in HRun.
  replace (Z.to_nat (Base.max_iterations self + 1 - 1))
    with (Z.to_nat (Base.max_iterations self)) in HRun by lia.
  done.
Qed.

(** What the loop of BaseAgent.stream yields. *)
Lemma stream_loop_yields (orelse : string) (its : list Z) (s : @Env Client) :
  exists trace,
    model_calls (fst (for_return its (fun _ => stream_step model_stream yield exec) orelse s))
      = model_calls s ++ trace /\
    yielded (fst (for_return its (fun _ => stream_step model_stream yield exec) orelse s))
      = yielded s ++ concat (map tokens_of_call trace).
Proof.
  revert s. induction its as [|i rest IH]; intros s.
  - exists []. cbn. by rewrite !app_nil_r.
  - cbn [for_return]. unfold bind at 1 2.
    rewrite stream_yield_step_run.
    destruct (snd (model_stream (llm s) (messages s))) as [chunks|e].
    + match goal with |- context [after_turn exec ?s1 ?turn] =>
        destruct (after_turn_fields s1 turn) as (Hl & Hc & Hy);
        destruct (after_turn exec s1 turn) as [s2 [[v|]|e]] end;
        cbn [fst snd messages llm model_calls yielded ret] in *.
      * eexists [_]. rewrite Hc, Hy. split; [done|]. cbn. by rewrite app_nil_r.
      * destruct (IH s2) as (trace & Htrace & Hyield). eexists (_ :: trace).
        rewrite Htrace, Hyield, Hc, Hy, <- !app_assoc. split; [done|]. done.
      * eexists [_]. rewrite Hc, Hy. split; [done|]. cbn. by rewrite app_nil_r.
    + eexists [_]. cbn. split; [done|]. by rewrite app_nil_r.
Qed.

(** The two loops on one backend go through the same conversations. *)
Lemma loops_agree (orelse : string) (its : list Z) :
  same_backend model_stream model_invoke ->
  forall (s s' : @Env Client),
    messages s = messages s' -> llm s = llm s' ->
    length (model_calls s) = length (model_calls s') ->
    messages (fst (for_return its (fun _ => stream_step model_stream yield exec) orelse s))
      = messages (fst (for_return its (fun _ => invoke_step model_invoke exec) orelse s')) /\
    length (model_calls
              (fst (for_return its (fun _ => stream_step model_stream yield exec) orelse s)))
      = length (model_calls
                  (fst (for_return its (fun _ => invoke_step model_invoke exec) orelse s'))) /\
    snd (for_return its (fun _ => stream_step model_stream yield exec) orelse s)
      = snd (for_return its (fun _ => invoke_step model_invoke exec) orelse s').
Proof.
  intros Hsame. induction its as [|i rest IH]; intros s s' Hm Hl Hc; [done|].
  cbn [for_return]. unfold bind at 1 2 3 4 5 6.
  rewrite stream_yield_step_run, invoke_step_run. cbn zeta.
  destruct (Hsame (llm s) (messages s)) as [Hfst Hsnd]. rewrite <- Hm, <- Hl.
  destruct (snd (model_stream (llm s) (messages s))) as [chunks|e],
           (snd (model_invoke (llm s) (messages s))) as [turn|e']; try done.
  - subst turn.
    match goal with |- context [after_turn exec ?a (aggregate chunks)] =>
      match goal with |- context [after_turn exec ?b (aggregate chunks)] =>
        lazymatch a with b => fail | _ =>
          destruct (after_turn_same_conversation exec a b (aggregate chunks) eq_refl)
            as [Hmsgs Hout];
          destruct (after_turn_fields a (aggregate chunks)) as (Hla & Hca & _);
          destruct (after_turn_fields b (aggregate chunks)) as (Hlb & Hcb & _);
          destruct (after_turn exec a (aggregate chunks)) as [sa oa];
          destruct (after_turn exec b (aggregate chunks)) as [sb ob]
        end end end.
    cbn [fst snd llm model_calls messages] in *. subst ob.
    destruct oa as [[v|]|e]; cbn [fst snd ret].
    + rewrite Hca, Hcb, !length_app, Hc. done.
    + apply IH; [done|congruence|]. rewrite Hca, Hcb, !length_app, Hc. done.
    + rewrite Hca, Hcb, !length_app, Hc. done.
  - subst e'. cbn. rewrite !length_app, Hc. done.
Qed.

End StreamFacts.

(** X5.  The variants of the loop that take their own cap keep to it:
    run_agent_loop and BaseAgent.stream make at most max_iterations model
    calls (none when max_iterations is not positive), and
    demo_streaming_with_tools at most 5. *)
Theorem other_loops_bounded :
  forall (Client : Type)
    (model_invoke : Client -> list BaseMessage -> Client * Outcome AIMessage)
    (model_stream : Client -> list BaseMessage -> Client * Outcome (list AIMessageChunk)),
  (forall tools msgs max_iterations client,
     (length (model_calls
                (fst (Base.run_agent_loop model_invoke tools msgs max_iterations client)))
        <= Z.to_nat max_iterations)%nat) /\
  (forall self question client,
     (length (model_calls (fst (Base.stream model_stream self question client)))
        <= Z.to_nat (Base.max_iterations self))%nat) /\
  (forall TOOLS client,
     (length (model_calls (fst (Streaming.demo_streaming_with_tools model_stream TOOLS client)))
        <= 5)%nat).
Proof.
  intros Client model_invoke model_stream. split; [|split].
  - intros tools msgs max_iterations client.
    destruct (run_agent_loop_Run model_invoke tools msgs max_iterations client) as [_ HRun].
    by apply Run_bound in HRun.
  - intros self question client.
    destruct (stream_Run model_stream self question client) as (o & _ & _ & HRun).
    by apply Run_bound in HRun.
  - intros TOOLS client.
    destruct (demo_streaming_Run model_stream TOOLS client) as (o & _ & _ & HRun).
    by apply Run_bound in HRun.
Qed.

(** X6.  With max_iterations zero or negative the model is never called:
    BaseAgent.invoke returns the sentinel at once, run_agent_loop returns
    "Max iterations reached" and leaves the caller's messages as they are,
    and BaseAgent.stream ends without a token. *)
Theorem no_iteration_no_call :
  forall (Client : Type)
    (model_invoke : Client -> list BaseMessage -> Client * Outcome AIMessage)
    (model_stream : Client -> list BaseMessage -> Client * Outcome (list AIMessageChunk)),
  (forall self question client,
     Base.max_iterations self <= 0 ->
     snd (Base.invoke model_invoke self question client)
       = Return "Max iterations reached without final answer" /\
     model_calls (fst (Base.invoke model_invoke self question client)) = []) /\
  (forall tools msgs max_iterations client,
     max_iterations <= 0 ->
     snd (Base.run_agent_loop model_invoke tools msgs max_iterations client)
       = Return "Max iterations reached" /\
     model_calls (fst (Base.run_agent_loop model_invoke tools msgs max_iterations client)) = [] /\
     messages (fst (Base.run_agent_loop model_invoke tools msgs max_iterations client)) = msgs) /\
  (forall self question client,
     Base.max_iterations self <= 0 ->
     snd (Base.stream model_stream self question client) = Return tt /\
     model_calls (fst (Base.stream model_stream self question client)) = [] /\
     yielded (fst (Base.stream model_stream self question client)) = []).
Proof.
  intros Client model_invoke model_stream. split; [|split].
  - intros self question client Hmax. unfold Base.invoke. by rewrite range_nil by lia.
  - intros tools msgs max_iterations client Hmax. unfold Base.run_agent_loop.
    by rewrite range_nil by lia.
  - intros self question client Hmax. unfold Base.stream. by rewrite range_nil by lia.
Qed.

(** An agent built with max_iterations=0. *)
Lemma no_iteration_no_call_witness :
  snd (Base.invoke (Stub.always (mkAIMessage "42" []))
         (Base.init None (Some "prompt") (Some 0) None) "q" tt)
    = Return "Max iterations reached without final answer" /\
  model_calls (fst (Base.invoke (Stub.always (mkAIMessage "42" []))
         (Base.init None (Some "prompt") (Some 0) None) "q" tt)) = [].
Proof.
  refine (proj1 (no_iteration_no_call unit (Stub.always (mkAIMessage "42" []))
                   (Stub.always_stream []))
            (Base.init None (Some "prompt") (Some 0) None) "q" tt _).
  cbn. lia.
Defined.

Lemma fragments_same_backend : same_backend fragment_stream fragment_invoke.
Proof.
  intros [|fragments rest] msgs; cbn; [done|]. split; [done|apply aggregate_fragments].
Qed.

(** X7.  On one backend, BaseAgent.stream drained to its end and
    BaseAgent.invoke go through the same run: the same number of model
    calls, the same conversation at the end, and stream ends normally exactly
    when invoke returns a value, and with the same exception otherwise. *)
Theorem stream_follows_invoke :
  forall (Client : Type)
    (model_invoke : Client -> list BaseMessage -> Client * Outcome AIMessage)
    (model_stream : Client -> list BaseMessage -> Client * Outcome (list AIMessageChunk))
    (self : Base.BaseAgent) (question : string) (client : Client),
  same_backend model_stream model_invoke ->
  messages (fst (Base.stream model_stream self question client))
    = messages (fst (Base.invoke model_invoke self question client)) /\
  length (model_calls (fst (Base.stream model_stream self question client)))
    = length (model_calls (fst (Base.invoke model_invoke self question client))) /\
  snd (Base.stream model_stream self question client)
    = match snd (Base.invoke model_invoke self question client) with
      | Return _ => Return tt
      | Raise e => Raise e
      end.
Proof.
  intros Client model_invoke model_stream self question client Hsame.
  unfold Base.stream, Base.invoke.
  rewrite (for_return_forget _ "Max iterations reached without final answer").
  match goal with |- context [for_return ?its _ ?orelse ?s] =>
    destruct (loops_agree model_invoke model_stream (Base._execute_tool self) orelse its
                Hsame s s eq_refl eq_refl eq_refl) as (Hm & Hc & Ho) end.
  unfold map_outcome. cbn [fst snd]. by rewrite Hm, Hc, Ho.
Qed.

(** A turn streamed as text, a tool call and more text, then the answer
    streamed in two pieces. *)
Lemma stream_follows_invoke_witness :
  messages (fst (Base.stream fragment_stream Stub.agent "q"
      [[TextFragment "Let me check."; InvocationFragment Stub.good_call];
       [TextFragment "CUST0001 spent "; TextFragment "$900.00"]]))
    = messages (fst (Base.invoke fragment_invoke Stub.agent "q"
      [[TextFragment "Let me check."; InvocationFragment Stub.good_call];
       [TextFragment "CUST0001 spent "; TextFragment "$900.00"]])) /\
  length (model_calls (fst (Base.stream fragment_stream Stub.agent "q"
      [[TextFragment "Let me check."; InvocationFragment Stub.good_call];
       [TextFragment "CUST0001 spent "; TextFragment "$900.00"]])))
    = length (model_calls (fst (Base.invoke fragment_invoke Stub.agent "q"
      [[TextFragment "Let me check."; InvocationFragment Stub.good_call];
       [TextFragment "CUST0001 spent "; TextFragment "$900.00"]]))) /\
  snd (Base.stream fragment_stream Stub.agent "q"
      [[TextFragment "Let me check."; InvocationFragment Stub.good_call];
       [TextFragment "CUST0001 spent "; TextFragment "$900.00"]])
    = match snd (Base.invoke fragment_invoke Stub.agent "q"
      [[TextFragment "Let me check."; InvocationFragment Stub.good_call];
       [TextFragment "CUST0001 spent "; TextFragment "$900.00"]]) with
      | Return _ => Return tt
      | Raise e => Raise e
      end.
Proof.
  exact (stream_follows_invoke (list (list Fragment)) fragment_invoke fragment_stream
           Stub.agent "q"
           [[TextFragment "Let me check."; InvocationFragment Stub.good_call];
            [TextFragment "CUST0001 spent "; TextFragment "$900.00"]]
           fragments_same_backend).
Defined.

(** X8.  In a run of BaseAgent.stream in which every stream of the model
    was delivered to its end (no model call raised), the generator yields
    the non-empty contents of the chunks of every model call, in the order
    of the calls and of the chunks, and nothing else: the text of a turn
    that goes on to call tools is yielded too, and reaching max_iterations
    yields no sentinel. *)
Theorem stream_yields_every_text :
  forall (Client : Type)
    (model_stream : Client -> list BaseMessage -> Client * Outcome (list AIMessageChunk))
    (self : Base.BaseAgent) (question : string) (client : Client),
  Forall (fun entry => exists chunks, call_reply entry = Streamed (Return chunks))
    (model_calls (fst (Base.stream model_stream self question client))) ->
  yielded (fst (Base.stream model_stream self question client))
    = concat (map tokens_of_call
                (model_calls (fst (Base.stream model_stream self question client)))).
Proof.
  intros Client model_stream self question client _. unfold Base.stream.
  rewrite (for_return_forget _ "").
  match goal with |- context [for_return ?its _ ?orelse ?s] =>
    destruct (stream_loop_yields model_stream (Base._execute_tool self) orelse its s)
      as (trace & Htrace & Hyield) end.
  unfold map_outcome. cbn [fst snd start model_calls yielded app] in *.
  by rewrite Hyield, Htrace.
Qed.

(** A turn streamed as text and a tool call, then the answer streamed in
    two pieces: the text before the tool call is yielded as well. *)
Lemma stream_yields_every_text_witness :
  yielded (fst (Base.stream fragment_stream Stub.agent "q"
      [[TextFragment "Let me check."; InvocationFragment Stub.good_call];
       [TextFragment "CUST0001 spent "; TextFragment "$900.00"]]))
    = ["Let me check."; "CUST0001 spent "; "$900.00"].
Proof.
  refine (stream_yields_every_text (list (list Fragment)) fragment_stream Stub.agent "q"
           [[TextFragment "Let me check."; InvocationFragment Stub.good_call];
            [TextFragment "CUST0001 spent "; TextFragment "$900.00"]] _).
  vm_compute. repeat constructor; eexists; reflexivity.
Defined.

Lemma fold_insert_last (tools : list BaseTool) (m : gmap string BaseTool) (n : string) :
  fold_left (fun m t => <[name t := t]> m) tools m !! n =
    match last (List.filter (fun t => String.eqb (name t) n) tools) with
    | Some t => Some t
    | None => m !! n
    end.
Proof.
  revert m. induction tools as [|t tools IH]; intros m; [done|].
  cbn [fold_left List.filter]. rewrite IH.
  destruct (String.eqb_spec (name t) n) as [Heq|Hne].
  - destruct (List.filter (fun t => String.eqb (name t) n) tools) as [|t' l] eqn:Hf.
    + cbn. by rewrite Heq, lookup_insert_eq.
    + rewrite last_cons_cons. by destruct (last (t' :: l)) eqn:Hl; [|apply last_None in Hl].
  - destruct (last (List.filter (fun t => String.eqb (name t) n) tools)); [done|].
    by rewrite lookup_insert_ne.
Qed.

(** X9.  The tool map built from a list of tools gives, for a name, the
    last tool of the list that has this name: a tool is found under its
    name, a later tool of the same name replaces an earlier one, and a name
    that no tool has is not in the map. *)
Theorem tool_map_last_wins :
  forall (tools : list BaseTool) (n : string),
    make_tool_map tools !! n = last (List.filter (fun t => String.eqb (name t) n) tools).
Proof.
  intros tools n. unfold make_tool_map. rewrite fold_insert_last.
  by destruct (last (List.filter (fun t => String.eqb (name t) n) tools)).
Qed.

(** ** Further properties of the tools *)

Section MoreToolFacts.

Import Tools.

Lemma string_compare_lt_trans (a b c : string) :
  String.compare a b = Lt -> String.compare b c = Lt -> String.compare a c = Lt.
Proof.
  intros Hab Hbc.
  assert (String.le a b) as Hle1 by (unfold String.le, String.leb; by rewrite Hab).
  assert (String.le b c) as Hle2 by (unfold String.le, String.leb; by rewrite Hbc).
  assert (String.le a c) as Hle by by etrans.
  unfold String.le, String.leb in Hle.
  destruct (String.compare a c) eqn:Hac; [|done|done].
  apply String.compare_eq_iff in Hac as ->.
  rewrite String.compare_antisym, Hbc in Hab. discriminate.
Qed.

Lemma string_compare_lt_neq (a b : string) : String.compare a b = Lt -> a <> b.
Proof. intros H ->. by rewrite string_compare_refl in H. Qed.

Lemma add_to_group_keys (P : string -> Prop) (cat : string) (amt : Z)
    (groups : list (string * Z)) :
  P cat -> Forall (fun g => P (fst g)) groups ->
  Forall (fun g => P (fst g)) (add_to_group cat amt groups).
Proof.
  intros Hcat. induction 1 as [|[c total] rest Hc Hrest IH]; cbn.
  - by repeat constructor.
  - destruct (String.compare cat c); by repeat constructor.
Qed.

Lemma add_to_group_sorted (cat : string) (amt : Z) (groups : list (string * Z)) :
  StronglySorted key_before groups -> StronglySorted key_before (add_to_group cat amt groups).
Proof.
  induction 1 as [|[c total] rest Hrest IH Hall]; cbn.
  - repeat constructor.
  - destruct (String.compare cat c) eqn:Hcmp.
    + by constructor.
    + constructor; [by constructor|]. constructor; [done|].
      eapply Forall_impl; [exact Hall|]. intros y Hy. unfold key_before in *. cbn in *.
      by eapply string_compare_lt_trans.
    + constructor; [done|].
      apply (add_to_group_keys (fun k => String.compare c k = Lt)); [|done].
      by rewrite String.compare_antisym, Hcmp.
Qed.

Lemma groupby_sum_sorted (rows : DataFrame) : StronglySorted key_before (groupby_sum rows).
Proof.
  unfold groupby_sum.
  assert (forall groups, StronglySorted key_before groups ->
            StronglySorted key_before
              (fold_left (fun groups row =>
                            add_to_group (category_of_txn row) (tran_amt_in_ac row) groups)
                         rows groups)) as H.
  { induction rows as [|row rows IH]; intros groups Hg; [done|].
    cbn. by apply IH, add_to_group_sorted. }
  apply H. constructor.
Qed.

Lemma amount_of_cons (cat : string) (g : string * Z) (groups : list (string * Z)) :
  amount_of cat (g :: groups) =
    (if String.eqb (fst g) cat then snd g else 0) + amount_of cat groups.
Proof.
  unfold amount_of. cbn [List.filter].
  destruct (String.eqb (fst g) cat); cbn [map]; [by rewrite sum_cons|lia].
Qed.

Lemma add_to_group_amount (k cat : string) (amt : Z) (groups : list (string * Z)) :
  amount_of k (add_to_group cat amt groups) =
    amount_of k groups + (if String.eqb cat k then amt else 0).
Proof.
  induction groups as [|[c total] rest IH]; cbn [add_to_group].
  - rewrite amount_of_cons. cbn [fst snd]. lia.
  - destruct (String.compare cat c) eqn:Hcmp.
    + apply String.compare_eq_iff in Hcmp as ->. rewrite !amount_of_cons. cbn [fst snd].
      destruct (String.eqb c k); lia.
    + rewrite !amount_of_cons. cbn [fst snd].
      destruct (String.eqb cat k), (String.eqb c k); lia.
    + rewrite !amount_of_cons, IH. cbn [fst snd]. lia.
Qed.

Lemma total_in_cons (cat : string) (row : Transaction) (rows : DataFrame) :
  total_in cat (row :: rows) =
    (if String.eqb (category_of_txn row) cat then tran_amt_in_ac row else 0)
    + total_in cat rows.
Proof.
  unfold total_in, in_category. cbn [List.filter].
  destruct (String.eqb (category_of_txn row) cat); cbn [map]; [by rewrite sum_cons|lia].
Qed.

Lemma groupby_sum_amount (k : string) (rows : DataFrame) :
  amount_of k (groupby_sum rows) = total_in k rows.
Proof.
  unfold groupby_sum.
  assert (forall groups,
            amount_of k (fold_left (fun groups row =>
                            add_to_group (category_of_txn row) (tran_amt_in_ac row) groups)
                         rows groups)
            = amount_of k groups + total_in k rows) as H.
  { induction rows as [|row rows IH]; intros groups; cbn [fold_left].
    - unfold total_in. cbn. lia.
    - rewrite IH, add_to_group_amount, total_in_cons. lia. }
  rewrite H. unfold amount_of. cbn. lia.
Qed.

Lemma sorted_amount_of (k : string) (t : Z) (groups : list (string * Z)) :
  StronglySorted key_before groups -> In (k, t) groups -> amount_of k groups = t.
Proof.
  induction 1 as [|[c total] rest Hrest IH Hall]; intros Hin; [done|].
  rewrite amount_of_cons. cbn. destruct Hin as [Heq|Hin].
  - injection Heq as -> ->. rewrite String.eqb_refl.
    assert (amount_of k rest = 0) as ->; [|lia].
    unfold amount_of. rewrite filter_none; [done|].
    intros y Hy. rewrite Forall_forall in Hall.
    specialize (Hall y Hy). apply String.eqb_neq. intros Heq.
    unfold key_before in Hall. cbn in Hall. rewrite Heq in Hall.
    by rewrite string_compare_refl in Hall.
  - rewrite Forall_forall in Hall.
    pose proof (Hall _ (proj2 (list_elem_of_In _ _) Hin)) as Hlt.
    unfold key_before in Hlt. cbn in Hlt. apply string_compare_lt_neq in Hlt.
    apply String.eqb_neq in Hlt. rewrite Hlt. rewrite IH by done. lia.
Qed.

End MoreToolFacts.

Section ToolProperties.

Import Tools.

Lemma head_In {A : Type} (n : Z) (series : list A) (x : A) :
  In x (head n series) -> In x series.
Proof.
  unfold head. destruct (0 <=? n); intros H; apply list_elem_of_In in H;
    apply list_elem_of_In; by eapply subseteq_take.
Qed.

Lemma top_cats_In (df : DataFrame) (customer_id : string) (top_n : Z) (g : string * Z) :
  In g (top_cats df customer_id top_n) ->
  In g (groupby_sum (List.filter (is_debit_of customer_id) df)).
Proof.
  unfold top_cats. intros H. apply head_In in H.
  eapply Permutation_in; [apply sort_values_desc_Permutation|done].
Qed.

Lemma groupby_sum_keys (rows : DataFrame) (k : string) (t : Z) :
  In (k, t) (groupby_sum rows) -> exists row, In row rows /\ category_of_txn row = k.
Proof.
  unfold groupby_sum. set (P := fun k => exists row, In row rows /\ category_of_txn row = k).
  assert (forall part groups,
            (forall row, In row part -> P (category_of_txn row)) ->
            Forall (fun g => P (fst g)) groups ->
            Forall (fun g => P (fst g))
              (fold_left (fun groups row =>
                            add_to_group (category_of_txn row) (tran_amt_in_ac row) groups)
                         part groups)) as H.
  { induction part as [|row part IH]; intros groups Hpart Hgroups; [done|].
    cbn [fold_left]. apply IH; [intros r Hr; apply Hpart; by right|].
    apply add_to_group_keys; [apply Hpart; by left|done]. }
  intros Hin. specialize (H rows [] (fun row Hrow => ex_intro _ row (conj Hrow eq_refl))
                            (List.Forall_nil _)).
  rewrite List.Forall_forall in H. exact (H _ Hin).
Qed.

Lemma sorted_keys_NoDup (groups : list (string * Z)) :
  StronglySorted key_before groups -> List.NoDup (map fst groups).
Proof.
  induction 1 as [|g rest Hrest IH Hall]; cbn; constructor; [|done].
  intros Hin. apply in_map_iff in Hin as (y & Hy & Hin).
  rewrite Forall_forall in Hall. apply list_elem_of_In in Hin.
  specialize (Hall y Hin). unfold key_before in Hall.
  rewrite Hy in Hall. by rewrite string_compare_refl in Hall.
Qed.

Lemma filter_filter_category (customer_id category : string) (df : DataFrame) :
  List.filter (Spending.is_debit_in customer_id category) df =
    List.filter (in_category category) (List.filter (is_debit_of customer_id) df).
Proof.
  induction df as [|row df IH]; [done|]. cbn [List.filter].
  unfold Spending.is_debit_in at 1, is_debit_of at 1.
  destruct (String.eqb (cust_id row) customer_id && String.eqb (dr_cr_indctor row) "DR");
    cbn [andb List.filter]; [|done].
  unfold in_category at 1. destruct (String.eqb (category_of_txn row) category); by rewrite IH.
Qed.

(** X10.  The ranking of top_spending_categories names every category at
    most once, and each of its entries agrees with get_spending_by_category:
    asked for the same customer and that category, it reports the same
    total, over at least one transaction. *)
Theorem ranking_agrees_with_category_query :
  forall (df : DataFrame) (customer_id : string) (top_n : Z),
  List.NoDup (map fst (top_cats df customer_id top_n)) /\
  (forall cat total,
     In (cat, total) (top_cats df customer_id top_n) ->
     Spending.get_spending_by_category df customer_id cat =
       "Customer " +:+ customer_id +:+ " spent $" +:+ format_2f total +:+ " on " +:+ cat +:+
       " across " +:+
       str_int (Z.of_nat (length (List.filter (Spending.is_debit_in customer_id cat) df))) +:+
       " transactions" /\
     (1 <= length (List.filter (Spending.is_debit_in customer_id cat) df))%nat).
Proof.
  intros df customer_id top_n. split.
  - unfold top_cats, head.
    assert (List.NoDup (map fst (sort_values_desc
              (groupby_sum (List.filter (is_debit_of customer_id) df))))) as Hnd.
    { eapply Permutation_NoDup;
        [apply Permutation_map; symmetry; apply sort_values_desc_Permutation|].
      apply sorted_keys_NoDup, groupby_sum_sorted. }
    destruct (0 <=? top_n); by apply NoDup_map_firstn.
  - intros cat total Hin. apply top_cats_In in Hin.
    pose proof (sorted_amount_of _ _ _ (groupby_sum_sorted _) Hin) as Hamount.
    rewrite groupby_sum_amount in Hamount. unfold total_in in Hamount.
    split.
    + unfold Spending.get_spending_by_category. cbn zeta.
      by rewrite filter_filter_category, Hamount.
    + apply groupby_sum_keys in Hin as (row & Hrow & Hcat).
      rewrite filter_filter_category.
      assert (In row (List.filter (in_category cat)
                        (List.filter (is_debit_of customer_id) df))) as Hsel.
      { apply filter_In. split; [done|]. unfold in_category. by apply String.eqb_eq. }
      destruct (List.filter (in_category cat) (List.filter (is_debit_of customer_id) df));
        [destruct Hsel|cbn; lia].
Qed.

(** EMI is ranked second for CUST0001, with 300.00 over two transactions. *)
Lemma ranking_agrees_with_category_query_witness :
  Spending.get_spending_by_category Stub.sample_df "CUST0001" "EMI" =
    "Customer CUST0001 spent $300.00 on EMI across 2 transactions".
Proof.
  refine (proj1 (proj2 (ranking_agrees_with_category_query Stub.sample_df "CUST0001" 2)
                   "EMI" 30000 _)).
  vm_compute. tauto.
Defined.

Lemma string_leb_trans (a b c : string) :
  String.leb a b = true -> String.leb b c = true -> String.leb a c = true.
Proof.
  intros Hab Hbc.
  assert (String.le a c) as H.
  { etrans; unfold String.le; [by rewrite Hab|by rewrite Hbc]. }
  unfold String.le in H. by destruct (String.leb a c).
Qed.

(** X12.  When end_date is before start_date no row is in the range:
    spending_in_date_range reports 0.00 over 0 transactions. *)
Theorem empty_date_range :
  forall (df : DataFrame) (customer_id start_date end_date : string),
    String.ltb end_date start_date = true ->
    spending_in_date_range df customer_id start_date end_date =
      "Customer " +:+ customer_id +:+ " spent $0.00 between " +:+ start_date +:+ " and " +:+
      end_date +:+ " (0 transactions)".
Proof.
  intros df customer_id start_date end_date Hlt. unfold spending_in_date_range.
  rewrite filter_none; [reflexivity|].
  intros row _. apply not_true_iff_false. intros Hsel.
  apply in_date_range_true in Hsel as (_ & _ & H1 & H2).
  pose proof (string_leb_trans _ _ _ H1 H2) as Hle.
  unfold String.ltb in Hlt. unfold String.leb in Hle.
  rewrite String.compare_antisym in Hle. by destruct (String.compare end_date start_date).
Qed.

Lemma empty_date_range_witness :
  spending_in_date_range Stub.sample_df "CUST0001" "2025-07-31" "2025-07-01" =
    "Customer CUST0001 spent $0.00 between 2025-07-31 and 2025-07-01 (0 transactions)".
Proof.
  refine (empty_date_range Stub.sample_df "CUST0001" "2025-07-31" "2025-07-01" _).
  reflexivity.
Defined.

Lemma filter_ext_in_bool {A : Type} (f g : A -> bool) (l : list A) :
  (forall x, In x l -> f x = g x) -> List.filter f l = List.filter g l.
Proof.
  induction l as [|x l IH]; intros H; [done|]. cbn.
  rewrite (H x) by by left. rewrite IH; [done|]. intros y Hy. apply H. by right.
Qed.

(** X13.  When the range covers the dates of all debit rows of the
    customer, spending_in_date_range selects exactly the rows that
    get_total_spending adds up, and so reports the same amount. *)
Theorem covering_range_is_total_spending :
  forall (df : DataFrame) (customer_id start_date end_date : string),
    (forall row, In row df -> is_debit_of customer_id row = true ->
       String.leb start_date (tran_date row) = true /\
       String.leb (tran_date row) end_date = true) ->
    List.filter (in_date_range customer_id start_date end_date) df
      = List.filter (is_debit_of customer_id) df /\
    spending_in_date_range df customer_id start_date end_date =
      "Customer " +:+ customer_id +:+ " spent $" +:+
      format_2f (sum (map tran_amt_in_ac (List.filter (is_debit_of customer_id) df))) +:+
      " between " +:+ start_date +:+ " and " +:+ end_date +:+ " (" +:+
      str_int (Z.of_nat (length (List.filter (is_debit_of customer_id) df))) +:+
      " transactions)" /\
    get_total_spending df customer_id =
      "Customer " +:+ customer_id +:+ " total spending: $" +:+
      format_2f (sum (map tran_amt_in_ac (List.filter (is_debit_of customer_id) df))).
Proof.
  intros df customer_id start_date end_date Hcover.
  assert (List.filter (in_date_range customer_id start_date end_date) df
          = List.filter (is_debit_of customer_id) df) as Heq.
  { apply filter_ext_in_bool. intros row Hrow. unfold in_date_range.
    fold (is_debit_of customer_id row).
    destruct (is_debit_of customer_id row) eqn:Hdebit; [|done].
    destruct (Hcover row Hrow Hdebit) as [-> ->]. done. }
  split; [done|]. split; [|done].
  unfold spending_in_date_range. cbn zeta. by rewrite Heq.
Qed.

Lemma covering_range_is_total_spending_witness :
  spending_in_date_range Stub.sample_df "CUST0001" "2025-01-01" "2025-12-31" =
    "Customer CUST0001 spent $900.00 between 2025-01-01 and 2025-12-31 (5 transactions)".
Proof.
  refine (proj1 (proj2 (covering_range_is_total_spending Stub.sample_df "CUST0001"
                          "2025-01-01" "2025-12-31" _))).
  intros row Hrow Hdebit. cbn in Hrow.
  repeat (destruct Hrow as [<-|Hrow]; [by (split; reflexivity) || discriminate Hdebit|]).
  destruct Hrow.
Defined.

Lemma filter_length_le {A : Type} (f g : A -> bool) (l : list A) :
  (forall x, In x l -> f x = true -> g x = true) ->
  (length (List.filter f l) <= length (List.filter g l))%nat.
Proof.
  induction l as [|x l IH]; intros H; [done|]. cbn.
  assert (length (List.filter f l) <= length (List.filter g l))%nat as Hle.
  { apply IH. intros y Hy. apply H. by right. }
  destruct (f x) eqn:Hf.
  - rewrite (H x) by (done || by left). cbn. lia.
  - destruct (g x); cbn; lia.
Qed.

Lemma filter_sum_le (f g : Transaction -> bool) (l : DataFrame) :
  (forall x, In x l -> f x = true -> g x = true) ->
  (forall x, In x l -> 0 <= tran_amt_in_ac x) ->
  sum (map tran_amt_in_ac (List.filter f l)) <= sum (map tran_amt_in_ac (List.filter g l)).
Proof.
  induction l as [|x l IH]; intros H Hpos; [done|]. cbn [List.filter].
  assert (sum (map tran_amt_in_ac (List.filter f l))
          <= sum (map tran_amt_in_ac (List.filter g l))) as Hle.
  { apply IH; intros y Hy; [apply H|apply Hpos]; by right. }
  pose proof (Hpos x (or_introl eq_refl)) as Hx.
  destruct (f x) eqn:Hf.
  - rewrite (H x) by (done || by left). cbn [map]. rewrite !sum_cons. lia.
  - destruct (g x); cbn [map]; rewrite ?sum_cons; lia.
Qed.

(** X14.  Widening the date range never loses a transaction.  With an
    earlier or equal start and a later or equal end, the number of
    transactions that spending_in_date_range reports for the wide range is
    not smaller than the number it reports for the narrow range, and neither
    is the amount when no amount of the dataset is negative: what the tool
    reports are the number and the amount of the rows selected, and every
    row selected for the narrow range is selected for the wide one. *)
Theorem widening_date_range :
  forall (df : DataFrame) (customer_id start_date end_date start_date' end_date' : string),
    String.leb start_date' start_date = true ->
    String.leb end_date end_date' = true ->
    spending_in_date_range df customer_id start_date end_date =
      "Customer " +:+ customer_id +:+ " spent $" +:+
      format_2f (sum (map tran_amt_in_ac
                        (List.filter (in_date_range customer_id start_date end_date) df))) +:+
      " between " +:+ start_date +:+ " and " +:+ end_date +:+ " (" +:+
      str_int (Z.of_nat (length (List.filter (in_date_range customer_id start_date end_date)
                                   df))) +:+
      " transactions)" /\
    spending_in_date_range df customer_id start_date' end_date' =
      "Customer " +:+ customer_id +:+ " spent $" +:+
      format_2f (sum (map tran_amt_in_ac
                        (List.filter (in_date_range customer_id start_date' end_date') df))) +:+
      " between " +:+ start_date' +:+ " and " +:+ end_date' +:+ " (" +:+
      str_int (Z.of_nat (length (List.filter (in_date_range customer_id start_date' end_date')
                                   df))) +:+
      " transactions)" /\
    (length (List.filter (in_date_range customer_id start_date end_date) df)
       <= length (List.filter (in_date_range customer_id start_date' end_date') df))%nat /\
    ((forall row, In row df -> 0 <= tran_amt_in_ac row) ->
     sum (map tran_amt_in_ac (List.filter (in_date_range customer_id start_date end_date) df))
       <= sum (map tran_amt_in_ac
                 (List.filter (in_date_range customer_id start_date' end_date') df))) /\
    (forall row,
       In row (List.filter (in_date_range customer_id start_date end_date) df) ->
       In row (List.filter (in_date_range customer_id start_date' end_date') df)).
Proof.
  intros df customer_id start_date end_date start_date' end_date' Hstart Hend.
  assert (forall row, in_date_range customer_id start_date end_date row = true ->
                      in_date_range customer_id start_date' end_date' row = true) as Himp.
  { intros row Hsel. apply in_date_range_true in Hsel as (Hc & Hd & H1 & H2).
    apply in_date_range_true. repeat split; [done..| |]; by eapply string_leb_trans. }
  split; [reflexivity|]. split; [reflexivity|]. split; [|split].
  - apply filter_length_le. auto.
  - intros Hpos. apply filter_sum_le; auto.
  - intros row Hrow. apply filter_In in Hrow as [Hin Hsel]. apply filter_In. auto.
Qed.

(** From 2025-07-05 to 2025-07-10 the tool reports 600.00 over two
    transactions of CUST0001; for the whole of July, 900.00 over five. *)
Lemma widening_date_range_witness :
  spending_in_date_range Stub.sample_df "CUST0001" "2025-07-05" "2025-07-10" =
    "Customer CUST0001 spent $600.00 between 2025-07-05 and 2025-07-10 (2 transactions)" /\
  spending_in_date_range Stub.sample_df "CUST0001" "2025-07-01" "2025-07-31" =
    "Customer CUST0001 spent $900.00 between 2025-07-01 and 2025-07-31 (5 transactions)" /\
  (2 <= 5)%nat.
Proof.
  refine (let H := widening_date_range Stub.sample_df "CUST0001"
                     "2025-07-05" "2025-07-10" "2025-07-01" "2025-07-31" _ _ in
          conj (proj1 H) (conj (proj1 (proj2 H)) (proj1 (proj2 (proj2 H)))));
    reflexivity.
Defined.

(** X15.  top_spending_categories returns its header line alone when the
    customer has no debit row, and when top_n is 0. *)
Theorem ranking_header_only :
  forall (df : DataFrame) (customer_id : string),
  (forall top_n,
     (forall row, In row df ->
        ~ (cust_id row = customer_id /\ dr_cr_indctor row = "DR")) ->
     top_spending_categories df customer_id top_n =
       "Top " +:+ str_int top_n +:+ " spending categories for " +:+ customer_id +:+ ":" +:+ nl) /\
  top_spending_categories df customer_id 0 =
    "Top 0 spending categories for " +:+ customer_id +:+ ":" +:+ nl.
Proof.
  intros df customer_id. split; [|done].
  intros top_n Hnone. unfold top_spending_categories, top_cats.
  rewrite filter_none.
  - unfold head. cbn. by destruct (0 <=? top_n); rewrite firstn_nil.
  - intros row Hrow. apply list_elem_of_In in Hrow. specialize (Hnone row Hrow).
    unfold is_debit_of.
    destruct (String.eqb_spec (cust_id row) customer_id) as [Hc|Hc]; [|done].
    destruct (String.eqb_spec (dr_cr_indctor row) "DR") as [Hd|Hd]; [|done].
    by destruct Hnone.
Qed.

Lemma ranking_header_only_witness :
  top_spending_categories Stub.sample_df "CUST0003" 5 =
    "Top 5 spending categories for CUST0003:" +:+ nl.
Proof.
  refine (proj1 (ranking_header_only Stub.sample_df "CUST0003") 5 _).
  intros row Hrow [Hc Hd]. revert Hc Hd. cbn in Hrow.
  repeat (destruct Hrow as [<-|Hrow]; [cbn; congruence|]). destruct Hrow.
Defined.

(** X16.  For a category in which the customer has no debit row,
    get_spending_by_category reports 0.00 across 0 transactions. *)
Theorem category_without_rows :
  forall (df : DataFrame) (customer_id category : string),
    (forall row, In row df ->
       ~ (cust_id row = customer_id /\ dr_cr_indctor row = "DR" /\
          category_of_txn row = category)) ->
    Spending.get_spending_by_category df customer_id category =
      "Customer " +:+ customer_id +:+ " spent $0.00 on " +:+ category +:+
      " across 0 transactions".
Proof.
  intros df customer_id category Hnone. unfold Spending.get_spending_by_category.
  rewrite filter_none; [reflexivity|].
  intros row Hrow. apply list_elem_of_In in Hrow. specialize (Hnone row Hrow).
  unfold Spending.is_debit_in.
  destruct (String.eqb_spec (cust_id row) customer_id) as [Hc|Hc]; [|done].
  destruct (String.eqb_spec (dr_cr_indctor row) "DR") as [Hd|Hd]; [|done].
  destruct (String.eqb_spec (category_of_txn row) category) as [Hk|Hk]; [|done].
  by destruct Hnone.
Qed.

Lemma category_without_rows_witness :
  Spending.get_spending_by_category Stub.sample_df "CUST0001" "Travel" =
    "Customer CUST0001 spent $0.00 on Travel across 0 transactions".
Proof.
  refine (category_without_rows Stub.sample_df "CUST0001" "Travel" _).
  intros row Hrow (Hc & Hd & Hk). revert Hc Hd Hk. cbn in Hrow.
  repeat (destruct Hrow as [<-|Hrow]; [cbn; congruence|]). destruct Hrow.
Defined.

(** X17.  get_total_spending and get_total_income depend on the rows they
    select only: rows of other customers, and rows of the other kind,
    anywhere in the dataset, leave the answer as it is. *)
Theorem totals_ignore_other_rows :
  forall (before extra after : DataFrame) (customer_id : string),
  ((forall row, In row extra -> is_debit_of customer_id row = false) ->
   get_total_spending (before ++ extra ++ after) customer_id
     = get_total_spending (before ++ after) customer_id) /\
  ((forall row, In row extra -> Income.is_credit_of customer_id row = false) ->
   Income.get_total_income (before ++ extra ++ after) customer_id
     = Income.get_total_income (before ++ after) customer_id).
Proof.
  intros before extra after customer_id. split; intros Hnone.
  - unfold get_total_spending. cbn zeta. rewrite !List.filter_app.
    rewrite (filter_none _ extra); [done|].
    intros row Hrow. apply Hnone. by apply list_elem_of_In.
  - unfold Income.get_total_income. cbn zeta. rewrite !List.filter_app.
    rewrite (filter_none _ extra); [done|].
    intros row Hrow. apply Hnone. by apply list_elem_of_In.
Qed.

(** A salary of CUST0001 and a rent of CUST0002 between the debit rows. *)
Lemma totals_ignore_other_rows_witness :
  get_total_spending
    ([mkTransaction "CUST0001" "DR" "2025-07-01" 6000 "UPI" "Groceries"] ++
     [mkTransaction "CUST0001" "CR" "2025-07-10" 3000000 "NEFT" "Salary";
      mkTransaction "CUST0002" "DR" "2025-07-12" 75000 "NEFT" "Rent"] ++
     [mkTransaction "CUST0001" "DR" "2025-07-31" 4000 "CARD" "Groceries"]) "CUST0001"
  = get_total_spending
    ([mkTransaction "CUST0001" "DR" "2025-07-01" 6000 "UPI" "Groceries"] ++
     [mkTransaction "CUST0001" "DR" "2025-07-31" 4000 "CARD" "Groceries"]) "CUST0001".
Proof.
  refine (proj1 (totals_ignore_other_rows _ _ _ "CUST0001") _).
  intros row [<-|[<-|[]]]; reflexivity.
Defined.

Lemma unique_spec (seen values : list string) :
  List.NoDup (unique seen values) /\
  (forall v, In v (unique seen values) <-> In v values /\ ~ In v seen).
Proof.
  revert seen. induction values as [|v rest IH]; intros seen.
  - split; [constructor|]. cbn. tauto.
  - cbn [unique]. destruct (existsb (String.eqb v) seen) eqn:Hseen.
    + destruct (IH seen) as [Hnd Hin]. split; [done|].
      intros w. rewrite Hin. cbn. split; [tauto|].
      intros [[<-|Hw] Hns]; [|tauto]. exfalso. apply Hns.
      apply existsb_exists in Hseen as (x & Hx & Heq).
      by apply String.eqb_eq in Heq as ->.
    + assert (~ In v seen) as Hv.
      { intros Hin. apply not_true_iff_false in Hseen. apply Hseen.
        apply existsb_exists. exists v. split; [done|apply String.eqb_refl]. }
      destruct (IH (v :: seen)) as [Hnd Hin]. split.
      * constructor; [|done]. rewrite Hin. cbn. tauto.
      * intros w. cbn. rewrite Hin. cbn.
        destruct (String.eqb_spec v w) as [->|Hne]; [tauto|]. split; [tauto|].
        intros [[?|?] ?]; [done|]. right. repeat split; [done|]. intros [?|?]; done.
Qed.

Lemma unique_sublist (seen values : list string) : sublist (unique seen values) values.
Proof.
  revert seen. induction values as [|v rest IH]; intros seen; [constructor|].
  cbn [unique]. destruct (existsb (String.eqb v) seen); by constructor.
Qed.

(** X18.  The text of list_customers is "Available customers: " followed
    by customer ids separated by ", ": in the tool of adding_tools.py every
    customer id of the dataset, each once, in the order of the dataset; in
    the tool of react.py the first ten of them, followed by "..." when there
    are more than ten.  So the two tools give the same text when the dataset
    has no more than ten customers. *)
Theorem list_customers_distinct :
  forall (df : DataFrame),
  AddingTools.list_customers df =
    "Available customers: " +:+ str_join ", " (unique [] (map cust_id df)) /\
  ReactTools.list_customers df =
    "Available customers: " +:+ str_join ", " (firstn 10 (unique [] (map cust_id df))) +:+
    (if 10 <? Z.of_nat (length (unique [] (map cust_id df))) then "..." else "") /\
  List.NoDup (unique [] (map cust_id df)) /\
  (forall c, In c (unique [] (map cust_id df)) <-> exists row, In row df /\ cust_id row = c) /\
  sublist (unique [] (map cust_id df)) (map cust_id df) /\
  (length (firstn 10 (unique [] (map cust_id df))) <= 10)%nat /\
  ((length (unique [] (map cust_id df)) <= 10)%nat ->
   ReactTools.list_customers df = AddingTools.list_customers df).
Proof.
  intros df. destruct (unique_spec [] (map cust_id df)) as [Hnd Hin].
  split; [reflexivity|]. split; [reflexivity|]. split; [done|].
  split; [|split; [|split]].
  - intros c. rewrite Hin, in_map_iff. cbn. split.
    + intros [(row & Hc & Hrow) _]. by exists row.
    + intros (row & Hrow & Hc). split; [by exists row|tauto].
  - apply unique_sublist.
  - apply firstn_le_length.
  - intros Hlen. unfold ReactTools.list_customers, AddingTools.list_customers. cbn zeta.
    rewrite firstn_all2 by done.
    replace (10 <? Z.of_nat (length (unique [] (map cust_id df)))) with false by lia.
    by rewrite string_app_nil_r.
Qed.

(** The sample dataset has three customers; both tools list them. *)
Lemma list_customers_distinct_witness :
  ReactTools.list_customers Stub.sample_df
    = "Available customers: CUST0001, CUST0002, CUST0003" /\
  AddingTools.list_customers Stub.sample_df
    = "Available customers: CUST0001, CUST0002, CUST0003".
Proof.
  split.
  - refine (eq_trans
              (proj2 (proj2 (proj2 (proj2 (proj2 (proj2
                 (list_customers_distinct Stub.sample_df)))))) _) _).
    + vm_compute. lia.
    + reflexivity.
  - exact (proj1 (list_customers_distinct Stub.sample_df)).
Defined.

End ToolProperties.

(** ** Dates *)

Section DateFacts.

Import Tools Dates.

Lemma digit_compare (a b : Z) :
  0 <= a <= 9 -> 0 <= b <= 9 -> Ascii.compare (digit a) (digit b) = Z.compare a b.
Proof.
  intros Ha Hb. unfold Ascii.compare, digit, ascii_of_nat.
  rewrite !N_ascii_embedding by lia.
  rewrite <- N2Z.inj_compare, !nat_N_Z, !Nat2Z.inj_add, !Z2Nat.id by lia.
  apply Z.add_compare_mono_l.
Qed.

Lemma four_digits (y : Z) :
  1000 <= y <= 9999 ->
  exists a b c d, 0 <= a <= 9 /\ 0 <= b <= 9 /\ 0 <= c <= 9 /\ 0 <= d <= 9 /\
    y / 1000 = a /\ y / 100 mod 10 = b /\ y / 10 mod 10 = c /\ y mod 10 = d /\
    y = 1000 * a + 100 * b + 10 * c + d.
Proof.
  intros Hy. exists (y / 1000), (y / 100 mod 10), (y / 10 mod 10), (y mod 10).
  repeat split; try reflexivity; Z.div_mod_to_equations; lia.
Qed.

Lemma two_digits_of (m : Z) :
  0 <= m <= 99 ->
  exists a b, 0 <= a <= 9 /\ 0 <= b <= 9 /\ m / 10 = a /\ m mod 10 = b /\ m = 10 * a + b.
Proof.
  intros Hm. exists (m / 10), (m mod 10).
  repeat split; try reflexivity; Z.div_mod_to_equations; lia.
Qed.

(** On dates written by strftime("%Y-%m-%d") the comparison of str is the
    order of the calendar. *)
Lemma strftime_order (y1 m1 d1 y2 m2 d2 : Z) :
  well_formed y1 m1 d1 -> well_formed y2 m2 d2 ->
  String.leb (strftime_Ymd y1 m1 d1) (strftime_Ymd y2 m2 d2) = true <->
  not_after y1 m1 d1 y2 m2 d2.
Proof.
  intros (Hy1 & Hm1 & Hd1) (Hy2 & Hm2 & Hd2).
  destruct (four_digits y1 Hy1) as (a3 & a2 & a1 & a0 & ? & ? & ? & ? & A3 & A2 & A1 & A0 & Ey1).
  destruct (four_digits y2 Hy2) as (b3 & b2 & b1 & b0 & ? & ? & ? & ? & B3 & B2 & B1 & B0 & Ey2).
  destruct (two_digits_of m1 ltac:(lia)) as (p1 & p0 & ? & ? & P1 & P0 & Em1).
  destruct (two_digits_of m2 ltac:(lia)) as (q1 & q0 & ? & ? & Q1 & Q0 & Em2).
  destruct (two_digits_of d1 ltac:(lia)) as (r1 & r0 & ? & ? & R1 & R0 & Ed1).
  destruct (two_digits_of d2 ltac:(lia)) as (s1 & s0 & ? & ? & S1 & S0 & Ed2).
  unfold String.leb, strftime_Ymd, not_after.
  rewrite A3, A2, A1, A0, B3, B2, B1, B0, P1, P0, Q1, Q0, R1, R0, S1, S0.
  clear A3 A2 A1 A0 B3 B2 B1 B0 P1 P0 Q1 Q0 R1 R0 S1 S0.
  cbn [String.compare].
  rewrite !digit_compare by lia.
  replace (Ascii.compare (ascii_of_nat 45) (ascii_of_nat 45)) with Eq by reflexivity.
  repeat match goal with
         | |- context [Z.compare ?a ?b] => destruct (Z.compare_spec a b)
         end;
    split; intros; try discriminate; try reflexivity; try lia.
Qed.

(** X19.  On a dataset whose dates are written by strftime("%Y-%m-%d"),
    as the generator writes them, spending_in_date_range asked with two such
    dates selects exactly the debit rows of the customer that are dated on
    or after the start day and on or before the end day of the calendar. *)
Theorem date_range_is_calendar_range :
  forall (customer_id : string) (row : Transaction)
    (ys ms ds ye me de yr mr dr : Z),
    well_formed ys ms ds -> well_formed ye me de -> well_formed yr mr dr ->
    tran_date row = strftime_Ymd yr mr dr ->
    in_date_range customer_id (strftime_Ymd ys ms ds) (strftime_Ymd ye me de) row = true <->
    cust_id row = customer_id /\ dr_cr_indctor row = "DR" /\
    not_after ys ms ds yr mr dr /\ not_after yr mr dr ye me de.
Proof.
  intros customer_id row ys ms ds ye me de yr mr dr Hs He Hr Hdate.
  rewrite in_date_range_true, Hdate, !strftime_order by done. tauto.
Qed.

(** The row of 2025-07-31 is in July 2025 and not in June 2025. *)
Lemma date_range_is_calendar_range_witness :
  in_date_range "CUST0001" (strftime_Ymd 2025 7 1) (strftime_Ymd 2025 7 31)
    (mkTransaction "CUST0001" "DR" "2025-07-31" 4000 "CARD" "Groceries") = true <->
  "CUST0001" = "CUST0001" /\ "DR" = "DR" /\
  not_after 2025 7 1 2025 7 31 /\ not_after 2025 7 31 2025 7 31.
Proof.
  refine (date_range_is_calendar_range "CUST0001"
            (mkTransaction "CUST0001" "DR" "2025-07-31" 4000 "CARD" "Groceries")
            2025 7 1 2025 7 31 2025 7 31 _ _ _ _);
    try reflexivity; unfold well_formed; lia.
Defined.

End DateFacts.

(** ** The financial agent *)

(** X20.  analyze_customer and compare_spending of a FinancialAgent make at
    most 10 model calls, and every conversation they hand to the model
    starts with one HumanMessage: the financial analyst prompt combined with
    the question, which names the customer, as get_prompt_with_question
    combines them. *)
Theorem financial_agent_runs :
  forall (Client : Type)
    (model_invoke : Client -> list BaseMessage -> Client * Outcome AIMessage)
    (ALL_TOOLS : list BaseTool) (tools : option (list BaseTool)) (verbose : option bool)
    (client : Client),
  (forall customer_id,
     (length (model_calls
        (fst (Financial.analyze_customer model_invoke
                (Financial.init ALL_TOOLS tools verbose) customer_id client))) <= 10)%nat /\
     (forall k entry,
        model_calls
          (fst (Financial.analyze_customer model_invoke
                  (Financial.init ALL_TOOLS tools verbose) customer_id client)) !! k
          = Some entry ->
        [HumanMessage (Prompts.get_prompt_with_question Financial.FINANCIAL_ANALYST_PROMPT
                         (Financial.analysis_question customer_id))]
          `prefix_of` call_input entry)) /\
  (forall customer_id category1 category2,
     (length (model_calls
        (fst (Financial.compare_spending model_invoke
                (Financial.init ALL_TOOLS tools verbose) customer_id category1 category2
                client))) <= 10)%nat /\
     (forall k entry,
        model_calls
          (fst (Financial.compare_spending model_invoke
                  (Financial.init ALL_TOOLS tools verbose) customer_id category1 category2
                  client)) !! k
          = Some entry ->
        [HumanMessage (Prompts.get_prompt_with_question Financial.FINANCIAL_ANALYST_PROMPT
                         (Financial.comparison_question customer_id category1 category2))]
          `prefix_of` call_input entry)).
Proof.
  intros Client model_invoke ALL_TOOLS tools verbose client.
  assert (forall question,
     (length (model_calls
        (fst (Base.invoke model_invoke (Financial.init ALL_TOOLS tools verbose)
                question client))) <= 10)%nat /\
     (forall k entry,
        model_calls
          (fst (Base.invoke model_invoke (Financial.init ALL_TOOLS tools verbose)
                  question client)) !! k = Some entry ->
        [HumanMessage (Prompts.get_prompt_with_question Financial.FINANCIAL_ANALYST_PROMPT
                         question)]
          `prefix_of` call_input entry)) as Hinvoke.
  { intros question.
    destruct (invoke_Run model_invoke (Financial.init ALL_TOOLS tools verbose)
                question client) as [_ HRun].
    split.
    - by apply Run_bound in HRun.
    - intros k entry Hk. apply Run_append_only in HRun as (_ & Hcalls & _).
      by destruct (Hcalls k entry Hk). }
  split.
  - intros customer_id. apply Hinvoke.
  - intros customer_id category1 category2. apply Hinvoke.
Qed.

(** The second call of an analysis of CUST0001 still starts with the
    prompt and the question. *)
Lemma financial_agent_runs_witness :
  [HumanMessage (Prompts.get_prompt_with_question Financial.FINANCIAL_ANALYST_PROMPT
                   (Financial.analysis_question "CUST0001"))]
    `prefix_of`
  [HumanMessage (Prompts.get_prompt_with_question Financial.FINANCIAL_ANALYST_PROMPT
                   (Financial.analysis_question "CUST0001"));
   AI (mkAIMessage "" [Stub.good_call]);
   ToolMessage "Customer CUST0001 total spending: $900.00" "call_1"].
Proof.
  refine (proj2 (proj1 (financial_agent_runs (list AIMessage) Stub.scripted
                          [Tools.get_total_spending_tool Stub.sample_df] None None
                          [mkAIMessage "" [Stub.good_call]; mkAIMessage "done" []])
                   "CUST0001")
            1%nat
            (mkModelCall
               [HumanMessage (Prompts.get_prompt_with_question
                                Financial.FINANCIAL_ANALYST_PROMPT
                                (Financial.analysis_question "CUST0001"));
                AI (mkAIMessage "" [Stub.good_call]);
                ToolMessage "Customer CUST0001 total spending: $900.00" "call_1"]
               (Invoked (Return (mkAIMessage "done" [])))) _).
  vm_compute. reflexivity.
Defined.
